(** * Data-Governance-Framework: data-quality validator, lineage tracker and
      metadata extractor, embedded from the Python sources.

    Source files:
    - [src/quality/data_quality_validator.py]  (modules [Quality], [Validation])
    - [src/lineage/lineage_tracker.py]         (modules [Nx], [Lineage], [History])
    - [src/metadata/metadata_extractor.py]     (modules [Metadata], [Catalog])
    - [src/connection/snowflake_connection.py] (module [Driver])
    - [src/pipeline.py]                        (module [Pipeline])

    Modelling conventions.
    - A Python value is a [pyval]; a [dict] with string keys is a
      [gmap string pyval] (Python compares dicts extensionally, as [gmap]
      does).  Dicts whose iteration order is observed are association lists.
    - A Python [float] is an exact rational ([Qc]): binary rounding is not
      modelled, [round(x, n)] rounds half to even on the exact value.
    - A call either returns or raises: [outcome A].  [except Exception] is
      [try_except]; only [Exception] instances are modelled.
    - The warehouse connection ([SnowflakeConnection.execute_query]) and the
      clock ([datetime.utcnow().isoformat()]) are outside the repository's
      logic: they are section variables.
    - A method that changes an object it holds, or calls the connection for
      effect, is a function on that state ([PyState.stateful]); the calls
      made for effect are kept in a log of [Driver.call]. *)

From Stdlib Require Import ZArith QArith Qcanon Qround Ascii.
From stdpp Require Import gmap strings list pretty numbers.

Set Warnings "-register-all".

(* ===================================================================== *)
(** * Python values, exceptions and the built-ins the sources use *)
(* ===================================================================== *)

Module Py.

(** Values that flow through the three components.  [VOther ty text] is any
    other object handed over by the driver (a [datetime], say) that is not a
    number: [ty] is its type name and [text] what [str()] gives for it. *)
Inductive pyval :=
| VNone
| VInt (n : Z)
| VNum (q : Qc)
| VStr (s : string)
| VOther (ty : string) (text : string)
| VList (l : list pyval)
| VDict (d : gmap string pyval).

Abbreviation dict := (gmap string pyval).

Inductive exn :=
| KeyError (key : string)
| IndexError
| TypeError (msg : string)
| ZeroDivisionError (msg : string)
| AttributeError (msg : string)
| NetworkXError (msg : string)
| DriverError (msg : string).

(** [str(e)] *)
Definition exn_str (e : exn) : string :=
  match e with
  | KeyError k => "'" +:+ k +:+ "'"
  | IndexError => "list index out of range"
  | TypeError m => m
  | ZeroDivisionError m => m
  | AttributeError m => m
  | NetworkXError m => m
  | DriverError m => m
  end.

Inductive outcome (A : Type) :=
| Return (a : A)
| Raise (e : exn).
Arguments Return {A} a.
Arguments Raise {A} e.

#[global] Instance outcome_ret : MRet outcome := @Return.
#[global] Instance outcome_bind : MBind outcome := fun A B f m =>
  match m with
  | Return a => f a
  | Raise e => Raise e
  end.

(** [try: body / except Exception as e: handler e] *)
Definition try_except {A} (body : outcome A) (handler : exn -> outcome A) : outcome A :=
  match body with
  | Return a => Return a
  | Raise e => handler e
  end.

(** A [for] loop whose body may raise, threading the loop state. *)
Fixpoint for_each {A S} (body : S -> A -> outcome S) (xs : list A) (s : S) : outcome S :=
  match xs with
  | [] => Return s
  | x :: xs' => s' ← body s x; for_each body xs' s'
  end.

Definition type_name (v : pyval) : string :=
  match v with
  | VNone => "NoneType"
  | VInt _ => "int"
  | VNum _ => "float"
  | VStr _ => "str"
  | VOther ty _ => ty
  | VList _ => "list"
  | VDict _ => "dict"
  end.

(** [d[k]] *)
Definition getitem (d : dict) (k : string) : outcome pyval :=
  match d !! k with
  | Some v => Return v
  | None => Raise (KeyError k)
  end.

(** [d.get(k, default)] and [d.get(k)] *)
Definition get (d : dict) (k : string) (default : pyval) : pyval :=
  match d !! k with
  | Some v => v
  | None => default
  end.

Definition get_none (d : dict) (k : string) : pyval := get d k VNone.

(** [l[0]] *)
Definition first {A} (l : list A) : outcome A :=
  match l with
  | x :: _ => Return x
  | [] => Raise IndexError
  end.

(** [v == 'literal'] *)
Definition eq_str (v : pyval) (s : string) : bool :=
  match v with
  | VStr s' => bool_decide (s' = s)
  | _ => false
  end.

(** [v == n] for an integer literal [n] *)
Definition eq_int (v : pyval) (n : Z) : bool :=
  match v with
  | VInt m => bool_decide (m = n)
  | VNum q => bool_decide (q = Qc_of_Z n)
  | _ => false
  end.

(** Truth value: [if v] / [not v] *)
Definition truthy (v : pyval) : bool :=
  match v with
  | VNone => false
  | VInt n => negb (bool_decide (n = 0%Z))
  | VNum q => negb (bool_decide (q = 0%Qc))
  | VStr s => negb (bool_decide (s = ""))
  | VOther _ _ => true
  | VList l => match l with [] => false | _ => true end
  | VDict d => negb (bool_decide (d = ∅))
  end.

Definition as_number (v : pyval) : option Qc :=
  match v with
  | VInt n => Some (Qc_of_Z n)
  | VNum q => Some q
  | _ => None
  end.

Definition binop_error (op : string) (a b : pyval) : exn :=
  TypeError ("unsupported operand type(s) for " +:+ op +:+ ": '" +:+ type_name a
             +:+ "' and '" +:+ type_name b +:+ "'").

Definition cmp_error (op : string) (a b : pyval) : exn :=
  TypeError ("'" +:+ op +:+ "' not supported between instances of '" +:+ type_name a
             +:+ "' and '" +:+ type_name b +:+ "'").

(** [a + b] on numbers ([int + int] stays an [int]) *)
Definition add (a b : pyval) : outcome pyval :=
  match a, b with
  | VInt x, VInt y => Return (VInt (x + y))
  | _, _ =>
      match as_number a, as_number b with
      | Some x, Some y => Return (VNum (x + y))
      | _, _ => Raise (binop_error "+" a b)
      end
  end.

(** [a - b] on numbers *)
Definition sub (a b : pyval) : outcome pyval :=
  match a, b with
  | VInt x, VInt y => Return (VInt (x - y))
  | _, _ =>
      match as_number a, as_number b with
      | Some x, Some y => Return (VNum (x - y))
      | _, _ => Raise (binop_error "-" a b)
      end
  end.

Definition division_by_zero (a b : pyval) : exn :=
  match a, b with
  | VInt _, VInt _ => ZeroDivisionError "division by zero"
  | _, _ => ZeroDivisionError "float division by zero"
  end.

(** [a / b]: true division, always a [float] *)
Definition truediv (a b : pyval) : outcome pyval :=
  match as_number a, as_number b with
  | Some x, Some y =>
      if bool_decide (y = 0%Qc) then Raise (division_by_zero a b) else Return (VNum (x / y))
  | _, _ => Raise (binop_error "/" a b)
  end.

(** [a > b], [a >= b], [a <= b] on numbers *)
Definition gt (a b : pyval) : outcome bool :=
  match as_number a, as_number b with
  | Some x, Some y => Return (bool_decide (y < x)%Qc)
  | _, _ => Raise (cmp_error ">" a b)
  end.

Definition ge (a b : pyval) : outcome bool :=
  match as_number a, as_number b with
  | Some x, Some y => Return (bool_decide (y <= x)%Qc)
  | _, _ => Raise (cmp_error ">=" a b)
  end.

Definition le (a b : pyval) : outcome bool :=
  match as_number a, as_number b with
  | Some x, Some y => Return (bool_decide (x <= y)%Qc)
  | _, _ => Raise (cmp_error "<=" a b)
  end.

(** Nearest integer, ties to the even one. *)
Definition round_half_even (x : Q) : Z :=
  let f := Qfloor x in
  let r := (x - inject_Z f)%Q in
  match (r ?= 1 # 2)%Q with
  | Lt => f
  | Gt => (f + 1)%Z
  | Eq => if Z.even f then f else (f + 1)%Z
  end.

(** [q] rounded at [ndigits] decimals. *)
Definition round_to (ndigits : nat) (q : Qc) : Qc :=
  let scale := (10 ^ Z.of_nat ndigits)%Z in
  Q2Qc (inject_Z (round_half_even (q * inject_Z scale)%Q) / inject_Z scale).

(** [round(v, ndigits)] for [ndigits >= 0]: an [int] is returned unchanged,
    a [float] is rounded at [ndigits] decimals. *)
Definition round (v : pyval) (ndigits : nat) : outcome pyval :=
  match v with
  | VInt n => Return (VInt n)
  | VNum q => Return (VNum (round_to ndigits q))
  | _ => Raise (TypeError ("type " +:+ type_name v +:+ " doesn't define __round__ method"))
  end.

(** [str(v)], also what an f-string field [{v}] inserts.  The text Python
    gives for a [float] or a container is not modelled: [repr] supplies it. *)
Definition str (repr : pyval -> string) (v : pyval) : string :=
  match v with
  | VNone => "None"
  | VInt n => pretty n
  | VStr s => s
  | VOther _ text => text
  | _ => repr v
  end.

(** [d[k].append(x)] *)
Definition append_item (d : dict) (k : string) (x : pyval) : outcome dict :=
  l ← getitem d k;
  match l with
  | VList xs => Return (<[k := VList (xs ++ [x])]> d)
  | _ => Raise (AttributeError ("'" +:+ type_name l +:+ "' object has no attribute 'append'"))
  end.

(** [d[k] += 1] *)
Definition incr_item (d : dict) (k : string) : outcome dict :=
  v ← getitem d k;
  v' ← add v (VInt 1);
  Return (<[k := v']> d).

Definition nl : string := String (Ascii.ascii_of_nat 10) "".

(** A text given line by line, as a triple-quoted literal has it. *)
Definition text (lines : list string) : string := String.concat nl lines.

(** [len(l)] *)
Definition len {A} (l : list A) : pyval := VInt (Z.of_nat (length l)).

End Py.

Import Py.

(* ===================================================================== *)
(** * src/quality/data_quality_validator.py *)
(* ===================================================================== *)

Module Quality.

Section DataQualityValidator.

(** [self.connection.execute_query]: the rows of a query, or the exception
    the driver raises. *)
Variable execute_query : pyval -> outcome (list dict).
(** [datetime.utcnow().isoformat()] *)
Variable utcnow_isoformat : string.
Variable repr : pyval -> string.

Local Abbreviation str := (Py.str repr).

Definition full_table_name (database schema table : string) : string :=
  database +:+ "." +:+ schema +:+ "." +:+ table.

(** The [except Exception as e] block every check method ends with. *)
Definition error_result (check_type table : string) (e : exn) : dict :=
  {[ "check_type" := VStr check_type;
     "table" := VStr table;
     "status" := VStr "ERROR";
     "error" := VStr (exn_str e) ]}.

(** ['PASSED' if cond else 'FAILED'] *)
Definition passed_or_failed (cond : bool) : string :=
  if cond then "PASSED" else "FAILED".

(** ** check_completeness *)

Definition describe_query (ftn : string) : string := "DESCRIBE TABLE " +:+ ftn.

Definition count_query (ftn : string) : string :=
  "SELECT COUNT(*) as total_rows FROM " +:+ ftn.

Definition null_query (ftn : string) (total_rows column : pyval) : string :=
  text [ "";
         "                SELECT ";
         "                    COUNT(*) as null_count,";
         "                    COUNT(*) * 100.0 / " +:+ str total_rows +:+ " as null_percentage";
         "                FROM " +:+ ftn;
         "                WHERE " +:+ str column +:+ " IS NULL";
         "                " ].

Definition default_threshold : pyval := VNum (Q2Qc (95 # 100)).

(** Body of [for column in columns] *)
Definition completeness_column (ftn : string) (total_rows threshold : pyval)
    (completeness_results : dict) (column : pyval) : outcome dict :=
  null_result ← execute_query (VStr (null_query ftn total_rows column));
  row ← first null_result;
  null_count ← getitem row "NULL_COUNT";
  row ← first null_result;
  null_percentage ← getitem row "NULL_PERCENTAGE";
  fraction ← truediv null_percentage (VNum (Qc_of_Z 100));
  completeness ← sub (VInt 1) fraction;
  passed ← ge completeness threshold;
  let status := passed_or_failed passed in
  let completeness_results :=
    if bool_decide (status = "FAILED")
    then <["overall_status" := VStr "FAILED"]> completeness_results
    else completeness_results in
  null_percentage2 ← round null_percentage 2;
  completeness4 ← round completeness 4;
  append_item completeness_results "columns"
    (VDict {[ "column_name" := column;
              "null_count" := null_count;
              "null_percentage" := null_percentage2;
              "completeness" := completeness4;
              "threshold" := threshold;
              "status" := VStr status ]}).

Definition check_completeness (database schema table : string)
    (columns : option (list pyval)) (threshold : pyval) : outcome dict :=
  let ftn := full_table_name database schema table in
  try_except
    (columns ←
       match columns with
       | Some (c :: cs) => Return (c :: cs)
       | _ =>
           col_results ← execute_query (VStr (describe_query ftn));
           for_each (fun (names : list pyval) (col : dict) =>
                       name ← getitem col "name"; Return (names ++ [name]))
                    col_results []
       end;
     total_rows_result ← execute_query (VStr (count_query ftn));
     row ← first total_rows_result;
     total_rows ← getitem row "TOTAL_ROWS";
     let completeness_results : dict :=
       {[ "check_type" := VStr "COMPLETENESS";
          "table" := VStr ftn;
          "total_rows" := total_rows;
          "columns" := VList [];
          "overall_status" := VStr "PASSED";
          "timestamp" := VStr utcnow_isoformat ]} in
     for_each (completeness_column ftn total_rows threshold) columns completeness_results)
    (fun e => Return (error_result "COMPLETENESS" ftn e)).

(** ** check_uniqueness *)

Definition dup_query (ftn : string) (column : pyval) : string :=
  text [ "";
         "                SELECT ";
         "                    COUNT(*) as total_count,";
         "                    COUNT(DISTINCT " +:+ str column +:+ ") as distinct_count,";
         "                    COUNT(*) - COUNT(DISTINCT " +:+ str column +:+ ") as duplicate_count";
         "                FROM " +:+ ftn;
         "                " ].

Definition uniqueness_column (ftn : string) (uniqueness_results : dict) (column : pyval)
    : outcome dict :=
  dup_result ← execute_query (VStr (dup_query ftn column));
  row ← first dup_result;
  total_count ← getitem row "TOTAL_COUNT";
  row ← first dup_result;
  distinct_count ← getitem row "DISTINCT_COUNT";
  row ← first dup_result;
  duplicate_count ← getitem row "DUPLICATE_COUNT";
  positive ← gt total_count (VInt 0);
  uniqueness_ratio ←
    (if positive : bool then truediv distinct_count total_count else Return (VInt 0));
  let status := passed_or_failed (eq_int duplicate_count 0) in
  let uniqueness_results :=
    if bool_decide (status = "FAILED")
    then <["overall_status" := VStr "FAILED"]> uniqueness_results
    else uniqueness_results in
  uniqueness_ratio4 ← round uniqueness_ratio 4;
  append_item uniqueness_results "columns"
    (VDict {[ "column_name" := column;
              "total_count" := total_count;
              "distinct_count" := distinct_count;
              "duplicate_count" := duplicate_count;
              "uniqueness_ratio" := uniqueness_ratio4;
              "status" := VStr status ]}).

Definition check_uniqueness (database schema table : string) (columns : list pyval)
    : outcome dict :=
  let ftn := full_table_name database schema table in
  try_except
    (let uniqueness_results : dict :=
       {[ "check_type" := VStr "UNIQUENESS";
          "table" := VStr ftn;
          "columns" := VList [];
          "overall_status" := VStr "PASSED";
          "timestamp" := VStr utcnow_isoformat ]} in
     for_each (uniqueness_column ftn) columns uniqueness_results)
    (fun e => Return (error_result "UNIQUENESS" ftn e)).

(** ** check_validity *)

Definition invalid_query (ftn column rule : string) : string :=
  text [ "";
         "                SELECT ";
         "                    COUNT(*) as total_count,";
         "                    SUM(CASE WHEN NOT (" +:+ rule +:+ ") THEN 1 ELSE 0 END) as invalid_count";
         "                FROM " +:+ ftn;
         "                WHERE " +:+ column +:+ " IS NOT NULL";
         "                " ].

Definition validity_rule (ftn : string) (validity_results : dict) (item : string * string)
    : outcome dict :=
  let '(column, rule) := item in
  invalid_result ← execute_query (VStr (invalid_query ftn column rule));
  row ← first invalid_result;
  total_count ← getitem row "TOTAL_COUNT";
  row ← first invalid_result;
  invalid_count ← getitem row "INVALID_COUNT";
  positive ← gt total_count (VInt 0);
  validity_ratio ←
    (if positive : bool
     then valid ← sub total_count invalid_count; truediv valid total_count
     else Return (VInt 0));
  let status := passed_or_failed (eq_int invalid_count 0) in
  let validity_results :=
    if bool_decide (status = "FAILED")
    then <["overall_status" := VStr "FAILED"]> validity_results
    else validity_results in
  validity_ratio4 ← round validity_ratio 4;
  append_item validity_results "rules"
    (VDict {[ "column_name" := VStr column;
              "rule" := VStr rule;
              "total_count" := total_count;
              "invalid_count" := invalid_count;
              "validity_ratio" := validity_ratio4;
              "status" := VStr status ]}).

(** [validation_rules.items()] is the dict's items in insertion order. *)
Definition check_validity (database schema table : string)
    (validation_rules : list (string * string)) : outcome dict :=
  let ftn := full_table_name database schema table in
  try_except
    (let validity_results : dict :=
       {[ "check_type" := VStr "VALIDITY";
          "table" := VStr ftn;
          "rules" := VList [];
          "overall_status" := VStr "PASSED";
          "timestamp" := VStr utcnow_isoformat ]} in
     for_each (validity_rule ftn) validation_rules validity_results)
    (fun e => Return (error_result "VALIDITY" ftn e)).

(** ** check_consistency *)

Definition consistency_step (consistency_results : dict) (check : dict) : outcome dict :=
  let check_name := get check "name" (VStr "unnamed_check") in
  let check_query := get_none check "query" in
  if negb (truthy check_query) then Return consistency_results
  else
    result ← execute_query check_query;
    let inconsistent_count :=
      match result with
      | row :: _ => get row "INCONSISTENT_COUNT" (VInt 0)
      | [] => VInt 0
      end in
    let status := passed_or_failed (eq_int inconsistent_count 0) in
    let consistency_results :=
      if bool_decide (status = "FAILED")
      then <["overall_status" := VStr "FAILED"]> consistency_results
      else consistency_results in
    append_item consistency_results "checks"
      (VDict {[ "check_name" := check_name;
                "inconsistent_count" := inconsistent_count;
                "status" := VStr status ]}).

Definition check_consistency (database schema table : string)
    (consistency_checks : list dict) : outcome dict :=
  let ftn := full_table_name database schema table in
  try_except
    (let consistency_results : dict :=
       {[ "check_type" := VStr "CONSISTENCY";
          "table" := VStr ftn;
          "checks" := VList [];
          "overall_status" := VStr "PASSED";
          "timestamp" := VStr utcnow_isoformat ]} in
     for_each consistency_step consistency_checks consistency_results)
    (fun e => Return (error_result "CONSISTENCY" ftn e)).

(** ** check_timeliness *)

Definition freshness_query (ftn timestamp_column : string) : string :=
  text [ "";
         "            SELECT ";
         "                MAX(" +:+ timestamp_column +:+ ") as latest_timestamp,";
         "                DATEDIFF('hour', MAX(" +:+ timestamp_column
           +:+ "), CURRENT_TIMESTAMP()) as age_hours";
         "            FROM " +:+ ftn;
         "            " ].

Definition default_max_age_hours : pyval := VInt 24.

Definition check_timeliness (database schema table timestamp_column : string)
    (max_age_hours : pyval) : outcome dict :=
  let ftn := full_table_name database schema table in
  try_except
    (freshness_result ← execute_query (VStr (freshness_query ftn timestamp_column));
     row ← first freshness_result;
     latest_timestamp ← getitem row "LATEST_TIMESTAMP";
     row ← first freshness_result;
     age_hours ← getitem row "AGE_HOURS";
     fresh ← le age_hours max_age_hours;
     let status := passed_or_failed fresh in
     Return ({[ "check_type" := VStr "TIMELINESS";
                "table" := VStr ftn;
                "timestamp_column" := VStr timestamp_column;
                "latest_timestamp" := VStr (str latest_timestamp);
                "age_hours" := age_hours;
                "max_age_hours" := max_age_hours;
                "status" := VStr status;
                "timestamp" := VStr utcnow_isoformat ]} : dict))
    (fun e => Return (error_result "TIMELINESS" ftn e)).

(** ** generate_dq_report *)

(** [result.get('status', result.get('overall_status', 'UNKNOWN'))] *)
Definition result_status (result : dict) : pyval :=
  get result "status" (get result "overall_status" (VStr "UNKNOWN")).

Definition tally (report : dict) (result : dict) : outcome dict :=
  let status := result_status result in
  report ←
    (if eq_str status "PASSED" then incr_item report "passed_checks"
     else if eq_str status "FAILED" then incr_item report "failed_checks"
     else if eq_str status "ERROR" then incr_item report "error_checks"
     else Return report);
  append_item report "check_summary"
    (VDict {[ "table" := get_none result "table";
              "check_type" := get_none result "check_type";
              "status" := status ]}).

Definition generate_dq_report (results : list dict) : outcome dict :=
  let report : dict :=
    {[ "report_timestamp" := VStr utcnow_isoformat;
       "total_checks" := len results;
       "passed_checks" := VInt 0;
       "failed_checks" := VInt 0;
       "error_checks" := VInt 0;
       "check_summary" := VList [] ]} in
  report ← for_each tally results report;
  total_checks ← getitem report "total_checks";
  positive ← gt total_checks (VInt 0);
  success_rate ←
    (if positive : bool
     then passed_checks ← getitem report "passed_checks";
          total_checks ← getitem report "total_checks";
          truediv passed_checks total_checks
     else Return (VInt 0));
  Return (<["success_rate" := success_rate]> report).

End DataQualityValidator.

End Quality.

(* ===================================================================== *)
(** * The [str] methods used by the lineage tracker *)
(* ===================================================================== *)

(** A text is the sequence of its characters, each a code point below 256. *)
Module PyStr.

(** [s.startswith(p)] *)
Fixpoint startswith (p s : string) : bool :=
  match p, s with
  | "", _ => true
  | String a p', String b s' => bool_decide (a = b) && startswith p' s'
  | String _ _, "" => false
  end.

(** [sub in s] *)
Fixpoint contains (sub s : string) : bool :=
  startswith sub s ||
  match s with
  | "" => false
  | String _ s' => contains sub s'
  end.

(** [s.split(sep)] for a non-empty [sep]: the pieces between the occurrences
    of [sep], found from the left and not overlapping.  [skip] counts the
    characters of a matched separator still to be passed over. *)
Fixpoint split_from (sep : string) (skip : nat) (s : string) : list string :=
  match s with
  | "" => [""]
  | String c s' =>
      match skip with
      | S k => split_from sep k s'
      | O =>
          if startswith sep s then "" :: split_from sep (String.length sep - 1) s'
          else
            match split_from sep 0 s' with
            | piece :: pieces => String c piece :: pieces
            | [] => [String c ""]
            end
      end
  end.

Definition split (sep s : string) : list string := split_from sep 0 s.

(** [c.isspace()] for a code point below 256. *)
Definition isspace (c : ascii) : bool :=
  let n := Ascii.nat_of_ascii c in
  (Nat.leb 9 n && Nat.leb n 13) || (Nat.leb 28 n && Nat.leb n 32)
  || Nat.eqb n 133 || Nat.eqb n 160.

Fixpoint lstrip_by (drop : ascii -> bool) (s : string) : string :=
  match s with
  | "" => ""
  | String c s' => if drop c then lstrip_by drop s' else s
  end.

Definition rstrip_by (drop : ascii -> bool) (s : string) : string :=
  String.rev (lstrip_by drop (String.rev s)).

Definition strip_by (drop : ascii -> bool) (s : string) : string :=
  rstrip_by drop (lstrip_by drop s).

(** [s.strip()] *)
Definition strip (s : string) : string := strip_by isspace s.

Fixpoint char_in (c : ascii) (chars : string) : bool :=
  match chars with
  | "" => false
  | String d chars' => bool_decide (c = d) || char_in c chars'
  end.

(** [s.strip(chars)] *)
Definition strip_chars (chars s : string) : string :=
  strip_by (fun c => char_in c chars) s.

(** [s.split()]: the maximal runs of non-space characters.  [cur] is the
    run being read (empty when none is). *)
Fixpoint split_ws_from (cur : string) (s : string) : list string :=
  match s with
  | "" => match cur with "" => [] | _ => [cur] end
  | String c s' =>
      if isspace c
      then match cur with
           | "" => split_ws_from "" s'
           | _ => cur :: split_ws_from "" s'
           end
      else split_ws_from (cur +:+ String c "") s'
  end.

Definition split_ws (s : string) : list string := split_ws_from "" s.

End PyStr.

(* ===================================================================== *)
(** * networkx.DiGraph, as far as the lineage tracker uses it *)
(* ===================================================================== *)

(** [LineageTracker.__init__] stores [nx.DiGraph()].  The class belongs to
    the networkx library; the model follows its adjacency dictionaries
    ([_node], [_succ], [_pred]), which keep their keys in insertion order. *)
Module Nx.

Section OrderedDict.
Context {V : Type}.

(** A dict whose iteration order is observed: keys in insertion order. *)
Definition odict := list (string * V).

Fixpoint od_get (d : odict) (k : string) : option V :=
  match d with
  | [] => None
  | (k', v) :: d' => if bool_decide (k' = k) then Some v else od_get d' k
  end.

(** [k in d] *)
Definition od_mem (d : odict) (k : string) : bool :=
  match od_get d k with
  | Some _ => true
  | None => false
  end.

(** [d[k] = v]: an existing key keeps its position, a new one goes last. *)
Fixpoint od_set (d : odict) (k : string) (v : V) : odict :=
  match d with
  | [] => [(k, v)]
  | (k', v') :: d' =>
      if bool_decide (k' = k) then (k', v) :: d' else (k', v') :: od_set d' k v
  end.

(** [iter(d)] *)
Definition od_keys (d : odict) : list string := d.*1.

End OrderedDict.
Arguments odict V : clear implicits.

Record DiGraph := {
  _node : odict dict;
  _succ : odict (odict dict);
  _pred : odict (odict dict)
}.

(** [nx.DiGraph()] *)
Definition empty : DiGraph := {| _node := []; _succ := []; _pred := [] |}.

(** [n in G] *)
Definition has_node (G : DiGraph) (n : string) : bool := od_mem (_node G) n.

(** The [if u not in self._succ: ...] block of [add_edge]. *)
Definition ensure_node (G : DiGraph) (u : string) : DiGraph :=
  if od_mem (_succ G) u then G
  else {| _node := od_set (_node G) u ∅;
          _succ := od_set (_succ G) u [];
          _pred := od_set (_pred G) u [] |}.

(** [adj[u]], read where [u] is a key; no neighbour otherwise. *)
Definition inner (adj : odict (odict dict)) (u : string) : odict dict :=
  match od_get adj u with
  | Some nbrs => nbrs
  | None => []
  end.

(** [G.add_edge(u, v, **attr)]: the edge's attribute dict is the one already
    stored for [(u, v)], or a new one, updated with [attr]. *)
Definition add_edge (G : DiGraph) (u v : string) (attr : dict) : DiGraph :=
  let G := ensure_node G u in
  let G := ensure_node G v in
  let datadict :=
    match od_get (inner (_succ G) u) v with
    | Some d => d
    | None => ∅
    end in
  let datadict := attr ∪ datadict in
  {| _node := _node G;
     _succ := od_set (_succ G) u (od_set (inner (_succ G) u) v datadict);
     _pred := od_set (_pred G) v (od_set (inner (_pred G) v) u datadict) |}.

Definition not_in_digraph (n : string) : exn :=
  NetworkXError ("The node " +:+ n +:+ " is not in the digraph.").

(** [G.predecessors(n)] and [G.successors(n)] *)
Definition predecessors (G : DiGraph) (n : string) : outcome (list string) :=
  match od_get (_pred G) n with
  | Some nbrs => Return (od_keys nbrs)
  | None => Raise (not_in_digraph n)
  end.

Definition successors (G : DiGraph) (n : string) : outcome (list string) :=
  match od_get (_succ G) n with
  | Some nbrs => Return (od_keys nbrs)
  | None => Raise (not_in_digraph n)
  end.

(** [G.nodes()] and [G.edges()] *)
Definition nodes (G : DiGraph) : list string := od_keys (_node G).

Definition edges (G : DiGraph) : list (string * string) :=
  flat_map (fun '(u, nbrs) => map (fun v => (u, v)) (od_keys nbrs)) (_succ G).

(** [G.edges[u, v]] *)
Definition edge_data (G : DiGraph) (u v : string) : option dict :=
  od_get (inner (_succ G) u) v.

End Nx.

(* ===================================================================== *)
(** * src/lineage/lineage_tracker.py *)
(* ===================================================================== *)

Module Lineage.

Import PyStr.

(** ** Query-text heuristics *)

Definition keywords : list string :=
  ["FROM"; "JOIN"; "INNER JOIN"; "LEFT JOIN"; "RIGHT JOIN"; "FULL JOIN"].

(** Body of [for i in range(1, len(parts))] in [_extract_source_tables]. *)
Definition source_part (sources : gset string) (part : string) : gset string :=
  match split_ws (strip part) with
  | token :: _ =>
      let table_name := strip_chars "(),;" token in
      if contains "." table_name then {[ table_name ]} ∪ sources else sources
  | [] => sources
  end.

Definition source_keyword (query_text : string) (sources : gset string) (keyword : string)
    : gset string :=
  if contains keyword query_text
  then foldl source_part sources (drop 1 (split keyword query_text))
  else sources.

Definition _extract_source_tables (query_text : string) : gset string :=
  foldl (source_keyword query_text) ∅ keywords.

(** Loop bodies of [_extract_target_tables]: the [INSERT INTO] and
    [MERGE INTO] blocks share one, [CREATE TABLE] skips [IF] and [OR]. *)
Definition target_part (targets : gset string) (part : string) : gset string :=
  match split_ws (strip part) with
  | token :: _ => {[ strip_chars "(),;" token ]} ∪ targets
  | [] => targets
  end.

Definition target_part_create (targets : gset string) (part : string) : gset string :=
  match split_ws (strip part) with
  | token :: _ =>
      if bool_decide (token ∉ ["IF"; "OR"])
      then {[ strip_chars "(),;" token ]} ∪ targets
      else targets
  | [] => targets
  end.

Definition _extract_target_tables (query_text : string) : gset string :=
  let targets : gset string := ∅ in
  let targets :=
    if contains "INSERT INTO" query_text
    then foldl target_part targets (drop 1 (split "INSERT INTO" query_text))
    else targets in
  let targets :=
    if contains "CREATE TABLE" query_text
    then foldl target_part_create targets (drop 1 (split "CREATE TABLE" query_text))
    else targets in
  let targets :=
    if contains "MERGE INTO" query_text
    then foldl target_part targets (drop 1 (split "MERGE INTO" query_text))
    else targets in
  targets.

Definition _determine_query_type (query_text : string) : string :=
  if contains "INSERT" query_text then "INSERT"
  else if contains "CREATE TABLE" query_text then "CREATE_TABLE_AS_SELECT"
  else if contains "MERGE" query_text then "MERGE"
  else if contains "UPDATE" query_text then "UPDATE"
  else "UNKNOWN".

Section LineageTracker.

Variable execute_query : pyval -> outcome (list dict).
Variable utcnow_isoformat : string.
Variable repr : pyval -> string.

Local Abbreviation str := (Py.str repr).

(** The tracker's state is [self.lineage_graph]; a method takes the graph
    and gives back its outcome and the graph it leaves. *)

(** ** extract_table_dependencies *)

Definition dependencies_query (database_name : string) (schema_name : option string) : string :=
  let head :=
    [ "";
      "            SELECT ";
      "                table_catalog as database_name,";
      "                table_schema as schema_name,";
      "                table_name,";
      "                referenced_database,";
      "                referenced_schema,";
      "                referenced_object_name,";
      "                referenced_object_domain";
      "            FROM " +:+ database_name +:+ ".INFORMATION_SCHEMA.OBJECT_DEPENDENCIES" ] in
  match schema_name with
  | Some (String c s) =>
      text (head ++ [ "            WHERE table_schema = '" +:+ String c s +:+ "'";
                      "            " ])
  | _ => text (head ++ [ "            " ])
  end.

(** [f"{a}.{b}.{c}"] over three fields of a row *)
Definition qualified (dep : dict) (a b c : string) : string :=
  str (get_none dep a) +:+ "." +:+ str (get_none dep b) +:+ "." +:+ str (get_none dep c).

Definition dependency_source (dep : dict) : string :=
  qualified dep "REFERENCED_DATABASE" "REFERENCED_SCHEMA" "REFERENCED_OBJECT_NAME".

Definition dependency_target (dep : dict) : string :=
  qualified dep "DATABASE_NAME" "SCHEMA_NAME" "TABLE_NAME".

(** Body of [for dep in results] *)
Definition dependency_row (st : list dict * Nx.DiGraph) (dep : dict) : list dict * Nx.DiGraph :=
  let '(dependencies, lineage_graph) := st in
  let dependency : dict :=
    {[ "source_database" := get_none dep "REFERENCED_DATABASE";
       "source_schema" := get_none dep "REFERENCED_SCHEMA";
       "source_object" := get_none dep "REFERENCED_OBJECT_NAME";
       "source_type" := get_none dep "REFERENCED_OBJECT_DOMAIN";
       "target_database" := get_none dep "DATABASE_NAME";
       "target_schema" := get_none dep "SCHEMA_NAME";
       "target_object" := get_none dep "TABLE_NAME";
       "dependency_type" := VStr "DIRECT";
       "extracted_at" := VStr utcnow_isoformat ]} in
  (dependencies ++ [dependency],
   Nx.add_edge lineage_graph (dependency_source dep) (dependency_target dep)
               {[ "type" := VStr "DIRECT" ]}).

(** The [except] block logs and re-raises. *)
Definition extract_table_dependencies (lineage_graph : Nx.DiGraph)
    (database_name : string) (schema_name : option string)
    : outcome (list dict) * Nx.DiGraph :=
  match execute_query (VStr (dependencies_query database_name schema_name)) with
  | Return results =>
      let '(dependencies, lineage_graph) := foldl dependency_row ([], lineage_graph) results in
      (Return dependencies, lineage_graph)
  | Raise e => (Raise e, lineage_graph)
  end.

(** ** get_upstream_lineage, get_downstream_lineage *)

Definition default_max_depth : pyval := VInt 5.

Definition relative (relationship : string) (table : string) : pyval :=
  VDict {[ "table" := VStr table; "relationship" := VStr relationship ]}.

Definition get_upstream_lineage (lineage_graph : Nx.DiGraph) (table_name : string)
    (max_depth : pyval) : outcome dict :=
  if negb (Nx.has_node lineage_graph table_name) then Return ∅
  else
    let upstream : dict := {[ "table" := VStr table_name; "ancestors" := VList [] ]} in
    try_except
      (predecessors ← Nx.predecessors lineage_graph table_name;
       for_each (fun up predecessor =>
                   append_item up "ancestors" (relative "DIRECT_UPSTREAM" predecessor))
                predecessors upstream)
      (fun e => Return upstream).

Definition get_downstream_lineage (lineage_graph : Nx.DiGraph) (table_name : string)
    (max_depth : pyval) : outcome dict :=
  if negb (Nx.has_node lineage_graph table_name) then Return ∅
  else
    let downstream : dict := {[ "table" := VStr table_name; "descendants" := VList [] ]} in
    try_except
      (successors ← Nx.successors lineage_graph table_name;
       for_each (fun down successor =>
                   append_item down "descendants" (relative "DIRECT_DOWNSTREAM" successor))
                successors downstream)
      (fun e => Return downstream).

End LineageTracker.

End Lineage.

(* ===================================================================== *)
(** * src/metadata/metadata_extractor.py *)
(* ===================================================================== *)

Module Metadata.

Section MetadataExtractor.

Variable execute_query : pyval -> outcome (list dict).
Variable utcnow_isoformat : string.

Definition statistics_query (database_name schema_name table_name : string) : string :=
  text [ "";
         "        SELECT ";
         "            COUNT(*) as row_count,";
         "            COUNT(DISTINCT *) as distinct_rows";
         "        FROM " +:+ database_name +:+ "." +:+ schema_name +:+ "." +:+ table_name;
         "        " ].

(** ** extract_table_statistics

    The [try] body returns only inside [if results:]; with no rows control
    leaves the function at its end, which in Python returns [None]. *)
Definition extract_table_statistics (database_name schema_name table_name : string)
    : outcome pyval :=
  try_except
    (results ← execute_query
       (VStr (statistics_query database_name schema_name table_name));
     match results with
     | _ :: _ =>
         stats ← first results;
         Return (VDict {[ "database_name" := VStr database_name;
                          "schema_name" := VStr schema_name;
                          "table_name" := VStr table_name;
                          "row_count" := get_none stats "ROW_COUNT";
                          "distinct_rows" := get_none stats "DISTINCT_ROWS";
                          "extracted_at" := VStr utcnow_isoformat ]})
     | [] => Return VNone
     end)
    (fun e => Return (VDict ∅)).

End MetadataExtractor.

End Metadata.

(* ===================================================================== *)
(** * Vocabulary of the statements, and sample data *)
(* ===================================================================== *)

Module QualitySpec.

Import Quality.

(** An outcome that is an exception. *)
Definition raises {A} (o : outcome A) : Prop := exists e, o = Raise e.

(** ** Reports *)

(** Number of results whose status, as [generate_dq_report] reads it, is [s]. *)
Definition count_status (s : string) (results : list dict) : Z :=
  Z.of_nat (length (filter (fun r => eq_str (result_status r) s) results)).

Definition indicator (b : bool) : Z := if b then 1 else 0.

(** Loop invariant of [generate_dq_report]. *)
Definition tallied (report : dict) (total passed failed errors : Z) : Prop :=
  report !! "total_checks" = Some (VInt total) /\
  report !! "passed_checks" = Some (VInt passed) /\
  report !! "failed_checks" = Some (VInt failed) /\
  report !! "error_checks" = Some (VInt errors) /\
  exists summary, report !! "check_summary" = Some (VList summary).

(** A fixed list with statuses PASSED, PASSED, FAILED, ERROR: a timeliness
    result, two completeness results and an error record. *)
Definition sample_results : list dict :=
  [ {[ "check_type" := VStr "TIMELINESS"; "table" := VStr "DB.S.T"; "status" := VStr "PASSED" ]};
    {[ "check_type" := VStr "COMPLETENESS"; "table" := VStr "DB.S.T";
       "overall_status" := VStr "PASSED" ]};
    {[ "check_type" := VStr "COMPLETENESS"; "table" := VStr "DB.S.U";
       "overall_status" := VStr "FAILED" ]};
    error_result "UNIQUENESS" "DB.S.U" (DriverError "boom") ].

(** ** What the warehouse answers *)

Section Warehouse.

Variable execute_query : pyval -> outcome (list dict).
Variable repr : pyval -> string.



(** The duplicate query of [column] evaluates its three aggregates:
    [counts.1] rows, [counts.2] distinct values, and their difference. *)
Definition answers_dup (ftn : string) (column : string) (counts : Z * Z) : Prop :=
  exists row rest,
    execute_query (VStr (dup_query repr ftn (VStr column))) = Return (row :: rest) /\
    row !! "TOTAL_COUNT" = Some (VInt counts.1) /\
    row !! "DISTINCT_COUNT" = Some (VInt counts.2) /\
    row !! "DUPLICATE_COUNT" = Some (VInt (counts.1 - counts.2)).

End Warehouse.

(** ** Completeness *)





(** ** Uniqueness *)

Definition uniqueness_status (counts : Z * Z) : string :=
  if bool_decide (counts.1 - counts.2 = 0)%Z then "PASSED" else "FAILED".

Definition uniqueness_ratio (counts : Z * Z) : pyval :=
  if bool_decide (0 < counts.1)%Z
  then VNum (round_to 4 (Qc_of_Z counts.2 / Qc_of_Z counts.1))
  else VInt 0.

Definition uniqueness_report (column : string) (counts : Z * Z) : pyval :=
  VDict {[ "column_name" := VStr column;
           "total_count" := VInt counts.1;
           "distinct_count" := VInt counts.2;
           "duplicate_count" := VInt (counts.1 - counts.2);
           "uniqueness_ratio" := uniqueness_ratio counts;
           "status" := VStr (uniqueness_status counts) ]}.

Definition some_duplicated (counts : list (Z * Z)) : bool :=
  existsb (fun c => bool_decide (uniqueness_status c = "FAILED")) counts.

(** [columns] as [check_completeness] reads it: the given list, or nothing
    when none is given. *)
Definition given (columns : option (list pyval)) : list pyval :=
  match columns with
  | Some cs => cs
  | None => []
  end.

(** ** Sample warehouses *)

Definition sample_repr (v : pyval) : string := "".

(** Table [DB.S.T] has 4 rows; column [a] holds one null and three distinct
    values, column [b] no null and four distinct values.  Any other query
    fails. *)
Definition sample_warehouse (query : pyval) : outcome (list dict) :=
  match query with
  | VStr q =>
      if bool_decide (q = count_query "DB.S.T")
      then Return [ {[ "TOTAL_ROWS" := VInt 4 ]} ]
      else if bool_decide (q = null_query sample_repr "DB.S.T" (VInt 4) (VStr "a"))
      then Return [ {[ "NULL_COUNT" := VInt 1;
                       "NULL_PERCENTAGE" := VNum (Qc_of_Z 1 * Qc_of_Z 100 / Qc_of_Z 4) ]} ]
      else if bool_decide (q = null_query sample_repr "DB.S.T" (VInt 4) (VStr "b"))
      then Return [ {[ "NULL_COUNT" := VInt 0;
                       "NULL_PERCENTAGE" := VNum (Qc_of_Z 0 * Qc_of_Z 100 / Qc_of_Z 4) ]} ]
      else if bool_decide (q = dup_query sample_repr "DB.S.T" (VStr "a"))
      then Return [ {[ "TOTAL_COUNT" := VInt 4; "DISTINCT_COUNT" := VInt 3;
                       "DUPLICATE_COUNT" := VInt (4 - 3) ]} ]
      else if bool_decide (q = dup_query sample_repr "DB.S.T" (VStr "b"))
      then Return [ {[ "TOTAL_COUNT" := VInt 4; "DISTINCT_COUNT" := VInt 4;
                       "DUPLICATE_COUNT" := VInt (4 - 4) ]} ]
      else Raise (DriverError "SQL compilation error")
  | _ => Raise (DriverError "query must be a string")
  end.

(** A warehouse that answers the row count of [DB.S.T] and nothing else. *)
Definition counting_warehouse (query : pyval) : outcome (list dict) :=
  match query with
  | VStr q =>
      if bool_decide (q = count_query "DB.S.T")
      then Return [ {[ "TOTAL_ROWS" := VInt 4 ]} ]
      else Raise (DriverError "SQL compilation error")
  | _ => Raise (DriverError "query must be a string")
  end.

(** A warehouse whose every query succeeds with no rows. *)
Definition empty_warehouse (query : pyval) : outcome (list dict) := Return [].

End QualitySpec.

Module NxSpec.

Import Nx.

(** [(u, v)] is stored as an edge: both are keys of [_succ] and [v] is a key
    of [u]'s successors. *)
Definition linked (G : DiGraph) (u v : string) : Prop :=
  od_mem (_succ G) u = true /\ od_mem (_succ G) v = true /\
  od_mem (inner (_succ G) u) v = true.

(** The invariant of the graphs the tracker builds. *)
Record wf (G : DiGraph) : Prop := {
  wf_nodup : NoDup (od_keys (_succ G));
  wf_inner_nodup : forall u, NoDup (od_keys (inner (_succ G) u));
  wf_pred_nodup : forall v, NoDup (od_keys (inner (_pred G) v));
  wf_node : forall n, od_mem (_node G) n = od_mem (_succ G) n;
  wf_pred : forall n, od_mem (_pred G) n = od_mem (_succ G) n;
  wf_sym : forall u v, u ∈ od_keys (inner (_pred G) v) <-> v ∈ od_keys (inner (_succ G) u)
}.

(** The graphs reachable from [nx.DiGraph()] by [add_edge], the only
    mutation the tracker performs. *)
Inductive built : DiGraph -> Prop :=
| built_empty : built empty
| built_add_edge G u v attr : built G -> built (add_edge G u v attr).

End NxSpec.

Module LineageSpec.

Import PyStr Nx Lineage.

(** The record [get_upstream_lineage] / [get_downstream_lineage] build for a
    table present in the graph. *)
Definition lineage_record (key relationship table_name : string) (tables : list string) : dict :=
  {[ "table" := VStr table_name; key := VList (relative relationship <$> tables) ]}.

(** A chain of two declared dependencies: RAW.S.A feeds STG.S.B, which feeds
    MART.S.C. *)
Definition direct : dict := {[ "type" := VStr "DIRECT" ]}.

Definition chain : DiGraph :=
  add_edge (add_edge empty "RAW.S.A" "STG.S.B" direct) "STG.S.B" "MART.S.C" direct.

(** A catalog with one declared dependency: view MART.PUBLIC.ORDERS_V reads
    table RAW.PUBLIC.ORDERS. *)
Definition catalog_warehouse (query : pyval) : outcome (list dict) :=
  match query with
  | VStr q =>
      if bool_decide (q = dependencies_query "PROD_DB" None)
      then Return [ {[ "DATABASE_NAME" := VStr "MART"; "SCHEMA_NAME" := VStr "PUBLIC";
                       "TABLE_NAME" := VStr "ORDERS_V";
                       "REFERENCED_DATABASE" := VStr "RAW";
                       "REFERENCED_SCHEMA" := VStr "PUBLIC";
                       "REFERENCED_OBJECT_NAME" := VStr "ORDERS";
                       "REFERENCED_OBJECT_DOMAIN" := VStr "TABLE" ]} ]
      else Raise (DriverError "SQL compilation error")
  | _ => Raise (DriverError "query must be a string")
  end.

Definition no_repr (v : pyval) : string := "".

Definition after_one_run : DiGraph :=
  (extract_table_dependencies catalog_warehouse "2024-01-01T00:00:00" no_repr
     empty "PROD_DB" None).2.

Definition after_two_runs : DiGraph :=
  (extract_table_dependencies catalog_warehouse "2024-01-02T00:00:00" no_repr
     after_one_run "PROD_DB" None).2.

(** [t] is the candidate that the piece [part] contributes to the sources:
    its first whitespace-delimited token, stripped of the characters
    [( ) , ;], when that contains a dot. *)
Definition candidate (part t : string) : Prop :=
  exists token rest,
    split_ws (strip part) = token :: rest /\
    t = strip_chars "(),;" token /\ contains "." t = true.

(** The words of the source-extraction claim, to compare with the code: the
    whitespace-delimited token right after each occurrence of FROM or JOIN
    in the query text, stripped of surrounding punctuation and kept when it
    contains a dot. *)
Fixpoint string_drop (n : nat) (s : string) : string :=
  match n, s with
  | S n', String _ s' => string_drop n' s'
  | _, _ => s
  end.

Fixpoint tokens_after (keyword text : string) : list string :=
  (if startswith keyword text
   then match split_ws (string_drop (String.length keyword) text) with
        | token :: _ => [token]
        | [] => []
        end
   else []) ++
  match text with
  | "" => []
  | String _ text' => tokens_after keyword text'
  end.

Definition stated_source_tables (query_text : string) : gset string :=
  list_to_set
    (filter (fun t => contains "." t = true)
       (strip_chars "(),;"
          <$> (tokens_after "FROM" query_text ++ tokens_after "JOIN" query_text))).

End LineageSpec.

(* ===================================================================== *)
(** * Methods that update an object or write to the warehouse *)
(* ===================================================================== *)

(** A block of statements that reads and updates some object while it runs
    gives back its outcome and the object as it leaves it, also when it
    raises: what was updated before the exception stays updated. *)
Module PyState.

Definition stateful (S A : Type) : Type := S -> outcome A * S.

Definition st_ret {S A} (a : A) : stateful S A := fun s => (Return a, s).

Definition st_bind {S A B} (f : A -> stateful S B) (m : stateful S A) : stateful S B :=
  fun s =>
    match m s with
    | (Return a, s') => f a s'
    | (Raise e, s') => (Raise e, s')
    end.

#[global] Instance stateful_ret {S} : MRet (stateful S) := @st_ret S.
#[global] Instance stateful_bind {S} : MBind (stateful S) := @st_bind S.

(** A computation that does not touch the object. *)
Definition lift {S A} (o : outcome A) : stateful S A := fun s => (o, s).

(** An update that cannot raise, and one that raises before it updates. *)
Definition update {S} (f : S -> S) : stateful S () := fun s => (Return (), f s).

Definition update_with {S} (f : S -> outcome S) : stateful S () :=
  fun s =>
    match f s with
    | Return s' => (Return (), s')
    | Raise e => (Raise e, s)
    end.

(** [try: body / except Exception as e: handler e] *)
Definition st_try {S A} (body : stateful S A) (handler : exn -> stateful S A) : stateful S A :=
  fun s =>
    match body s with
    | (Return a, s') => (Return a, s')
    | (Raise e, s') => handler e s'
    end.

(** A [for] loop over [xs]. *)
Fixpoint st_for {S A} (body : A -> stateful S ()) (xs : list A) : stateful S () :=
  match xs with
  | [] => st_ret ()
  | x :: xs' => st_bind (fun _ => st_for body xs') (body x)
  end.

End PyState.

(** What a method sends to the warehouse or writes to disk for its effect. *)
Module Driver.

Import PyState.

Inductive call :=
| ExecuteQuery (query : pyval)
| ExecuteMany (query : string) (data : list (list pyval))
| WriteJson (path : string) (content : pyval).

Section Connection.

(** [SnowflakeConnection.execute_query] and [execute_many]: what the
    warehouse answers, or the exception that the driver raises.  An
    exception that [exn] does not name is a [DriverError] with its message:
    the sources treat every exception alike, by [str(e)]. *)
Variable execute_query : pyval -> outcome (list dict).
Variable execute_many : string -> list (list pyval) -> outcome ().

(** The calls are recorded in the order they are made; a call that raises
    is recorded too. *)
Definition run_query (query : pyval) : stateful (list call) (list dict) :=
  fun log => (execute_query query, log ++ [ExecuteQuery query]).

Definition run_many (query : string) (data : list (list pyval)) : stateful (list call) () :=
  fun log => (execute_many query data, log ++ [ExecuteMany query data]).

(** [SnowflakeConnection.create_table_if_not_exists]: it executes the DDL,
    logs, and re-raises what the execution raises. *)
Definition create_table_if_not_exists (table_name schema_ddl : string)
    : stateful (list call) () :=
  _ ← run_query (VStr schema_ddl); mret ().

End Connection.

End Driver.

(* ===================================================================== *)
(** * Vocabulary for the remaining checks *)
(* ===================================================================== *)

Module ChecksSpec.

Import Quality QualitySpec.

Section Warehouse.

Variable execute_query : pyval -> outcome (list dict).

(** What SQL gives for [SUM(...)]: a number, or NULL over no row. *)
Definition sum_value (s : option Z) : pyval :=
  match s with
  | Some k => VInt k
  | None => VNone
  end.

(** The validity query of [(column, rule)] finds [answer.1] rows with a
    non-null column and sums [answer.2] invalid ones. *)
Definition answers_invalid (ftn : string) (item : string * string) (answer : Z * option Z)
    : Prop :=
  exists row rest,
    execute_query (VStr (invalid_query ftn item.1 item.2)) = Return (row :: rest) /\
    row !! "TOTAL_COUNT" = Some (VInt answer.1) /\
    row !! "INVALID_COUNT" = Some (sum_value answer.2).

(** The freshness query gives one row with the two aggregates. *)
Definition answers_freshness (ftn timestamp_column : string) (latest age : pyval) : Prop :=
  exists row rest,
    execute_query (VStr (freshness_query ftn timestamp_column)) = Return (row :: rest) /\
    row !! "LATEST_TIMESTAMP" = Some latest /\
    row !! "AGE_HOURS" = Some age.

(** A consistency check that carries a query. *)
Definition has_query (check : dict) : bool := truthy (get_none check "query").

(** The rows the warehouse gives for the query of [check]. *)
Definition answers_check (check : dict) (rows : list dict) : Prop :=
  execute_query (get_none check "query") = Return rows.

End Warehouse.

(** ** Validity *)

Definition validity_status (answer : Z * option Z) : string :=
  if bool_decide (answer.2 = Some 0%Z) then "PASSED" else "FAILED".

Definition validity_ratio (answer : Z * option Z) : pyval :=
  match answer.2 with
  | Some invalid =>
      if bool_decide (0 < answer.1)%Z
      then VNum (round_to 4 (Qc_of_Z (answer.1 - invalid) / Qc_of_Z answer.1))
      else VInt 0
  | None => VInt 0
  end.

Definition validity_report (item : string * string) (answer : Z * option Z) : pyval :=
  VDict {[ "column_name" := VStr item.1;
           "rule" := VStr item.2;
           "total_count" := VInt answer.1;
           "invalid_count" := sum_value answer.2;
           "validity_ratio" := validity_ratio answer;
           "status" := VStr (validity_status answer) ]}.

(** An answer SQL can give: a NULL sum only over no row. *)
Definition sql_sum (answer : Z * option Z) : Prop :=
  answer.2 = None -> answer.1 = 0%Z.

(** ** Consistency *)

(** The count a consistency check reads off the rows of its query. *)
Definition inconsistent_count (rows : list dict) : pyval :=
  match rows with
  | row :: _ => get row "INCONSISTENT_COUNT" (VInt 0)
  | [] => VInt 0
  end.

Definition consistency_report (check : dict) (rows : list dict) : pyval :=
  VDict {[ "check_name" := get check "name" (VStr "unnamed_check");
           "inconsistent_count" := inconsistent_count rows;
           "status" := VStr (passed_or_failed (eq_int (inconsistent_count rows) 0)) ]}.

(** The entries a check contributes: none when it carries no query. *)
Definition consistency_entries (check : dict) (rows : list dict) : list pyval :=
  if has_query check then [consistency_report check rows] else [].

Definition inconsistent (check : dict) (rows : list dict) : bool :=
  has_query check && negb (eq_int (inconsistent_count rows) 0).

(** ** Reports *)

(** A status that [generate_dq_report] counts. *)
Definition counted (v : pyval) : bool :=
  eq_str v "PASSED" || eq_str v "FAILED" || eq_str v "ERROR".

Definition summary_entry (result : dict) : pyval :=
  VDict {[ "table" := get_none result "table";
           "check_type" := get_none result "check_type";
           "status" := result_status result ]}.

(** ** Sample warehouses *)

(** Table [DB.S.ORDERS]: 10 rows with an amount, 2 of them not positive; no
    row with a discount.  Its newest row is 30 hours old.  Table
    [DB.S.EMPTY] has no row at all. *)
Definition orders_warehouse (query : pyval) : outcome (list dict) :=
  match query with
  | VStr q =>
      if bool_decide (q = invalid_query "DB.S.ORDERS" "amount" "amount > 0")
      then Return [ {[ "TOTAL_COUNT" := VInt 10; "INVALID_COUNT" := VInt 2 ]} ]
      else if bool_decide (q = invalid_query "DB.S.ORDERS" "discount" "discount >= 0")
      then Return [ {[ "TOTAL_COUNT" := VInt 0; "INVALID_COUNT" := VNone ]} ]
      else if bool_decide (q = freshness_query "DB.S.ORDERS" "created_at")
      then Return [ {[ "LATEST_TIMESTAMP" := VOther "datetime" "2024-01-01 00:00:00";
                       "AGE_HOURS" := VInt 30 ]} ]
      else if bool_decide (q = freshness_query "DB.S.EMPTY" "created_at")
      then Return [ {[ "LATEST_TIMESTAMP" := VNone; "AGE_HOURS" := VNone ]} ]
      else if bool_decide (q = "SELECT COUNT(1) AS INCONSISTENT_COUNT FROM ORPHANS")
      then Return [ {[ "INCONSISTENT_COUNT" := VInt 3 ]} ]
      else if bool_decide (q = "SELECT 1 WHERE FALSE")
      then Return []
      else Raise (DriverError "SQL compilation error")
  | _ => Raise (DriverError "query must be a string")
  end.

(** The sample warehouse of [QualitySpec], which in addition describes
    [DB.S.T] as having the columns [a] and [b]. *)
Definition described_warehouse (query : pyval) : outcome (list dict) :=
  match query with
  | VStr q =>
      if bool_decide (q = describe_query "DB.S.T")
      then Return [ {[ "name" := VStr "a" ]}; {[ "name" := VStr "b" ]} ]
      else sample_warehouse query
  | _ => sample_warehouse query
  end.

End ChecksSpec.

(* ===================================================================== *)
(** * src/quality/data_quality_validator.py: running and saving *)
(* ===================================================================== *)

Module Validation.

Import PyState Driver Quality.

(** [v.get(k, default)] on a value read from the configuration: only a
    mapping has the method. *)
Definition no_get (v : pyval) : exn :=
  AttributeError ("'" +:+ type_name v +:+ "' object has no attribute 'get'").

Definition pyget (v : pyval) (k : string) (default : pyval) : outcome pyval :=
  match v with
  | VDict d => Return (get d k default)
  | _ => Raise (no_get v)
  end.

(** [True] and [False], where they are only tested for truth: [bool] is a
    subclass of [int], with [True == 1] and [False == 0]. *)
Definition py_true : pyval := VInt 1.
Definition py_false : pyval := VInt 0.

Section DataQualityValidator.

Variable execute_query : pyval -> outcome (list dict).
Variable execute_many : string -> list (list pyval) -> outcome ().
Variable utcnow_isoformat : string.
Variable repr : pyval -> string.
(** [self.config]: the constructor stores [config or {}]. *)
Variable config : dict.
(** [datetime.utcnow()] and the text of [datetime.utcnow().timestamp()] *)
Variable utcnow : pyval.
Variable utcnow_timestamp : string.
(** [json.dumps]: the text, or the exception for a value it cannot encode. *)
Variable json_dumps : pyval -> outcome string.

Local Abbreviation str := (Py.str repr).

(** ** run_comprehensive_validation *)

(** [config.get('rules', {}).get('completeness', {})] *)
Definition completeness_rules (config : pyval) : outcome pyval :=
  rules ← pyget config "rules" (VDict ∅);
  pyget rules "completeness" (VDict ∅).

(** The [try] block, over [results]. *)
Definition comprehensive_checks (database schema table : string) (config : pyval)
    : stateful dict () :=
  rules ← lift (completeness_rules config);
  enabled ← lift (pyget rules "enabled" py_true);
  if truthy enabled then
    rules ← lift (completeness_rules config);
    threshold ← lift (pyget rules "threshold" default_threshold);
    completeness ← lift (check_completeness execute_query utcnow_isoformat repr
                           database schema table None threshold);
    _ ← update_with (fun results => append_item results "checks" (VDict completeness));
    if eq_str (get_none completeness "overall_status") "FAILED"
    then update (fun results => <["overall_status" := VStr "FAILED"]> results)
    else mret ()
  else mret ().

(** The method returns [results] after the [try] statement, whatever
    happened in it. *)
Definition run_comprehensive_validation (database schema table : string)
    (validation_config : option dict) : dict :=
  let config : pyval :=
    match validation_config with
    | Some d => if truthy (VDict d) then VDict d else get config "data_quality" (VDict ∅)
    | None => get config "data_quality" (VDict ∅)
    end in
  let results : dict :=
    {[ "table" := VStr (full_table_name database schema table);
       "validation_timestamp" := VStr utcnow_isoformat;
       "checks" := VList [];
       "overall_status" := VStr "PASSED" ]} in
  (st_try (comprehensive_checks database schema table config)
          (fun e => update (fun results =>
                      <["error" := VStr (exn_str e)]>
                        (<["overall_status" := VStr "ERROR"]> results)))
          results).2.

(** ** save_validation_results *)

Definition validation_ddl (output_table : string) : string :=
  text [ "";
         "        CREATE TABLE IF NOT EXISTS " +:+ output_table +:+ " (";
         "            validation_id VARCHAR,";
         "            table_name VARCHAR,";
         "            check_type VARCHAR,";
         "            check_status VARCHAR,";
         "            validation_json VARIANT,";
         "            validation_timestamp TIMESTAMP_NTZ,";
         "            PRIMARY KEY (validation_id)";
         "        )";
         "        " ].

Definition validation_insert (output_table : string) : string :=
  text [ "";
         "        INSERT INTO " +:+ output_table;
         "        (validation_id, table_name, check_type, check_status, validation_json, validation_timestamp)";
         "        VALUES (%s, %s, %s, %s, PARSE_JSON(%s), %s)";
         "        " ].

Definition validation_id (result : dict) : string :=
  str (get result "table" (VStr "unknown")) +:+ "_"
  +:+ str (get result "check_type" (VStr "unknown")) +:+ "_" +:+ utcnow_timestamp.

(** Body of [for result in results] *)
Definition validation_row (insert_data : list (list pyval)) (result : dict)
    : outcome (list (list pyval)) :=
  validation_json ← json_dumps (VDict result);
  Return (insert_data ++ [[ VStr (validation_id result);
                            get result "table" (VStr "");
                            get result "check_type" (VStr "");
                            result_status result;
                            VStr validation_json;
                            utcnow ]]).

Definition save_validation_results (results : list dict) (output_table : string)
    : stateful (list call) () :=
  _ ← create_table_if_not_exists execute_query output_table (validation_ddl output_table);
  insert_data ← lift (for_each validation_row results []);
  run_many execute_many (validation_insert output_table) insert_data.

End DataQualityValidator.

End Validation.

(* ===================================================================== *)
(** * src/lineage/lineage_tracker.py: query history, full lineage, saving *)
(* ===================================================================== *)

Module History.

Import PyStr PyState Driver Lineage.

(** [v.upper()] on a field of a row: only a [str] has the method here. *)
Definition no_upper (v : pyval) : exn :=
  AttributeError ("'" +:+ type_name v +:+ "' object has no attribute 'upper'").

Section LineageTracker.

Variable execute_query : pyval -> outcome (list dict).
Variable execute_many : string -> list (list pyval) -> outcome ().
Variable utcnow_isoformat : string.
Variable repr : pyval -> string.
(** [(datetime.utcnow() - timedelta(days=days)).isoformat()], or the
    exception that [timedelta] raises for [days]. *)
Variable isoformat_days_before : pyval -> outcome string.
(** [str.upper], which may map a character to several or to one beyond the
    Latin-1 range *)
Variable upper : string -> string.
(** The order in which a [for] loop visits a [set] of [str]: Python does
    not specify it. *)
Variable iterate : gset string -> list string.
Variable utcnow : pyval.
Variable json_dumps : pyval -> outcome string.
(** [datetime.fromisoformat] *)
Variable fromisoformat : pyval -> outcome pyval.

Local Abbreviation str := (Py.str repr).

(** ** extract_query_history_lineage *)

Definition history_query (start_time end_time : string) (limit : pyval) : string :=
  text [ "";
         "        SELECT ";
         "            query_id,";
         "            query_text,";
         "            database_name,";
         "            schema_name,";
         "            user_name,";
         "            role_name,";
         "            execution_status,";
         "            start_time,";
         "            end_time,";
         "            total_elapsed_time";
         "        FROM SNOWFLAKE.ACCOUNT_USAGE.QUERY_HISTORY";
         "        WHERE start_time >= '" +:+ start_time +:+ "'";
         "          AND start_time <= '" +:+ end_time +:+ "'";
         "          AND execution_status = 'SUCCESS'";
         "          AND query_type IN ('INSERT', 'CREATE_TABLE_AS_SELECT', 'MERGE', 'UPDATE')";
         "        ORDER BY start_time DESC";
         "        LIMIT " +:+ str limit;
         "        " ].

Definition default_days : pyval := VInt 7.
Definition default_limit : pyval := VInt 10000.

(** [query_record.get('QUERY_TEXT', '').upper()] *)
Definition upper_query_text (query_record : dict) : outcome string :=
  match get query_record "QUERY_TEXT" (VStr "") with
  | VStr s => Return (upper s)
  | v => Raise (no_upper v)
  end.

Definition history_lineage (query_record : dict) (query_text source target : string) : dict :=
  {[ "query_id" := get_none query_record "QUERY_ID";
     "source_table" := VStr source;
     "target_table" := VStr target;
     "query_type" := VStr (_determine_query_type query_text);
     "user_name" := get_none query_record "USER_NAME";
     "role_name" := get_none query_record "ROLE_NAME";
     "execution_time" := VStr (str (get_none query_record "START_TIME"));
     "elapsed_time_ms" := get_none query_record "TOTAL_ELAPSED_TIME";
     "extracted_at" := VStr utcnow_isoformat ]}.

Definition query_based (query_record : dict) : dict :=
  {[ "type" := VStr "QUERY_BASED"; "query_id" := get_none query_record "QUERY_ID" ]}.

(** Body of [for source in source_tables], over the records collected so
    far and [self.lineage_graph]. *)
Definition history_pair (query_record : dict) (query_text target source : string)
    : stateful (list dict * Nx.DiGraph) () :=
  update (fun '(lineage_records, lineage_graph) =>
            (lineage_records ++ [history_lineage query_record query_text source target],
             Nx.add_edge lineage_graph source target (query_based query_record))).

(** Body of [for query_record in results] *)
Definition history_record (query_record : dict) : stateful (list dict * Nx.DiGraph) () :=
  query_text ← lift (upper_query_text query_record);
  let source_tables := _extract_source_tables query_text in
  let target_tables := _extract_target_tables query_text in
  st_for (fun target =>
            st_for (history_pair query_record query_text target) (iterate source_tables))
         (iterate target_tables).

(** The time window is computed before the [try] statement; the [except]
    block logs and re-raises.  The records are local to the call, the graph
    is the tracker's. *)
Definition extract_query_history_lineage (lineage_graph : Nx.DiGraph) (days limit : pyval)
    : outcome (list dict) * Nx.DiGraph :=
  match isoformat_days_before days with
  | Raise e => (Raise e, lineage_graph)
  | Return start_time =>
      match execute_query (VStr (history_query start_time utcnow_isoformat limit)) with
      | Raise e => (Raise e, lineage_graph)
      | Return results =>
          match st_for history_record results ([], lineage_graph) with
          | (Return _, (lineage_records, lineage_graph)) => (Return lineage_records, lineage_graph)
          | (Raise e, (_, lineage_graph)) => (Raise e, lineage_graph)
          end
      end
  end.

(** ** get_full_lineage *)

Definition get_full_lineage (lineage_graph : Nx.DiGraph) (table_name : string) : outcome dict :=
  upstream ← get_upstream_lineage lineage_graph table_name default_max_depth;
  downstream ← get_downstream_lineage lineage_graph table_name default_max_depth;
  Return ({[ "table" := VStr table_name;
             "upstream" := VDict upstream;
             "downstream" := VDict downstream;
             "extracted_at" := VStr utcnow_isoformat ]} : dict).

(** ** save_lineage_to_snowflake *)

Definition lineage_ddl (output_table : string) : string :=
  text [ "";
         "        CREATE TABLE IF NOT EXISTS " +:+ output_table +:+ " (";
         "            lineage_id VARCHAR,";
         "            source_table VARCHAR,";
         "            target_table VARCHAR,";
         "            lineage_type VARCHAR,";
         "            query_id VARCHAR,";
         "            user_name VARCHAR,";
         "            execution_time TIMESTAMP_NTZ,";
         "            lineage_json VARIANT,";
         "            extracted_at TIMESTAMP_NTZ,";
         "            PRIMARY KEY (source_table, target_table, extracted_at)";
         "        )";
         "        " ].

Definition lineage_insert (output_table : string) : string :=
  text [ "";
         "        INSERT INTO " +:+ output_table;
         "        (lineage_id, source_table, target_table, lineage_type, query_id, user_name, execution_time, lineage_json, extracted_at)";
         "        VALUES (%s, %s, %s, %s, %s, %s, %s, PARSE_JSON(%s), %s)";
         "        " ].

(** Body of [for record in lineage_records] *)
Definition lineage_row (insert_data : list (list pyval)) (record : dict)
    : outcome (list (list pyval)) :=
  execution_time ← fromisoformat (get record "execution_time" (VStr utcnow_isoformat));
  lineage_json ← json_dumps (VDict record);
  Return (insert_data ++ [[ get record "query_id" (VStr "");
                            get record "source_table" (VStr "");
                            get record "target_table" (VStr "");
                            get record "query_type" (VStr "UNKNOWN");
                            get record "query_id" (VStr "");
                            get record "user_name" (VStr "");
                            execution_time;
                            VStr lineage_json;
                            utcnow ]]).

Definition save_lineage_to_snowflake (lineage_records : list dict) (output_table : string)
    : stateful (list call) () :=
  _ ← create_table_if_not_exists execute_query output_table (lineage_ddl output_table);
  insert_data ← lift (for_each lineage_row lineage_records []);
  run_many execute_many (lineage_insert output_table) insert_data.

End LineageTracker.

End History.

(* ===================================================================== *)
(** * src/metadata/metadata_extractor.py: the catalog *)
(* ===================================================================== *)

Module Catalog.

Import PyState Driver.

(** The mapping built for a column: it has fixed keys, three of them of
    type [bool]. *)
Record column_metadata := {
  c_database_name : string;
  c_schema_name : pyval;
  c_table_name : pyval;
  c_column_name : pyval;
  c_data_type : pyval;
  c_nullable : bool;
  c_default_value : pyval;
  c_primary_key : bool;
  c_unique_key : bool;
  c_comment : pyval;
  c_extracted_at : string
}.

(** The catalog that [extract_full_metadata] fills.  An entry of
    [databases] is what [extract_database_metadata] returned: a mapping or
    [None]. *)
Record catalog := {
  databases : list (option dict);
  schemas : list dict;
  tables : list dict;
  columns : list column_metadata;
  extraction_timestamp : string
}.

(** [db['database_name']] on an entry of [databases] *)
Definition not_subscriptable : exn := TypeError "'NoneType' object is not subscriptable".

Definition subscript (db : option dict) (k : string) : outcome pyval :=
  match db with
  | Some d => getitem d k
  | None => Raise not_subscriptable
  end.

Section MetadataExtractor.

Variable execute_query : pyval -> outcome (list dict).
Variable execute_many : string -> list (list pyval) -> outcome ().
Variable utcnow_isoformat : string.
Variable repr : pyval -> string.
Variable utcnow : pyval.
(** [json.dumps] of a mapping, and of the mapping of a column *)
Variable json_dumps : pyval -> outcome string.
Variable json_dumps_column : column_metadata -> outcome string.

Local Abbreviation str := (Py.str repr).

(** ** extract_database_metadata

    The [try] body returns only inside [if results:]; the [except] block
    logs and re-raises. *)
Definition database_query (database_name : string) : string :=
  text [ "";
         "        SHOW DATABASES LIKE '" +:+ database_name +:+ "'";
         "        " ].

Definition extract_database_metadata (database_name : string) : outcome (option dict) :=
  results ← execute_query (VStr (database_query database_name));
  match results with
  | _ :: _ =>
      db_info ← first results;
      Return (Some ({[ "database_name" := get_none db_info "name";
                       "created_on" := VStr (str (get_none db_info "created_on"));
                       "owner" := get_none db_info "owner";
                       "comment" := get_none db_info "comment";
                       "retention_time" := get_none db_info "retention_time";
                       "extracted_at" := VStr utcnow_isoformat ]} : dict))
  | [] => Return None
  end.

(** ** extract_schema_metadata *)

Definition schemas_query (database_name : string) (schema_name : option string) : string :=
  match schema_name with
  | Some (String c s) =>
      "SHOW SCHEMAS LIKE '" +:+ String c s +:+ "' IN DATABASE " +:+ database_name
  | _ => "SHOW SCHEMAS IN DATABASE " +:+ database_name
  end.

Definition schema_metadata (database_name : string) (schema : dict) : dict :=
  {[ "database_name" := VStr database_name;
     "schema_name" := get_none schema "name";
     "created_on" := VStr (str (get_none schema "created_on"));
     "owner" := get_none schema "owner";
     "comment" := get_none schema "comment";
     "extracted_at" := VStr utcnow_isoformat ]}.

Definition extract_schema_metadata (database_name : string) (schema_name : option string)
    : outcome (list dict) :=
  results ← execute_query (VStr (schemas_query database_name schema_name));
  Return (foldl (fun schemas schema => schemas ++ [schema_metadata database_name schema])
                [] results).

(** ** extract_table_metadata *)

Definition tables_query (database_name : string) (schema_name : option string) : string :=
  match schema_name with
  | Some (String c s) => "SHOW TABLES IN " +:+ database_name +:+ "." +:+ String c s
  | _ => "SHOW TABLES IN DATABASE " +:+ database_name
  end.

Definition table_metadata (table : dict) : dict :=
  {[ "database_name" := get_none table "database_name";
     "schema_name" := get_none table "schema_name";
     "table_name" := get_none table "name";
     "table_type" := get_none table "kind";
     "row_count" := get_none table "rows";
     "bytes" := get_none table "bytes";
     "created_on" := VStr (str (get_none table "created_on"));
     "owner" := get_none table "owner";
     "comment" := get_none table "comment";
     "cluster_by" := get_none table "cluster_by";
     "extracted_at" := VStr utcnow_isoformat ]}.

Definition extract_table_metadata (database_name : string) (schema_name : option string)
    : outcome (list dict) :=
  results ← execute_query (VStr (tables_query database_name schema_name));
  Return (foldl (fun tables table => tables ++ [table_metadata table]) [] results).

(** ** extract_column_metadata

    Called by [extract_full_metadata] with the schema and table names that
    a row of SHOW TABLES carries. *)
Definition columns_query (database_name : string) (schema_name table_name : pyval) : string :=
  "DESCRIBE TABLE " +:+ database_name +:+ "." +:+ str schema_name +:+ "." +:+ str table_name.

Definition column_of (database_name : string) (schema_name table_name : pyval) (col : dict)
    : column_metadata :=
  {| c_database_name := database_name;
     c_schema_name := schema_name;
     c_table_name := table_name;
     c_column_name := get_none col "name";
     c_data_type := get_none col "type";
     c_nullable := eq_str (get_none col "null?") "Y";
     c_default_value := get_none col "default";
     c_primary_key := eq_str (get_none col "primary key") "Y";
     c_unique_key := eq_str (get_none col "unique key") "Y";
     c_comment := get_none col "comment";
     c_extracted_at := utcnow_isoformat |}.

Definition extract_column_metadata (database_name : string) (schema_name table_name : pyval)
    : outcome (list column_metadata) :=
  results ← execute_query (VStr (columns_query database_name schema_name table_name));
  Return (foldl (fun columns col => columns ++ [column_of database_name schema_name table_name col])
                [] results).

(** ** extract_full_metadata *)

(** Body of [for table in tables] *)
Definition table_columns (db : string) (table : dict) : stateful catalog () :=
  schema ← lift (getitem table "schema_name");
  table_name ← lift (getitem table "table_name");
  new_columns ← lift (extract_column_metadata db schema table_name);
  update (fun c => {| databases := databases c; schemas := schemas c; tables := tables c;
                      columns := columns c ++ new_columns;
                      extraction_timestamp := extraction_timestamp c |}).

(** The [try] block of [for db in databases] *)
Definition database_entries (db : string) : stateful catalog () :=
  db_metadata ← lift (extract_database_metadata db);
  _ ← update (fun c => {| databases := databases c ++ [db_metadata]; schemas := schemas c;
                          tables := tables c; columns := columns c;
                          extraction_timestamp := extraction_timestamp c |});
  new_schemas ← lift (extract_schema_metadata db None);
  _ ← update (fun c => {| databases := databases c; schemas := schemas c ++ new_schemas;
                          tables := tables c; columns := columns c;
                          extraction_timestamp := extraction_timestamp c |});
  new_tables ← lift (extract_table_metadata db None);
  _ ← update (fun c => {| databases := databases c; schemas := schemas c;
                          tables := tables c ++ new_tables; columns := columns c;
                          extraction_timestamp := extraction_timestamp c |});
  st_for (table_columns db) new_tables.

Definition empty_catalog : catalog :=
  {| databases := []; schemas := []; tables := []; columns := [];
     extraction_timestamp := utcnow_isoformat |}.

(** The [except] block logs and goes on with the next database. *)
Definition extract_full_metadata (dbs : list string) : catalog :=
  (st_for (fun db => st_try (database_entries db) (fun e => mret ())) dbs empty_catalog).2.

(** ** save_metadata_to_snowflake *)

Definition metadata_ddl (output_table : string) : string :=
  text [ "";
         "        CREATE TABLE IF NOT EXISTS " +:+ output_table +:+ " (";
         "            metadata_type VARCHAR,";
         "            database_name VARCHAR,";
         "            schema_name VARCHAR,";
         "            object_name VARCHAR,";
         "            metadata_json VARIANT,";
         "            extracted_at TIMESTAMP_NTZ,";
         "            PRIMARY KEY (metadata_type, database_name, schema_name, object_name, extracted_at)";
         "        )";
         "        " ].

Definition metadata_insert (output_table : string) : string :=
  text [ "";
         "        INSERT INTO " +:+ output_table +:+ " ";
         "        (metadata_type, database_name, schema_name, object_name, metadata_json, extracted_at)";
         "        VALUES (%s, %s, %s, %s, PARSE_JSON(%s), %s)";
         "        " ].

(** [json.dumps(db)] for an entry of [databases] *)
Definition entry_value (db : option dict) : pyval :=
  match db with
  | Some d => VDict d
  | None => VNone
  end.

(** The bodies of the four loops *)
Definition database_row (insert_data : list (list pyval)) (db : option dict)
    : outcome (list (list pyval)) :=
  database_name ← subscript db "database_name";
  object_name ← subscript db "database_name";
  metadata_json ← json_dumps (entry_value db);
  Return (insert_data ++ [[ VStr "DATABASE"; database_name; VNone; object_name;
                            VStr metadata_json; utcnow ]]).

Definition schema_row (insert_data : list (list pyval)) (schema : dict)
    : outcome (list (list pyval)) :=
  database_name ← getitem schema "database_name";
  schema_name ← getitem schema "schema_name";
  object_name ← getitem schema "schema_name";
  metadata_json ← json_dumps (VDict schema);
  Return (insert_data ++ [[ VStr "SCHEMA"; database_name; schema_name; object_name;
                            VStr metadata_json; utcnow ]]).

Definition table_row (insert_data : list (list pyval)) (table : dict)
    : outcome (list (list pyval)) :=
  database_name ← getitem table "database_name";
  schema_name ← getitem table "schema_name";
  object_name ← getitem table "table_name";
  metadata_json ← json_dumps (VDict table);
  Return (insert_data ++ [[ VStr "TABLE"; database_name; schema_name; object_name;
                            VStr metadata_json; utcnow ]]).

Definition column_row (insert_data : list (list pyval)) (column : column_metadata)
    : outcome (list (list pyval)) :=
  metadata_json ← json_dumps_column column;
  Return (insert_data ++ [[ VStr "COLUMN"; VStr (c_database_name column);
                            c_schema_name column;
                            VStr (str (c_table_name column) +:+ "."
                                  +:+ str (c_column_name column));
                            VStr metadata_json; utcnow ]]).

Definition save_metadata_to_snowflake (c : catalog) (output_table : string)
    : stateful (list call) () :=
  _ ← create_table_if_not_exists execute_query output_table (metadata_ddl output_table);
  insert_data ← lift (
    insert_data ← for_each database_row (databases c) [];
    insert_data ← for_each schema_row (schemas c) insert_data;
    insert_data ← for_each table_row (tables c) insert_data;
    for_each column_row (columns c) insert_data);
  run_many execute_many (metadata_insert output_table) insert_data.

End MetadataExtractor.

End Catalog.

(* ===================================================================== *)
(** * src/pipeline.py: the data-quality step *)
(* ===================================================================== *)

Module Pipeline.

Import PyState Driver Quality Validation.

(** [table_info.get(k)] and [table_info.get(k, default)] on a table
    description, a mapping from [str] to [str]; the text is what an f-string
    shows. *)
Definition field (table_info : gmap string string) (k : string) : string :=
  match table_info !! k with
  | Some s => s
  | None => "None"
  end.

Definition field_or (table_info : gmap string string) (k default : string) : string :=
  match table_info !! k with
  | Some s => s
  | None => default
  end.

Section GovernancePipeline.

Variable execute_query : pyval -> outcome (list dict).
Variable execute_many : string -> list (list pyval) -> outcome ().
Variable utcnow_isoformat : string.
Variable repr : pyval -> string.
(** [self.config], loaded from the YAML file *)
Variable config : dict.
Variable utcnow : pyval.
Variable utcnow_timestamp : string.
Variable json_dumps : pyval -> outcome string.
(** [datetime.utcnow().strftime('%Y%m%d_%H%M%S')] *)
Variable utcnow_strftime : string.
(** [open(path, 'w')] followed by [json.dump(content, f, indent=2)] *)
Variable write_json : string -> pyval -> outcome ().

Local Abbreviation str := (Py.str repr).

Definition export (path : string) (content : pyval) : stateful (list call) () :=
  fun log => (write_json path content, log ++ [WriteJson path content]).

(** ** _get_tables_from_metadata: a placeholder that reads the tracked
    databases and returns an empty list. *)
Definition _get_tables_from_metadata : outcome (list (gmap string string)) :=
  let metadata_config := get config "metadata" (VDict ∅) in
  tracked_databases ← pyget metadata_config "tracked_databases" (VList []);
  Return [].

(** [dq_config.get('rules', {}).get(rule, {}).get(key, default)] *)
Definition rule_setting (dq_config : pyval) (rule key : string) (default : pyval)
    : outcome pyval :=
  rules ← pyget dq_config "rules" (VDict ∅);
  settings ← pyget rules rule (VDict ∅);
  pyget settings key default.

(** Body of [for table_info in tables].  The validator was built with
    [self.config]; its methods use the three names only inside f-strings. *)
Definition validate_table (dq_config : pyval) (all_results : list dict)
    (table_info : gmap string string) : outcome (list dict) :=
  let database := field table_info "database" in
  let schema := field table_info "schema" in
  let table := field table_info "table" in
  let result :=
    run_comprehensive_validation execute_query utcnow_isoformat repr config
      database schema table None in
  let all_results := all_results ++ [result] in
  enabled ← rule_setting dq_config "uniqueness" "enabled" py_false;
  all_results ←
    (if truthy enabled then
       uniqueness_result ←
         check_uniqueness execute_query utcnow_isoformat repr database schema table
           [VStr (field_or table_info "primary_key" "id")];
       Return (all_results ++ [uniqueness_result])
     else Return all_results);
  enabled ← rule_setting dq_config "timeliness" "enabled" py_false;
  if truthy enabled then
    max_age ← rule_setting dq_config "timeliness" "max_age_hours" (VInt 24);
    timeliness_result ←
      check_timeliness execute_query utcnow_isoformat repr database schema table
        (field_or table_info "timestamp_column" "created_at") max_age;
    Return (all_results ++ [timeliness_result])
  else Return all_results.

(** ** run_data_quality_validation: the [except] block logs and re-raises. *)
Definition run_data_quality_validation (tables : option (list (gmap string string)))
    : stateful (list call) dict :=
  let dq_config := get config "data_quality" (VDict ∅) in
  let output_config := get config "output" (VDict ∅) in
  tables ← lift (match tables with
                 | Some (t :: ts) => Return (t :: ts)
                 | _ => _get_tables_from_metadata
                 end);
  all_results ← lift (for_each (validate_table dq_config) tables []);
  output_table ← lift (pyget output_config "dq_results_table" (VStr "DQ_VALIDATION_RESULTS"));
  _ ← save_validation_results execute_query execute_many repr utcnow utcnow_timestamp
        json_dumps all_results (str output_table);
  report ← lift (generate_dq_report utcnow_isoformat all_results);
  export_json ← lift (pyget output_config "export_json" py_false);
  _ ← (if truthy export_json
       then export ("output/dq_report_" +:+ utcnow_strftime +:+ ".json") (VDict report)
       else mret ());
  mret report.

End GovernancePipeline.

End Pipeline.

(* ===================================================================== *)
(** * Vocabulary for running and saving *)
(* ===================================================================== *)

Module ValidationSpec.

Import PyState Driver Quality QualitySpec Validation.

(** [validation_config or self.config.get('data_quality', {})] *)
Definition effective_config (config : dict) (validation_config : option dict) : pyval :=
  match validation_config with
  | Some d => if bool_decide (d = ∅) then get config "data_quality" (VDict ∅) else VDict d
  | None => get config "data_quality" (VDict ∅)
  end.

(** The settings of the completeness rule, as the method reads them. *)
Definition completeness_setting (cfg : pyval) (key : string) (default : pyval) : outcome pyval :=
  rules ← completeness_rules cfg; pyget rules key default.

(** The field [i] of a tuple handed to [execute_many]. *)
Definition column (i : nat) (row : list pyval) : option pyval := row !! i.

(** A driver on which every batch insert succeeds, an encoder that gives
    the same text for every value, and one that rejects every value. *)
Definition accepting (query : string) (data : list (list pyval)) : outcome () := Return ().
Definition constant_json (v : pyval) : outcome string := Return "{}".
Definition rejecting_json (v : pyval) : outcome string :=
  Raise (TypeError "Object of type Decimal is not JSON serializable").

(** A fixed clock. *)
Definition sample_now : pyval := VOther "datetime" "2024-01-01 00:00:00".
Definition sample_timestamp : string := "1704067200.0".

End ValidationSpec.

Module HistorySpec.

Import PyStr Nx NxSpec Lineage LineageSpec History.

(** The (source, target) pairs that the loops over a query text visit, in
    the order they visit them. *)
Definition record_pairs (iterate : gset string -> list string) (query_text : string)
    : list (string * string) :=
  target ← iterate (_extract_target_tables query_text);
  source ← iterate (_extract_source_tables query_text);
  [(source, target)].

(** The graph after the edges of [pairs] are added with attributes [attr]. *)
Definition add_pairs (G : DiGraph) (attr : dict) (pairs : list (string * string)) : DiGraph :=
  foldl (fun G p => add_edge G p.1 p.2 attr) G pairs.

(** The text of a row of the query history. *)
Definition query_text_is (query_record : dict) (text : string) : Prop :=
  get query_record "QUERY_TEXT" (VStr "") = VStr text.

Section Rows.

Variable utcnow_isoformat : string.
Variable repr : pyval -> string.
Variable upper : string -> string.
Variable iterate : gset string -> list string.

(** The records of a row whose text is [text], and the graph after it. *)
Definition row_records (query_record : dict) (text : string) : list dict :=
  (fun p => history_lineage utcnow_isoformat repr query_record (upper text) p.1 p.2)
    <$> record_pairs iterate (upper text).

Definition row_graph (G : DiGraph) (query_record : dict) (text : string) : DiGraph :=
  add_pairs G (query_based query_record) (record_pairs iterate (upper text)).

(** The records of the rows [rows], whose texts are [texts], and the graph
    after them. *)
Definition rows_records (rows : list dict) (texts : list string) : list dict :=
  concat (zip_with row_records rows texts).

Definition rows_graph (G : DiGraph) (rows : list dict) (texts : list string) : DiGraph :=
  foldl (fun G p => row_graph G p.1 p.2) G (zip rows texts).

End Rows.

(** [str.upper] on a text of ASCII characters. *)
Definition ascii_upper_char (c : ascii) : ascii :=
  let n := Ascii.nat_of_ascii c in
  if Nat.leb 97 n && Nat.leb n 122 then Ascii.ascii_of_nat (n - 32) else c.

Fixpoint ascii_upper (s : string) : string :=
  match s with
  | "" => ""
  | String c s' => String (ascii_upper_char c) (ascii_upper s')
  end.

(** Three rows of a query history: a statement that loads a mart table
    from two raw tables, one whose text is NULL, and one that loads a second
    mart table. *)
Definition loading_t : dict :=
  {[ "QUERY_ID" := VStr "q1";
     "QUERY_TEXT" := VStr "insert into mart.s.t select * from raw.s.a join raw.s.b on x" ]}.

Definition without_text : dict := {[ "QUERY_ID" := VStr "q2"; "QUERY_TEXT" := VNone ]}.

Definition loading_u : dict :=
  {[ "QUERY_ID" := VStr "q3";
     "QUERY_TEXT" := VStr "insert into mart.s.u select * from raw.s.a" ]}.

Definition history_warehouse (rows : list dict) (query : pyval) : outcome (list dict) :=
  match query with
  | VStr q =>
      if bool_decide (q = history_query no_repr "2023-12-25T00:00:00" "2024-01-01T00:00:00"
                             default_limit)
      then Return rows
      else Raise (DriverError "SQL compilation error")
  | _ => Raise (DriverError "query must be a string")
  end.

Definition week_before (days : pyval) : outcome string := Return "2023-12-25T00:00:00".

(** A tracker over the sample history, with sets visited in the order of
    [elements]. *)
Definition sample_history (rows : list dict) (G : DiGraph) : outcome (list dict) * DiGraph :=
  extract_query_history_lineage (history_warehouse rows) "2024-01-01T00:00:00" no_repr
    week_before ascii_upper elements G default_days default_limit.

(** [datetime.fromisoformat] on the fixed clock's text only. *)
Definition sample_fromisoformat (v : pyval) : outcome pyval :=
  match v with
  | VStr s =>
      if bool_decide (s = "2024-01-01T00:00:00")
      then Return (VOther "datetime" "2024-01-01 00:00:00")
      else Raise (DriverError "Invalid isoformat string")
  | _ => Raise (TypeError "fromisoformat: argument must be str")
  end.

(** The catalog of [LineageSpec], on which every other statement succeeds
    with no row, and what one extraction over it gives. *)
Definition saving_warehouse (query : pyval) : outcome (list dict) :=
  match catalog_warehouse query with
  | Return rows => Return rows
  | Raise _ => Return []
  end.

Definition declared : outcome (list dict) * DiGraph :=
  extract_table_dependencies saving_warehouse "2024-01-01T00:00:00" no_repr empty "PROD_DB" None.

Definition declared_records : list dict :=
  match declared.1 with
  | Return dependencies => dependencies
  | Raise _ => []
  end.

(** A record as [extract_query_history_lineage] builds it. *)
Definition query_record : dict :=
  {[ "query_id" := VStr "q1";
     "source_table" := VStr "RAW.S.A";
     "target_table" := VStr "MART.S.T";
     "query_type" := VStr "INSERT";
     "user_name" := VStr "ETL";
     "execution_time" := VStr "2024-01-01T00:00:00" ]}.

End HistorySpec.

(** * Reference definitions for the metadata catalog *)

Module CatalogSpec.

Import PyState Driver Catalog QualitySpec.

Section Entries.

Variable execute_query : pyval -> outcome (list dict).
Variable utcnow_isoformat : string.
Variable repr : pyval -> string.

(** The columns of the table that a table record names. *)
Definition described (db : string) (table : dict) : outcome (list column_metadata) :=
  schema ← getitem table "schema_name";
  table_name ← getitem table "table_name";
  extract_column_metadata execute_query utcnow_isoformat repr db schema table_name.

(** The columns of the tables of [tables], up to the first table whose
    columns cannot be extracted. *)
Fixpoint columns_until_failure (db : string) (tables : list dict) : list column_metadata :=
  match tables with
  | [] => []
  | table :: tables' =>
      match described db table with
      | Return columns => columns ++ columns_until_failure db tables'
      | Raise _ => []
      end
  end.

(** What a database contributes to each of the four lists of the catalog:
    an extraction is attempted only when the ones before it returned. *)
Definition database_part (db : string) : list (option dict) :=
  match extract_database_metadata execute_query utcnow_isoformat repr db with
  | Return entry => [entry]
  | Raise _ => []
  end.

Definition schema_part (db : string) : list dict :=
  match extract_database_metadata execute_query utcnow_isoformat repr db with
  | Return _ =>
      match extract_schema_metadata execute_query utcnow_isoformat repr db None with
      | Return schemas => schemas
      | Raise _ => []
      end
  | Raise _ => []
  end.

Definition table_part (db : string) : list dict :=
  match extract_database_metadata execute_query utcnow_isoformat repr db with
  | Return _ =>
      match extract_schema_metadata execute_query utcnow_isoformat repr db None with
      | Return _ =>
          match extract_table_metadata execute_query utcnow_isoformat repr db None with
          | Return tables => tables
          | Raise _ => []
          end
      | Raise _ => []
      end
  | Raise _ => []
  end.

Definition column_part (db : string) : list column_metadata :=
  columns_until_failure db (table_part db).

End Entries.

(** The catalog [c] with four lists appended. *)
Definition extended (c : catalog) (ds : list (option dict)) (ss ts : list dict)
    (cs : list column_metadata) : catalog :=
  {| databases := databases c ++ ds; schemas := schemas c ++ ss;
     tables := tables c ++ ts; columns := columns c ++ cs;
     extraction_timestamp := extraction_timestamp c |}.

(** A catalog whose records carry the keys that saving reads. *)
Definition keyed (keys : list string) (record : dict) : Prop :=
  Forall (fun k => is_Some (record !! k)) keys.

(** A warehouse that knows database [PROD] with schema [S] and table [T] of
    one column, and answers every other statement with no row. *)
Definition prod_warehouse (query : pyval) : outcome (list dict) :=
  match query with
  | VStr q =>
      if bool_decide (q = database_query "PROD")
      then Return [ {[ "name" := VStr "PROD"; "owner" := VStr "SYSADMIN" ]} ]
      else if bool_decide (q = schemas_query "PROD" None)
      then Return [ {[ "name" := VStr "S" ]} ]
      else if bool_decide (q = tables_query "PROD" None)
      then Return [ {[ "name" := VStr "T"; "schema_name" := VStr "S";
                       "database_name" := VStr "PROD" ]} ]
      else if bool_decide (q = "DESCRIBE TABLE PROD.S.T")
      then Return [ {[ "name" := VStr "ID"; "type" := VStr "NUMBER";
                       "null?" := VStr "N"; "primary key" := VStr "Y" ]} ]
      else Return []
  | _ => Raise (DriverError "query must be a string")
  end.

Definition constant_json_column (c : column_metadata) : outcome string := Return "{}".

End CatalogSpec.

(** * Reference definitions for the data-quality step *)

Module PipelineSpec.

Import Quality Validation Pipeline.

(** Whether a rule of [dq_config] is switched on, read as the pipeline
    reads it. *)
Definition switched_on (settings : dict) : bool := truthy (get settings "enabled" py_false).

(** The number of results that one table adds. *)
Definition per_table (uniqueness timeliness : dict) : nat :=
  1 + (if switched_on uniqueness then 1 else 0) + (if switched_on timeliness then 1 else 0).

(** The report over no result. *)
Definition empty_report (utcnow_isoformat : string) : dict :=
  <["success_rate" := VInt 0]>
    {[ "report_timestamp" := VStr utcnow_isoformat;
       "total_checks" := VInt 0;
       "passed_checks" := VInt 0;
       "failed_checks" := VInt 0;
       "error_checks" := VInt 0;
       "check_summary" := VList [] ]}.

Definition report_path (utcnow_strftime : string) : string :=
  "output/dq_report_" +:+ utcnow_strftime +:+ ".json".

(** A configuration that switches the uniqueness rule on and exports
    nothing, one with a null [rules] section, and a table description. *)
Definition uniqueness_config : dict :=
  {[ "data_quality" :=
       VDict {[ "rules" := VDict {[ "uniqueness" := VDict {[ "enabled" := py_true ]} ]} ]} ]}.

Definition null_rules_config : dict :=
  {[ "data_quality" := VDict {[ "rules" := VNone ]} ]}.

Definition exporting_config : dict :=
  {[ "output" := VDict {[ "export_json" := py_true; "dq_results_table" := VStr "DQ" ]} ]}.

Definition sample_table : gmap string string :=
  {[ "database" := "DB"; "schema" := "S"; "table" := "T" ]}.

Definition writing (path : string) (content : pyval) : outcome () := Return ().

End PipelineSpec.

(* ===================================================================== *)
(** * Facts about the Python built-ins *)
(* ===================================================================== *)

Module PyFacts.

Import QualitySpec.

Lemma bind_Return {A B} (a : A) (f : A -> outcome B) : (Return a ≫= f) = f a.
Proof. reflexivity. Qed.

Lemma try_except_returns {A} (body : outcome A) (handler : exn -> A) :
  exists a, try_except body (fun e => Return (handler e)) = Return a.
Proof. destruct body; simpl; eauto. Qed.

Lemma getitem_Some (d : dict) k v : d !! k = Some v -> getitem d k = Return v.
Proof. unfold getitem. intros H. rewrite H. reflexivity. Qed.

Lemma Qc_of_Z_pos n : (0 < n)%Z -> (Q2Qc 0 < Qc_of_Z n)%Qc.
Proof. intros H. rewrite <- Z2Qc_inj_0. exact (proj1 (Z2Qc_inj_lt 0 n) H). Qed.

Lemma Qc_of_Z_nonzero n : n <> 0%Z -> Qc_of_Z n <> Q2Qc 0.
Proof. intros H E. rewrite <- Z2Qc_inj_0 in E. apply Z2Qc_inj in E. contradiction. Qed.

Lemma gt_zero_int n : gt (VInt n) (VInt 0) = Return (bool_decide (0 < n)%Z).
Proof.
  unfold gt; simpl. f_equal. apply bool_decide_ext.
  symmetry. exact (Z2Qc_inj_lt 0 n).
Qed.

Lemma truediv_int a b :
  b <> 0%Z -> truediv (VInt a) (VInt b) = Return (VNum (Qc_of_Z a / Qc_of_Z b)).
Proof.
  intros H. unfold truediv; simpl.
  rewrite bool_decide_false; [done|]. by apply Qc_of_Z_nonzero.
Qed.





Lemma raises_bind_l {A B} (m : outcome A) (f : A -> outcome B) :
  raises m -> raises (m ≫= f).
Proof. intros (e & ->). by exists e. Qed.

Lemma raises_bind_r {A B} (m : outcome A) (f : A -> outcome B) :
  (forall a, raises (f a)) -> raises (m ≫= f).
Proof. intros H. destruct m as [a|e]; [apply H|by exists e]. Qed.

Lemma for_each_raises {A S} (body : S -> A -> outcome S) x xs :
  x ∈ xs -> (forall s, raises (body s x)) -> forall s, raises (for_each body xs s).
Proof.
  intros Hin Hx. induction xs as [|y xs IH]; intros s.
  - by apply elem_of_nil in Hin.
  - simpl. apply elem_of_cons in Hin as [->|Hin].
    + apply raises_bind_l, Hx.
    + apply raises_bind_r. intros s'. by apply IH.
Qed.

Lemma try_except_raises {A} (body : outcome A) (handler : exn -> A) :
  raises body -> exists e, try_except body (fun e => Return (handler e)) = Return (handler e).
Proof. intros (e & ->). by exists e. Qed.

Lemma append_item_list (d : dict) k items x :
  d !! k = Some (VList items) ->
  append_item d k x = Return (<[k := VList (items ++ [x])]> d).
Proof. intros Hd. unfold append_item. by rewrite (getitem_Some _ _ _ Hd). Qed.

Lemma for_each_append (f : string -> pyval) k xs : forall (d : dict) items,
  d !! k = Some (VList items) ->
  for_each (fun d x => append_item d k (f x)) xs d
  = Return (<[k := VList (items ++ (f <$> xs))]> d).
Proof.
  induction xs as [|x xs IH]; intros d items Hd; cbn [for_each fmap list_fmap].
  - rewrite app_nil_r, insert_id by done. reflexivity.
  - rewrite (append_item_list _ _ _ _ Hd), bind_Return.
    rewrite (IH _ (items ++ [f x])) by apply lookup_insert_eq.
    rewrite insert_insert_eq, <- app_assoc. reflexivity.
Qed.

End PyFacts.

(* ===================================================================== *)
(** * The data-quality validator *)
(* ===================================================================== *)

Module QualityProofs.

Import Quality QualitySpec PyFacts.

(** ** generate_dq_report *)

Section Report.

Variable utcnow_isoformat : string.

Lemma eq_str_exclusive v s1 s2 : s1 <> s2 -> eq_str v s1 = true -> eq_str v s2 = false.
Proof.
  destruct v; simpl; try done.
  intros Hne H1. apply bool_decide_eq_true in H1. subst.
  by apply bool_decide_false.
Qed.

Lemma tally_step report result total passed failed errors :
  tallied report total passed failed errors ->
  exists report',
    tally report result = Return report' /\
    tallied report' total
      (passed + indicator (eq_str (result_status result) "PASSED"))
      (failed + indicator (eq_str (result_status result) "FAILED"))
      (errors + indicator (eq_str (result_status result) "ERROR")).
Proof.
  intros (Ht & Hp & Hf & He & summary & Hs).
  unfold tally.
  destruct (eq_str (result_status result) "PASSED") eqn:EP;
    [ rewrite (eq_str_exclusive _ "PASSED" "FAILED"), (eq_str_exclusive _ "PASSED" "ERROR") by done
    | destruct (eq_str (result_status result) "FAILED") eqn:EF;
      [ rewrite (eq_str_exclusive _ "FAILED" "ERROR") by done
      | destruct (eq_str (result_status result) "ERROR") eqn:EE ] ];
    unfold incr_item, append_item, getitem; simpl;
    rewrite ?Hp, ?Hf, ?He; simpl;
    rewrite ?lookup_insert_ne by done; rewrite Hs; simpl;
    (eexists; split; [reflexivity|]);
    unfold tallied, indicator; simplify_map_eq; rewrite ?Z.add_0_r; eauto 10.
Qed.

Lemma count_status_cons s r results :
  count_status s (r :: results) = (indicator (eq_str (result_status r) s) + count_status s results)%Z.
Proof.
  unfold count_status. rewrite filter_cons.
  destruct (decide (eq_str (result_status r) s)) as [H|H].
  - apply Is_true_true in H. rewrite H. simpl length. simpl indicator. lia.
  - apply Is_true_false in H. rewrite H. simpl indicator. lia.
Qed.

Lemma tally_loop results : forall report total passed failed errors,
  tallied report total passed failed errors ->
  exists report',
    for_each tally results report = Return report' /\
    tallied report' total
      (passed + count_status "PASSED" results)
      (failed + count_status "FAILED" results)
      (errors + count_status "ERROR" results).
Proof.
  induction results as [|r results IH]; intros report total passed failed errors Hrep.
  - exists report. split; [done|].
    unfold count_status; simpl. by rewrite !Z.add_0_r.
  - destruct (tally_step report r _ _ _ _ Hrep) as (report1 & Hstep & Hrep1).
    destruct (IH _ _ _ _ _ Hrep1) as (report' & Hloop & Hrep').
    exists report'. split.
    + simpl. rewrite Hstep. exact Hloop.
    + rewrite !count_status_cons, !Z.add_assoc. exact Hrep'.
Qed.

(** C3. [generate_dq_report] returns (it never raises) a report whose
    [total_checks] is the length of the list, whose [passed_checks],
    [failed_checks] and [error_checks] count the results with status PASSED,
    FAILED and ERROR, and whose [success_rate] is passed / total, or 0 for
    the empty list; for statuses [PASSED, PASSED, FAILED, ERROR] the report
    has total 4, passed 2, failed 1, errors 1 and success rate 0.5. *)
Theorem generate_dq_report_tally (results : list dict) :
  exists report,
    generate_dq_report utcnow_isoformat results = Return report /\
    report !! "total_checks" = Some (VInt (Z.of_nat (length results))) /\
    report !! "passed_checks" = Some (VInt (count_status "PASSED" results)) /\
    report !! "failed_checks" = Some (VInt (count_status "FAILED" results)) /\
    report !! "error_checks" = Some (VInt (count_status "ERROR" results)) /\
    report !! "success_rate" =
      Some (match results with
            | [] => VInt 0
            | _ => VNum (Qc_of_Z (count_status "PASSED" results)
                         / Qc_of_Z (Z.of_nat (length results)))
            end) /\
    (result_status <$> results = [VStr "PASSED"; VStr "PASSED"; VStr "FAILED"; VStr "ERROR"] ->
     report !! "total_checks" = Some (VInt 4) /\
     report !! "passed_checks" = Some (VInt 2) /\
     report !! "failed_checks" = Some (VInt 1) /\
     report !! "error_checks" = Some (VInt 1) /\
     report !! "success_rate" = Some (VNum (Q2Qc (1 # 2)))).
Proof.
  unfold generate_dq_report.
  match goal with |- context [for_each tally results ?r] => set (report0 := r) end.
  assert (H0 : tallied report0 (Z.of_nat (length results)) 0 0 0).
  { unfold tallied, report0, len. simplify_map_eq. eauto 10. }
  destruct (tally_loop results _ _ _ _ _ H0)
    as (report & Hloop & Ht & Hp & Hf & He & summary & Hs).
  rewrite Hloop, bind_Return. rewrite !Z.add_0_l in *.
  rewrite (getitem_Some _ _ _ Ht), bind_Return, gt_zero_int, bind_Return.
  match goal with |- exists _, (?m ≫= _) = _ /\ _ =>
    assert (Hrate : m = Return (match results with
           | [] => VInt 0
           | _ => VNum (Qc_of_Z (count_status "PASSED" results)
                        / Qc_of_Z (Z.of_nat (length results)))
           end))
  end.
  { destruct results as [|r results]; [reflexivity|].
    rewrite bool_decide_true by (simpl length; lia).
    rewrite (getitem_Some _ _ _ Hp), !bind_Return.
    rewrite truediv_int by (simpl length; lia). reflexivity. }
  rewrite Hrate, bind_Return.
  eexists. split; [reflexivity|].
  rewrite lookup_insert_eq. repeat (rewrite lookup_insert_ne by done).
  repeat (split; [first [assumption | congruence]|]).
  intros Hst.
  assert (Hlen : length results = 4%nat).
  { rewrite <- (length_fmap result_status), Hst. reflexivity. }
  assert (Hcount : forall s, count_status s results
            = Z.of_nat (length (filter (fun v => eq_str v s)
                 [VStr "PASSED"; VStr "PASSED"; VStr "FAILED"; VStr "ERROR"]))).
  { intros s. unfold count_status. rewrite <- Hst.
    clear. induction results as [|r rs IH]; [done|].
    rewrite fmap_cons, !filter_cons.
    destruct (decide (eq_str (result_status r) s)); simpl; lia. }
  rewrite Ht, Hp, Hf, He, Hlen, !Hcount.
  destruct results as [|r results]; [discriminate|].
  repeat (split; [reflexivity|]).
  do 2 f_equal. apply Qc_is_canon. reflexivity.
Qed.

End Report.

Lemma generate_dq_report_tally_witness :
  exists report,
    generate_dq_report "2024-01-01T00:00:00" sample_results = Return report /\
    report !! "total_checks" = Some (VInt 4) /\
    report !! "passed_checks" = Some (VInt 2) /\
    report !! "failed_checks" = Some (VInt 1) /\
    report !! "error_checks" = Some (VInt 1) /\
    report !! "success_rate" = Some (VNum (Q2Qc (1 # 2))).
Proof.
  destruct (generate_dq_report_tally "2024-01-01T00:00:00" sample_results)
    as (report & Hrun & _ & _ & _ & _ & _ & Hsample).
  exists report. split; [exact Hrun|].
  apply Hsample. reflexivity.
Defined.
(** ** check_completeness *)

Section Columns.

Variable execute_query : pyval -> outcome (list dict).
Variable utcnow_isoformat : string.
Variable repr : pyval -> string.






(** ** check_uniqueness *)

Lemma uniqueness_column_step ftn column counts (results : dict) entries :
  answers_dup execute_query repr ftn column counts ->
  results !! "columns" = Some (VList entries) ->
  uniqueness_column execute_query repr ftn results (VStr column)
  = Return (<["columns" := VList (entries ++ [uniqueness_report column counts])]>
              (if bool_decide (uniqueness_status counts = "FAILED")
               then <["overall_status" := VStr "FAILED"]> results else results)).
Proof.
  intros (row & rest & Hq & Ht & Hd & Hdup) Hcols.
  unfold uniqueness_column. rewrite Hq, !bind_Return. unfold first. rewrite !bind_Return.
  rewrite (getitem_Some _ _ _ Ht), !bind_Return.
  rewrite (getitem_Some _ _ _ Hd), !bind_Return.
  rewrite (getitem_Some _ _ _ Hdup), !bind_Return.
  rewrite gt_zero_int, !bind_Return.
  assert (Hratio : (if bool_decide (0 < counts.1)%Z
                    then truediv (VInt counts.2) (VInt counts.1) else Return (VInt 0))
                   ≫= (fun r => round r 4) = Return (uniqueness_ratio counts)).
  { unfold uniqueness_ratio. destruct (bool_decide (0 < counts.1)%Z) eqn:E.
    - apply bool_decide_eq_true in E. rewrite truediv_int by lia. reflexivity.
    - reflexivity. }
  assert (Hst : passed_or_failed (eq_int (VInt (counts.1 - counts.2)) 0)
                = uniqueness_status counts).
  { reflexivity. }
  rewrite Hst.
  destruct (if bool_decide (0 < counts.1)%Z
            then truediv (VInt counts.2) (VInt counts.1) else Return (VInt 0))
    as [ratio|e] eqn:Er; [|discriminate].
  rewrite !bind_Return. rewrite bind_Return in Hratio. rewrite Hratio, !bind_Return.
  unfold append_item.
  assert (Hcols' : (if bool_decide (uniqueness_status counts = "FAILED")
                    then <["overall_status" := VStr "FAILED"]> results else results)
                   !! "columns" = Some (VList entries)).
  { destruct (bool_decide (uniqueness_status counts = "FAILED")); cbv iota;
      [rewrite lookup_insert_ne by done|]; exact Hcols. }
  rewrite (getitem_Some _ _ _ Hcols'), !bind_Return.
  reflexivity.
Qed.

Lemma uniqueness_loop ftn :
  forall columns counts (results : dict) entries status,
  Forall2 (answers_dup execute_query repr ftn) columns counts ->
  results !! "columns" = Some (VList entries) ->
  results !! "overall_status" = Some (VStr status) ->
  exists results',
    for_each (uniqueness_column execute_query repr ftn) (VStr <$> columns) results
      = Return results' /\
    results' !! "columns"
      = Some (VList (entries ++ zip_with uniqueness_report columns counts)) /\
    results' !! "overall_status"
      = Some (VStr (if some_duplicated counts then "FAILED" else status)).
Proof.
  intros columns counts results entries status Hall.
  revert results entries status.
  induction Hall as [|column c columns counts Hans Hall IH]; intros results entries status Hc Hs.
  - exists results. simpl. rewrite app_nil_r. auto.
  - rewrite fmap_cons. cbn [for_each].
    rewrite (uniqueness_column_step ftn column c results entries Hans Hc), bind_Return.
    set (results1 := <["columns" := _]> _).
    assert (Hc1 : results1 !! "columns"
              = Some (VList (entries ++ [uniqueness_report column c]))).
    { unfold results1. apply lookup_insert_eq. }
    assert (Hs1 : results1 !! "overall_status"
              = Some (VStr (if bool_decide (uniqueness_status c = "FAILED")
                            then "FAILED" else status))).
    { unfold results1. rewrite lookup_insert_ne by done.
      destruct (bool_decide (uniqueness_status c = "FAILED")).
      - apply lookup_insert_eq.
      - exact Hs. }
    destruct (IH _ _ _ Hc1 Hs1) as (results' & Hrun & Hc' & Hs').
    exists results'. split; [exact Hrun|]. split.
    + rewrite Hc', <- app_assoc. reflexivity.
    + rewrite Hs'.
      change (some_duplicated (c :: counts))
        with (bool_decide (uniqueness_status c = "FAILED") || some_duplicated counts).
      destruct (bool_decide (uniqueness_status c = "FAILED")), (some_duplicated counts);
        reflexivity.
Qed.

(** C2. For every column list, over a table where column [c] has [total]
    rows and [distinct] distinct values, [check_uniqueness] reports for each
    column [duplicate_count = total_count - distinct_count] with status
    FAILED exactly when [duplicate_count <> 0], and sets [overall_status] to
    FAILED exactly when some column failed (PASSED otherwise). *)
Theorem check_uniqueness_columns database schema table columns (counts : list (Z * Z)) :
  let ftn := full_table_name database schema table in
  Forall2 (answers_dup execute_query repr ftn) columns counts ->
  exists result,
    check_uniqueness execute_query utcnow_isoformat repr database schema table
      (VStr <$> columns) = Return result /\
    result !! "columns" = Some (VList (zip_with uniqueness_report columns counts)) /\
    (forall column total distinct,
       exists entry duplicate_count,
         uniqueness_report column (total, distinct) = VDict entry /\
         entry !! "total_count" = Some (VInt total) /\
         entry !! "distinct_count" = Some (VInt distinct) /\
         entry !! "duplicate_count" = Some (VInt duplicate_count) /\
         duplicate_count = (total - distinct)%Z /\
         (entry !! "status" = Some (VStr "FAILED") <-> duplicate_count <> 0%Z) /\
         (entry !! "status" = Some (VStr "PASSED") <-> duplicate_count = 0%Z)) /\
    (result !! "overall_status" = Some (VStr "FAILED")
     <-> Exists (fun c => uniqueness_status c = "FAILED") counts) /\
    (result !! "overall_status" = Some (VStr "PASSED")
     <-> ~ Exists (fun c => uniqueness_status c = "FAILED") counts).
Proof.
  intros ftn Hall.
  unfold check_uniqueness. fold ftn.
  match goal with |- context [for_each _ _ ?r] => set (results0 := r) end.
  assert (Hc0 : results0 !! "columns" = Some (VList [])).
  { unfold results0. simplify_map_eq. reflexivity. }
  assert (Hs0 : results0 !! "overall_status" = Some (VStr "PASSED")).
  { unfold results0. simplify_map_eq. reflexivity. }
  destruct (uniqueness_loop ftn columns counts results0 [] "PASSED" Hall Hc0 Hs0)
    as (result & Hrun & Hc & Hs).
  rewrite Hrun. simpl try_except.
  exists result. split; [reflexivity|]. split; [exact Hc|]. split.
  { intros column total distinct. eexists _, (total - distinct)%Z.
    split; [reflexivity|]. simplify_map_eq.
    repeat (split; [reflexivity|]).
    unfold uniqueness_status. simpl.
    destruct (bool_decide (total - distinct = 0)%Z) eqn:E.
    - apply bool_decide_eq_true in E. split; split; try done; try congruence.
    - apply bool_decide_eq_false in E. split; split; try done; try congruence. }
  assert (Hex : some_duplicated counts = true
            <-> Exists (fun c => uniqueness_status c = "FAILED") counts).
  { unfold some_duplicated. rewrite existsb_exists, Exists_exists.
    split; intros (c & Hin & Hf); exists c; (split; [exact Hin|]).
    - by apply bool_decide_eq_true in Hf.
    - by apply bool_decide_eq_true. }
  rewrite Hs, <- Hex. destruct (some_duplicated counts); repeat split; try done.
Qed.

End Columns.


Lemma check_uniqueness_columns_witness :
  exists result,
    check_uniqueness sample_warehouse "2024-01-01T00:00:00" sample_repr "DB" "S" "T"
      [VStr "a"; VStr "b"] = Return result /\
    result !! "columns"
      = Some (VList [ uniqueness_report "a" (4, 3)%Z; uniqueness_report "b" (4, 4)%Z ]) /\
    result !! "overall_status" = Some (VStr "FAILED").
Proof.
  destruct (check_uniqueness_columns sample_warehouse "2024-01-01T00:00:00" sample_repr
              "DB" "S" "T" ["a"; "b"] [(4, 3); (4, 4)]%Z)
    as (result & Hrun & Hcols & _ & Hfailed & _).
  - repeat constructor; eexists _, _; repeat split; reflexivity.
  - exists result. split; [exact Hrun|]. split; [exact Hcols|].
    apply Hfailed. apply Exists_cons_hd. reflexivity.
Defined.
(** ** The five checks never re-raise *)

Section Checks.

Variable execute_query : pyval -> outcome (list dict).
Variable utcnow_isoformat : string.
Variable repr : pyval -> string.

(** C8. No data-quality check re-raises: each of the five methods returns a
    record on every input, and when a query it issues raises, the record is
    the ERROR record, with status ERROR and the exception's message (the
    message of the query's own exception when that query is the first
    statement to fail). *)
Theorem checks_fail_soft database schema table :
  let ftn := full_table_name database schema table in
  (forall check_type e,
     error_result check_type ftn e !! "status" = Some (VStr "ERROR") /\
     error_result check_type ftn e !! "error" = Some (VStr (exn_str e))) /\
  (forall columns threshold,
     let run := check_completeness execute_query utcnow_isoformat repr
                  database schema table columns threshold in
     (exists d, run = Return d) /\
     (forall e, given columns = [] ->
        execute_query (VStr (describe_query ftn)) = Raise e ->
        run = Return (error_result "COMPLETENESS" ftn e)) /\
     (forall e, given columns <> [] ->
        execute_query (VStr (count_query ftn)) = Raise e ->
        run = Return (error_result "COMPLETENESS" ftn e)) /\
     (forall column, column ∈ given columns ->
        (forall total_rows,
           raises (execute_query (VStr (null_query repr ftn total_rows column)))) ->
        exists e, run = Return (error_result "COMPLETENESS" ftn e))) /\
  (forall columns,
     let run := check_uniqueness execute_query utcnow_isoformat repr
                  database schema table columns in
     (exists d, run = Return d) /\
     (forall column, column ∈ columns ->
        raises (execute_query (VStr (dup_query repr ftn column))) ->
        exists e, run = Return (error_result "UNIQUENESS" ftn e)) /\
     (forall column rest e, columns = column :: rest ->
        execute_query (VStr (dup_query repr ftn column)) = Raise e ->
        run = Return (error_result "UNIQUENESS" ftn e))) /\
  (forall validation_rules,
     let run := check_validity execute_query utcnow_isoformat
                  database schema table validation_rules in
     (exists d, run = Return d) /\
     (forall column rule, (column, rule) ∈ validation_rules ->
        raises (execute_query (VStr (invalid_query ftn column rule))) ->
        exists e, run = Return (error_result "VALIDITY" ftn e))) /\
  (forall consistency_checks,
     let run := check_consistency execute_query utcnow_isoformat
                  database schema table consistency_checks in
     (exists d, run = Return d) /\
     (forall check, check ∈ consistency_checks ->
        truthy (get_none check "query") = true ->
        raises (execute_query (get_none check "query")) ->
        exists e, run = Return (error_result "CONSISTENCY" ftn e))) /\
  (forall timestamp_column max_age_hours,
     let run := check_timeliness execute_query utcnow_isoformat repr
                  database schema table timestamp_column max_age_hours in
     (exists d, run = Return d) /\
     (forall e,
        execute_query (VStr (freshness_query ftn timestamp_column)) = Raise e ->
        run = Return (error_result "TIMELINESS" ftn e))).
Proof.
  intros ftn. split; [|split; [|split; [|split; [|split]]]].
  - intros check_type e. unfold error_result. by simplify_map_eq.
  - intros columns threshold run. unfold run, check_completeness. fold ftn.
    split; [apply try_except_returns|]. split; [|split].
    + intros e Hnone He.
      assert (Hd : match columns with Some (c :: cs) => false | _ => true end = true).
      { destruct columns as [[|c cs]|]; simpl in Hnone; congruence. }
      destruct columns as [[|c cs]|]; try discriminate; rewrite He; reflexivity.
    + intros e Hsome He.
      destruct columns as [[|c cs]|]; simpl in Hsome; try congruence.
      rewrite bind_Return, He. reflexivity.
    + intros column Hin Hq.
      apply try_except_raises.
      destruct columns as [[|c cs]|]; simpl in Hin; try (by apply elem_of_nil in Hin).
      rewrite bind_Return.
      do 3 (apply raises_bind_r; intros ?).
      eapply for_each_raises; [exact Hin|].
      intros s. unfold completeness_column. apply raises_bind_l, Hq.
  - intros columns run. unfold run, check_uniqueness. fold ftn.
    split; [apply try_except_returns|]. split.
    + intros column Hin Hq. apply try_except_raises.
      eapply for_each_raises; [exact Hin|].
      intros s. unfold uniqueness_column. apply raises_bind_l, Hq.
    + intros column rest e -> He. cbn [for_each].
      assert (Hstep : forall s, uniqueness_column execute_query repr ftn s column = Raise e).
      { intros s. unfold uniqueness_column. rewrite He. reflexivity. }
      rewrite Hstep. reflexivity.
  - intros rules run. unfold run, check_validity. fold ftn.
    split; [apply try_except_returns|].
    intros column rule Hin Hq. apply try_except_raises.
    eapply for_each_raises; [exact Hin|].
    intros s. unfold validity_rule. apply raises_bind_l, Hq.
  - intros checks run. unfold run, check_consistency. fold ftn.
    split; [apply try_except_returns|].
    intros check Hin Htruthy Hq. apply try_except_raises.
    eapply for_each_raises; [exact Hin|].
    intros s. unfold consistency_step. rewrite Htruthy. simpl negb. cbv iota.
    apply raises_bind_l, Hq.
  - intros timestamp_column max_age_hours run. unfold run, check_timeliness. fold ftn.
    split; [apply try_except_returns|].
    intros e He. rewrite He. reflexivity.
Qed.

End Checks.

(** The sample warehouse knows table [DB.S.T] only: every query on
    [DB.S.X] raises. *)
Lemma checks_fail_soft_witness :
  let failure := DriverError "SQL compilation error" in
  check_completeness sample_warehouse "2024-01-01T00:00:00" sample_repr "DB" "S" "X"
    (Some [VStr "a"]) default_threshold
    = Return (error_result "COMPLETENESS" "DB.S.X" failure) /\
  check_completeness sample_warehouse "2024-01-01T00:00:00" sample_repr "DB" "S" "X"
    None default_threshold
    = Return (error_result "COMPLETENESS" "DB.S.X" failure) /\
  (exists e, check_completeness counting_warehouse "2024-01-01T00:00:00" sample_repr "DB" "S" "T"
     (Some [VStr "a"]) default_threshold
     = Return (error_result "COMPLETENESS" "DB.S.T" e)) /\
  check_uniqueness sample_warehouse "2024-01-01T00:00:00" sample_repr "DB" "S" "X"
    [VStr "id"] = Return (error_result "UNIQUENESS" "DB.S.X" failure) /\
  (exists e, check_uniqueness sample_warehouse "2024-01-01T00:00:00" sample_repr "DB" "S" "T"
     [VStr "a"; VStr "missing"] = Return (error_result "UNIQUENESS" "DB.S.T" e)) /\
  (exists e, check_validity sample_warehouse "2024-01-01T00:00:00" "DB" "S" "X"
     [("total_amount", "total_amount > 0")] = Return (error_result "VALIDITY" "DB.S.X" e)) /\
  (exists e, check_consistency sample_warehouse "2024-01-01T00:00:00" "DB" "S" "X"
     [ {[ "name" := VStr "orphans"; "query" := VStr "SELECT 1" ]} ]
     = Return (error_result "CONSISTENCY" "DB.S.X" e)) /\
  check_timeliness sample_warehouse "2024-01-01T00:00:00" sample_repr "DB" "S" "X"
    "created_at" default_max_age_hours
    = Return (error_result "TIMELINESS" "DB.S.X" failure).
Proof.
  intros failure.
  destruct (checks_fail_soft sample_warehouse "2024-01-01T00:00:00" sample_repr "DB" "S" "X")
    as (_ & Hcompleteness & Huniqueness & Hvalidity & Hconsistency & Htimeliness).
  destruct (checks_fail_soft sample_warehouse "2024-01-01T00:00:00" sample_repr "DB" "S" "T")
    as (_ & _ & Huniqueness' & _).
  destruct (checks_fail_soft counting_warehouse "2024-01-01T00:00:00" sample_repr "DB" "S" "T")
    as (_ & Hcompleteness' & _).
  split; [|split; [|split; [|split; [|split; [|split; [|split]]]]]].
  - destruct (Hcompleteness (Some [VStr "a"]) default_threshold) as (_ & _ & Hcount & _).
    apply Hcount; [discriminate|reflexivity].
  - destruct (Hcompleteness None default_threshold) as (_ & Hdescribe & _).
    apply Hdescribe; reflexivity.
  - destruct (Hcompleteness' (Some [VStr "a"]) default_threshold) as (_ & _ & _ & Hnull).
    apply (Hnull (VStr "a")).
    + simpl. repeat constructor.
    + intros total_rows. exists failure. reflexivity.
  - destruct (Huniqueness [VStr "id"]) as (_ & _ & Hfirst).
    eapply Hfirst; reflexivity.
  - destruct (Huniqueness' [VStr "a"; VStr "missing"]) as (_ & Hsome & _).
    apply (Hsome (VStr "missing")).
    + repeat constructor.
    + exists failure. reflexivity.
  - destruct (Hvalidity [("total_amount", "total_amount > 0")]) as (_ & Hsome).
    apply (Hsome "total_amount" "total_amount > 0").
    + repeat constructor.
    + exists failure. reflexivity.
  - destruct (Hconsistency [ {[ "name" := VStr "orphans"; "query" := VStr "SELECT 1" ]} ])
      as (_ & Hsome).
    eapply Hsome.
    + repeat constructor.
    + reflexivity.
    + exists failure. reflexivity.
  - destruct (Htimeliness "created_at" default_max_age_hours) as (_ & Hraise).
    apply Hraise. reflexivity.
Defined.
End QualityProofs.

(* ===================================================================== *)
(** * The metadata extractor *)
(* ===================================================================== *)

Module MetadataProofs.

Import Metadata QualitySpec.

Section Statistics.

Variable execute_query : pyval -> outcome (list dict).
Variable utcnow_isoformat : string.

(** C10. When the statistics query returns without raising but with no
    rows, [extract_table_statistics] returns [None]; it returns the empty
    mapping exactly when the query raises, and a six-field mapping when
    there is a row. *)
Theorem extract_table_statistics_no_rows database_name schema_name table_name :
  let query := VStr (statistics_query database_name schema_name table_name) in
  let run := extract_table_statistics execute_query utcnow_isoformat
               database_name schema_name table_name in
  (execute_query query = Return [] -> run = Return VNone) /\
  (run = Return VNone <-> execute_query query = Return []) /\
  (run = Return (VDict ∅) <-> exists e, execute_query query = Raise e) /\
  (forall stats rest, execute_query query = Return (stats :: rest) ->
     exists statistics : dict,
       run = Return (VDict statistics) /\
       statistics !! "table_name" = Some (VStr table_name) /\
       statistics !! "row_count" = Some (get_none stats "ROW_COUNT") /\
       statistics !! "distinct_rows" = Some (get_none stats "DISTINCT_ROWS")).
Proof.
  intros query run. unfold run, extract_table_statistics. fold query.
  destruct (execute_query query) as [[|stats rest]|e] eqn:Hq; simpl.
  - split; [done|]. split; [done|]. split; [|done].
    split; [discriminate|]. intros (e & He). discriminate.
  - split; [done|]. split; [split; discriminate|]. split.
    + split.
      * intros H.
        apply (f_equal (fun o => match o with
                                 | Return (VDict d) => d !! "database_name"
                                 | _ => None
                                 end)) in H.
        by simplify_map_eq.
      * intros (e & He). discriminate.
    + intros stats' rest' H. injection H as <- <-.
      eexists. split; [reflexivity|]. by simplify_map_eq.
  - split; [done|]. split; [split; discriminate|]. split; [|done].
    split; [by exists e|done].
Qed.

End Statistics.

Lemma extract_table_statistics_no_rows_witness :
  extract_table_statistics empty_warehouse "2024-01-01T00:00:00" "DB" "S" "T" = Return VNone.
Proof.
  apply (extract_table_statistics_no_rows empty_warehouse "2024-01-01T00:00:00" "DB" "S" "T").
  reflexivity.
Defined.

End MetadataProofs.

(* ===================================================================== *)
(** * The directed graph *)
(* ===================================================================== *)

Module NxProofs.

Import Nx NxSpec.

Section OrderedDict.
Context {V : Type}.
Implicit Types (d : odict V) (k : string) (v : V).

Lemma od_get_set d k v k' :
  od_get (od_set d k v) k' = if bool_decide (k = k') then Some v else od_get d k'.
Proof.
  induction d as [|[k0 v0] d IH]; simpl.
  - reflexivity.
  - destruct (bool_decide (k0 = k)) eqn:E0; simpl.
    + apply bool_decide_eq_true in E0. subst k0.
      destruct (bool_decide (k = k')); reflexivity.
    + apply bool_decide_eq_false in E0.
      destruct (bool_decide (k0 = k')) eqn:E1.
      * apply bool_decide_eq_true in E1. subst k0.
        by rewrite bool_decide_false by congruence.
      * exact IH.
Qed.

Lemma od_get_set_eq d k v : od_get (od_set d k v) k = Some v.
Proof. by rewrite od_get_set, bool_decide_true. Qed.

Lemma od_get_set_ne d k v k' : k <> k' -> od_get (od_set d k v) k' = od_get d k'.
Proof. intros H. by rewrite od_get_set, bool_decide_false. Qed.

Lemma od_mem_set d k v k' :
  od_mem (od_set d k v) k' = bool_decide (k = k') || od_mem d k'.
Proof. unfold od_mem. rewrite od_get_set. by destruct (bool_decide (k = k')). Qed.

Lemma od_mem_keys d k : od_mem d k = true <-> k ∈ od_keys d.
Proof.
  unfold od_mem, od_keys. induction d as [|[k0 v0] d IH]; simpl.
  - split; [discriminate|]. intros H. by apply elem_of_nil in H.
  - rewrite elem_of_cons. destruct (bool_decide (k0 = k)) eqn:E.
    + apply bool_decide_eq_true in E. split; [auto|done].
    + apply bool_decide_eq_false in E. rewrite IH. split; [auto|].
      intros [->|H]; [done|exact H].
Qed.

Lemma od_mem_false_keys d k : od_mem d k = false <-> k ∉ od_keys d.
Proof. rewrite <- od_mem_keys. by destruct (od_mem d k). Qed.

Lemma od_keys_set_mem d k v : od_mem d k = true -> od_keys (od_set d k v) = od_keys d.
Proof.
  unfold od_mem, od_keys. induction d as [|[k0 v0] d IH]; simpl; [discriminate|].
  destruct (bool_decide (k0 = k)) eqn:E; simpl; [done|].
  intros H. f_equal. by apply IH.
Qed.

Lemma od_keys_set_new d k v : od_mem d k = false -> od_keys (od_set d k v) = od_keys d ++ [k].
Proof.
  unfold od_mem, od_keys. induction d as [|[k0 v0] d IH]; simpl; [done|].
  destruct (bool_decide (k0 = k)) eqn:E; simpl; [discriminate|].
  intros H. f_equal. by apply IH.
Qed.

Lemma elem_of_od_keys_set d k v k' : k' ∈ od_keys (od_set d k v) <-> k' = k \/ k' ∈ od_keys d.
Proof.
  rewrite <- !od_mem_keys, od_mem_set, orb_true_iff, bool_decide_eq_true. intuition.
Qed.

Lemma NoDup_od_keys_set d k v : NoDup (od_keys d) -> NoDup (od_keys (od_set d k v)).
Proof.
  intros H. destruct (od_mem d k) eqn:E.
  - by rewrite od_keys_set_mem.
  - rewrite od_keys_set_new by done. apply (proj2 (list.NoDup_app _ _)).
    split; [done|]. split.
    + intros x Hx Hk. apply list_elem_of_singleton in Hk. subst x.
      by apply od_mem_false_keys in E.
    + apply NoDup_singleton.
Qed.

Lemma od_get_elem d k v : od_get d k = Some v -> (k, v) ∈ d.
Proof.
  induction d as [|[k0 v0] d IH]; simpl; [discriminate|].
  destruct (bool_decide (k0 = k)) eqn:E.
  - apply bool_decide_eq_true in E. intros [= ->]. subst. apply list_elem_of_here.
  - intros H. apply list_elem_of_further. by apply IH.
Qed.

Lemma elem_od_get d k v : NoDup (od_keys d) -> (k, v) ∈ d -> od_get d k = Some v.
Proof.
  unfold od_keys. induction d as [|[k0 v0] d IH]; simpl; intros Hnd Hin.
  - by apply elem_of_nil in Hin.
  - apply list.NoDup_cons in Hnd as [Hk0 Hnd].
    apply elem_of_cons in Hin as [[= -> ->]|Hin].
    + by rewrite bool_decide_true.
    + rewrite bool_decide_false; [by apply IH|].
      intros ->. apply Hk0. apply list_elem_of_fmap. by exists (k, v).
Qed.

End OrderedDict.

(** ** Adjacency facts that hold in every graph *)

Implicit Types (G : DiGraph) (u v x y n : string) (attr : dict).

Lemma inner_set (adj : odict (odict dict)) u nbrs x :
  inner (od_set adj u nbrs) x = if bool_decide (u = x) then nbrs else inner adj x.
Proof. unfold inner. rewrite od_get_set. by destruct (bool_decide (u = x)). Qed.

Lemma inner_missing (adj : odict (odict dict)) u : od_mem adj u = false -> inner adj u = [].
Proof. unfold od_mem, inner. by destruct (od_get adj u). Qed.

Lemma succ_ensure_node_mem G n x :
  od_mem (_succ (ensure_node G n)) x = bool_decide (n = x) || od_mem (_succ G) x.
Proof.
  unfold ensure_node. destruct (od_mem (_succ G) n) eqn:E; simpl.
  - destruct (bool_decide (n = x)) eqn:E'; [|done].
    apply bool_decide_eq_true in E'. by subst.
  - apply od_mem_set.
Qed.

Lemma succ_ensure_node_inner G n x :
  inner (_succ (ensure_node G n)) x = inner (_succ G) x.
Proof.
  unfold ensure_node. destruct (od_mem (_succ G) n) eqn:E; simpl; [done|].
  rewrite inner_set. destruct (bool_decide (n = x)) eqn:E'; [|done].
  apply bool_decide_eq_true in E'. subst. by rewrite inner_missing.
Qed.

Lemma succ_add_edge_mem G u v attr x :
  od_mem (_succ (add_edge G u v attr)) x
  = bool_decide (u = x) || bool_decide (v = x) || od_mem (_succ G) x.
Proof.
  unfold add_edge. simpl. rewrite od_mem_set, !succ_ensure_node_mem.
  destruct (bool_decide (u = x)), (bool_decide (v = x)); reflexivity.
Qed.

Lemma succ_add_edge_inner G u v attr x :
  inner (_succ (add_edge G u v attr)) x
  = if bool_decide (u = x)
    then od_set (inner (_succ G) u) v
           (attr ∪ match od_get (inner (_succ G) u) v with Some d => d | None => ∅ end)
    else inner (_succ G) x.
Proof.
  unfold add_edge. simpl. rewrite inner_set, !succ_ensure_node_inner. reflexivity.
Qed.

Lemma linked_add_edge G u v attr : linked (add_edge G u v attr) u v.
Proof.
  unfold linked. rewrite !succ_add_edge_mem, succ_add_edge_inner.
  rewrite (bool_decide_true (u = u)), (bool_decide_true (v = v)) by done.
  rewrite od_mem_set, (bool_decide_true (v = v)) by done.
  rewrite !orb_true_r. done.
Qed.

Lemma linked_add_edge_mono G u v attr x y :
  linked G x y -> linked (add_edge G u v attr) x y.
Proof.
  intros (Hx & Hy & Hxy). unfold linked.
  rewrite !succ_add_edge_mem, succ_add_edge_inner, Hx, Hy, !orb_true_r.
  split; [done|]. split; [done|].
  destruct (bool_decide (u = x)) eqn:E; [|done].
  apply bool_decide_eq_true in E. subst. rewrite od_mem_set, Hxy. apply orb_true_r.
Qed.

Lemma edges_set_same_keys (adj : odict (odict dict)) u nbrs nbrs' :
  od_get adj u = Some nbrs -> od_keys nbrs' = od_keys nbrs ->
  flat_map (fun '(a, ns) => map (fun b => (a, b)) (od_keys ns)) (od_set adj u nbrs')
  = flat_map (fun '(a, ns) => map (fun b => (a, b)) (od_keys ns)) adj.
Proof.
  intros Hget Hkeys. induction adj as [|[k0 ns0] adj IH]; simpl in *; [discriminate|].
  destruct (bool_decide (k0 = u)) eqn:E; simpl.
  - injection Hget as ->. by rewrite Hkeys.
  - f_equal. by apply IH.
Qed.

(** Adding an edge that is already stored leaves the edge collection as it
    is: no second occurrence is appended. *)
Lemma edges_add_linked G u v attr :
  linked G u v -> edges (add_edge G u v attr) = edges G.
Proof.
  intros (Hu & Hv & Huv). unfold edges, add_edge, ensure_node.
  rewrite Hu. rewrite Hv. simpl.
  destruct (od_get (_succ G) u) as [nbrs|] eqn:Hget.
  - apply edges_set_same_keys with (nbrs := nbrs); [done|].
    unfold inner in *. rewrite Hget in *. by apply od_keys_set_mem.
  - unfold od_mem in Hu. by rewrite Hget in Hu.
Qed.

(** ** The invariant of the graphs the tracker builds *)

Lemma wf_empty : wf empty.
Proof.
  split; simpl; try done.
  - apply NoDup_nil_2.
  - intros u. apply NoDup_nil_2.
  - intros u. apply NoDup_nil_2.
  - intros u v. split; intros H; by apply elem_of_nil in H.
Qed.

Lemma wf_ensure_node G n : wf G -> wf (ensure_node G n).
Proof.
  intros [Hnd Hind Hpnd Hnode Hpred Hsym].
  unfold ensure_node. destruct (od_mem (_succ G) n) eqn:E; [by split|].
  assert (Hp : od_mem (_pred G) n = false) by (by rewrite Hpred).
  split; simpl.
  - by apply NoDup_od_keys_set.
  - intros u. rewrite inner_set. destruct (bool_decide (n = u)); [apply NoDup_nil_2|apply Hind].
  - intros u. rewrite inner_set. destruct (bool_decide (n = u)); [apply NoDup_nil_2|apply Hpnd].
  - intros x. by rewrite !od_mem_set, Hnode.
  - intros x. by rewrite !od_mem_set, Hpred.
  - intros u v. rewrite !inner_set.
    destruct (bool_decide (n = v)) eqn:Ev, (bool_decide (n = u)) eqn:Eu;
      try apply bool_decide_eq_true in Ev; try apply bool_decide_eq_true in Eu; subst.
    + done.
    + rewrite <- Hsym, inner_missing by done. done.
    + rewrite Hsym, inner_missing by done. done.
    + apply Hsym.
Qed.

Lemma wf_add_edge G u v attr : wf G -> wf (add_edge G u v attr).
Proof.
  intros HG.
  assert (H2 : wf (ensure_node (ensure_node G u) v)) by (by do 2 apply wf_ensure_node).
  unfold add_edge. set (G2 := ensure_node (ensure_node G u) v) in *.
  assert (Hu : od_mem (_succ G2) u = true).
  { unfold G2. rewrite !succ_ensure_node_mem, (bool_decide_true (u = u)) by done.
    apply orb_true_r. }
  assert (Hv : od_mem (_succ G2) v = true).
  { unfold G2. rewrite succ_ensure_node_mem. by rewrite bool_decide_true. }
  destruct H2 as [Hnd Hind Hpnd Hnode Hpred Hsym].
  set (datadict := attr ∪ _).
  split; simpl.
  - by rewrite od_keys_set_mem.
  - intros x. rewrite inner_set. destruct (bool_decide (u = x)); [|apply Hind].
    apply NoDup_od_keys_set, Hind.
  - intros x. rewrite inner_set. destruct (bool_decide (v = x)); [|apply Hpnd].
    apply NoDup_od_keys_set, Hpnd.
  - intros x. rewrite od_mem_set, Hnode.
    destruct (bool_decide (u = x)) eqn:E; [|done].
    apply bool_decide_eq_true in E. by subst.
  - intros x. rewrite !od_mem_set, Hpred.
    destruct (bool_decide (u = x)) eqn:E, (bool_decide (v = x)) eqn:E';
      try apply bool_decide_eq_true in E; try apply bool_decide_eq_true in E'; subst;
      simpl; congruence.
  - intros x y. rewrite !inner_set.
    destruct (bool_decide (v = y)) eqn:Ey, (bool_decide (u = x)) eqn:Ex;
      try apply bool_decide_eq_true in Ey; try apply bool_decide_eq_true in Ex;
      try apply bool_decide_eq_false in Ey; try apply bool_decide_eq_false in Ex; subst.
    + rewrite !elem_of_od_keys_set. tauto.
    + rewrite elem_of_od_keys_set, Hsym. split; [intros [?|?]; [done|done]|tauto].
    + rewrite elem_of_od_keys_set, Hsym. split; [tauto|intros [?|?]; [done|done]].
    + apply Hsym.
Qed.

Lemma built_wf G : built G -> wf G.
Proof. induction 1; [apply wf_empty|by apply wf_add_edge]. Qed.

Lemma elem_of_edges G u v :
  NoDup (od_keys (_succ G)) ->
  (u, v) ∈ edges G <-> v ∈ od_keys (inner (_succ G) u).
Proof.
  intros Hnd. unfold edges. rewrite list_elem_of_In, in_flat_map. split.
  - intros ([a ns] & Hin & Hmap). apply in_map_iff in Hmap as (b & [= -> ->] & Hb).
    apply list_elem_of_In in Hin, Hb.
    unfold inner. by rewrite (elem_od_get _ _ _ Hnd Hin).
  - intros Hv. unfold inner in Hv.
    destruct (od_get (_succ G) u) as [ns|] eqn:Hget; [|by apply elem_of_nil in Hv].
    exists (u, ns). split.
    + apply list_elem_of_In. by apply od_get_elem.
    + apply in_map_iff. exists v. split; [done|]. by apply list_elem_of_In.
Qed.

Lemma NoDup_flat_edges (adj : odict (odict dict)) :
  NoDup (od_keys adj) ->
  (forall a ns, (a, ns) ∈ adj -> NoDup (od_keys ns)) ->
  NoDup (flat_map (fun '(a, ns) => map (fun b => (a, b)) (od_keys ns)) adj).
Proof.
  induction adj as [|[a ns] adj IH]; simpl; intros Hnd Hinner; [apply NoDup_nil_2|].
  apply list.NoDup_cons in Hnd as [Ha Hnd].
  apply (proj2 (list.NoDup_app _ _)). split; [|split].
  - assert (Hns : NoDup (od_keys ns)) by (apply (Hinner a ns), list_elem_of_here).
    induction Hns as [|b bs Hb Hbs IHbs]; simpl; [apply NoDup_nil_2|].
    apply list.NoDup_cons. split; [|exact IHbs].
    intros Hin. apply list_elem_of_In, in_map_iff in Hin as (b' & [= ->] & Hin).
    apply Hb. by apply list_elem_of_In.
  - intros [a' b'] Hin Hin'.
    apply list_elem_of_In, in_map_iff in Hin as (b & [= -> ->] & _).
    apply list_elem_of_In, in_flat_map in Hin' as ([a2 ns2] & Hin2 & Hmap).
    apply in_map_iff in Hmap as (b2 & [= -> ->] & _).
    apply Ha. apply list_elem_of_fmap. exists (a', ns2). split; [done|].
    by apply list_elem_of_In.
  - apply IH; [done|]. intros a' ns' Hin. apply (Hinner a' ns').
    by apply list_elem_of_further.
Qed.

(** The edge collection of a built graph holds no pair twice. *)
Lemma NoDup_edges G : wf G -> NoDup (edges G).
Proof.
  intros [Hnd Hind _ _ _ _]. apply NoDup_flat_edges; [done|].
  intros a ns Hin. specialize (Hind a). unfold inner in Hind.
  by rewrite (elem_od_get _ _ _ Hnd Hin) in Hind.
Qed.

Lemma edges_add_edge G u v attr x y :
  wf G -> (x, y) ∈ edges (add_edge G u v attr) <-> (x, y) = (u, v) \/ (x, y) ∈ edges G.
Proof.
  intros HG. rewrite !elem_of_edges by (apply wf_nodup; auto using wf_add_edge).
  rewrite succ_add_edge_inner.
  destruct (bool_decide (u = x)) eqn:E.
  - apply bool_decide_eq_true in E. subst. rewrite elem_of_od_keys_set.
    split; [intros [->|?]; auto|intros [[= ->]|?]; auto].
  - apply bool_decide_eq_false in E. split; [auto|intros [[= -> ->]|?]; done].
Qed.

End NxProofs.

(* ===================================================================== *)
(** * The lineage tracker: graph queries *)
(* ===================================================================== *)

Module LineageProofs.

Import Nx NxSpec Lineage LineageSpec PyFacts NxProofs.

Lemma upstream_present G table_name max_depth :
  wf G -> has_node G table_name = true ->
  get_upstream_lineage G table_name max_depth
  = Return (lineage_record "ancestors" "DIRECT_UPSTREAM" table_name
              (od_keys (inner (_pred G) table_name))).
Proof.
  intros HG Hin. unfold get_upstream_lineage. rewrite Hin. simpl negb. cbv iota.
  unfold has_node in Hin. rewrite (wf_node _ HG), <- (wf_pred _ HG) in Hin.
  unfold predecessors, inner. unfold od_mem in Hin.
  destruct (od_get (_pred G) table_name) as [nbrs|]; [|discriminate].
  rewrite bind_Return.
  rewrite (for_each_append (relative "DIRECT_UPSTREAM") "ancestors" _ _ []) by done.
  simpl. unfold lineage_record.
  rewrite insert_insert_ne by done. by rewrite insert_singleton_eq.
Qed.

Lemma downstream_present G table_name max_depth :
  wf G -> has_node G table_name = true ->
  get_downstream_lineage G table_name max_depth
  = Return (lineage_record "descendants" "DIRECT_DOWNSTREAM" table_name
              (od_keys (inner (_succ G) table_name))).
Proof.
  intros HG Hin. unfold get_downstream_lineage. rewrite Hin. simpl negb. cbv iota.
  unfold has_node in Hin. rewrite (wf_node _ HG) in Hin.
  unfold successors, inner. unfold od_mem in Hin.
  destruct (od_get (_succ G) table_name) as [nbrs|]; [|discriminate].
  rewrite bind_Return.
  rewrite (for_each_append (relative "DIRECT_DOWNSTREAM") "descendants" _ _ []) by done.
  simpl. unfold lineage_record.
  rewrite insert_insert_ne by done. by rewrite insert_singleton_eq.
Qed.

(** C6. For a table present in the lineage graph, the upstream and the
    downstream lineage do not depend on [max_depth]; they list the tables
    with an edge into (out of) the table, each once, and nothing else: a
    table reached only through several edges is not listed. *)
Theorem lineage_is_one_hop G table_name d1 d2 :
  built G -> has_node G table_name = true ->
  get_upstream_lineage G table_name d1 = get_upstream_lineage G table_name d2 /\
  get_downstream_lineage G table_name d1 = get_downstream_lineage G table_name d2 /\
  exists ancestors descendants,
    get_upstream_lineage G table_name d1
      = Return (lineage_record "ancestors" "DIRECT_UPSTREAM" table_name ancestors) /\
    get_downstream_lineage G table_name d1
      = Return (lineage_record "descendants" "DIRECT_DOWNSTREAM" table_name descendants) /\
    NoDup ancestors /\ NoDup descendants /\
    (forall u, u ∈ ancestors <-> (u, table_name) ∈ edges G) /\
    (forall v, v ∈ descendants <-> (table_name, v) ∈ edges G).
Proof.
  intros HG Hin. apply built_wf in HG.
  split; [reflexivity|]. split; [reflexivity|].
  exists (od_keys (inner (_pred G) table_name)), (od_keys (inner (_succ G) table_name)).
  split; [by apply upstream_present|]. split; [by apply downstream_present|].
  assert (Hsucc : forall u v, v ∈ od_keys (inner (_succ G) u) <-> (u, v) ∈ edges G).
  { intros u v. symmetry. apply elem_of_edges, wf_nodup, HG. }
  split; [|split; [|split]].
  - apply wf_pred_nodup, HG.
  - apply wf_inner_nodup, HG.
  - intros u. rewrite (wf_sym _ HG). apply Hsucc.
  - intros v. apply Hsucc.
Qed.

Lemma lineage_is_one_hop_witness :
  get_upstream_lineage chain "MART.S.C" (VInt 1)
    = get_upstream_lineage chain "MART.S.C" (VInt 5) /\
  exists ancestors,
    get_upstream_lineage chain "MART.S.C" (VInt 5)
      = Return (lineage_record "ancestors" "DIRECT_UPSTREAM" "MART.S.C" ancestors) /\
    "STG.S.B" ∈ ancestors /\ "RAW.S.A" ∉ ancestors.
Proof.
  destruct (lineage_is_one_hop chain "MART.S.C" (VInt 1) (VInt 5))
    as (Hup & _ & ancestors & descendants & Hrun & _ & _ & _ & Hanc & _).
  - unfold chain. repeat constructor.
  - reflexivity.
  - split; [exact Hup|]. exists ancestors. split; [by rewrite <- Hup|].
    rewrite !Hanc. change (edges chain) with [("RAW.S.A", "STG.S.B"); ("STG.S.B", "MART.S.C")].
    split.
    + apply list_elem_of_further, list_elem_of_here.
    + intros H. apply elem_of_cons in H as [H|H]; [discriminate|].
      apply elem_of_cons in H as [H|H]; [discriminate|]. by apply elem_of_nil in H.
Defined.

(** C7. For a table that is not in the lineage graph both lookups return,
    without raising, the empty mapping: it names no ancestor and no
    descendant, and a caller reading [ancestors] or [descendants] from it
    with an empty default sees an empty list. *)
Theorem lineage_of_unknown_table G table_name max_depth :
  has_node G table_name = false ->
  get_upstream_lineage G table_name max_depth = Return ∅ /\
  get_downstream_lineage G table_name max_depth = Return ∅ /\
  (∅ : dict) !! "ancestors" = None /\
  (∅ : dict) !! "descendants" = None /\
  get ∅ "ancestors" (VList []) = VList [] /\
  get ∅ "descendants" (VList []) = VList [].
Proof.
  intros Hin. unfold get_upstream_lineage, get_downstream_lineage. rewrite Hin.
  repeat split; reflexivity.
Qed.

Lemma lineage_of_unknown_table_witness :
  get_upstream_lineage chain "unknown.table" default_max_depth = Return ∅ /\
  get_downstream_lineage chain "unknown.table" default_max_depth = Return ∅.
Proof.
  destruct (lineage_of_unknown_table chain "unknown.table" default_max_depth)
    as (Hup & Hdown & _).
  - reflexivity.
  - split; [exact Hup|exact Hdown].
Defined.

Section Dependencies.

Variable execute_query : pyval -> outcome (list dict).
Variable utcnow_isoformat : string.
Variable repr : pyval -> string.

Local Abbreviation row_edge := (dependency_row utcnow_isoformat repr).

Lemma dependency_rows_linked rows : forall dependencies G,
  let G' := (foldl row_edge (dependencies, G) rows).2 in
  (forall x y, linked G x y -> linked G' x y) /\
  (forall dep, dep ∈ rows ->
     linked G' (dependency_source repr dep) (dependency_target repr dep)).
Proof.
  induction rows as [|dep rows IH]; intros dependencies G; simpl.
  - split; [auto|]. intros dep H. by apply elem_of_nil in H.
  - match goal with |- context [foldl _ (?ds, ?g) rows] =>
      destruct (IH ds g) as [Hmono Hall] end.
    split.
    + intros x y Hxy. by apply Hmono, linked_add_edge_mono.
    + intros dep' Hin. apply elem_of_cons in Hin as [->|Hin].
      * apply Hmono, linked_add_edge.
      * by apply Hall.
Qed.

Lemma dependency_rows_edges rows : forall dependencies G,
  (forall dep, dep ∈ rows ->
     linked G (dependency_source repr dep) (dependency_target repr dep)) ->
  edges (foldl row_edge (dependencies, G) rows).2 = edges G.
Proof.
  induction rows as [|dep rows IH]; intros dependencies G Hall; simpl; [done|].
  match goal with |- context [foldl _ (?ds, ?g) rows] => rewrite (IH ds g) end.
  - apply edges_add_linked, Hall, list_elem_of_here.
  - intros dep' Hin. apply linked_add_edge_mono, Hall. by apply list_elem_of_further.
Qed.

(** C5, as the code has it.  The lineage graph is a simple directed graph:
    adding an edge [(u, v)] a second time, with whatever attributes (DIRECT
    or QUERY_BASED), leaves the edge collection as it was after the first
    time and merges the new attributes into the edge's attribute dict; a
    second extraction of the same dependency rows leaves the edge collection
    unchanged; and the edge collection of a graph the tracker has built
    never holds a pair twice. *)
Theorem repeated_edge_is_merged :
  (forall G u v attr attr',
     edges (add_edge (add_edge G u v attr) u v attr') = edges (add_edge G u v attr) /\
     exists stored,
       edge_data (add_edge G u v attr) u v = Some stored /\
       edge_data (add_edge (add_edge G u v attr) u v attr') u v = Some (attr' ∪ stored)) /\
  (forall G database_name schema_name,
     let first_run := extract_table_dependencies execute_query utcnow_isoformat repr
                        G database_name schema_name in
     let second_run := extract_table_dependencies execute_query utcnow_isoformat repr
                         first_run.2 database_name schema_name in
     second_run.1 = first_run.1 /\ edges second_run.2 = edges first_run.2) /\
  (forall G, built G -> NoDup (edges G)).
Proof.
  split; [|split].
  - intros G u v attr attr'. split.
    + apply edges_add_linked, linked_add_edge.
    + unfold edge_data. rewrite !succ_add_edge_inner.
      rewrite !(bool_decide_true (u = u)) by done.
      rewrite !od_get_set_eq. eexists. split; reflexivity.
  - intros G database_name schema_name first_run second_run.
    unfold second_run, first_run, extract_table_dependencies.
    destruct (execute_query _) as [rows|e] eqn:Hq; [|done].
    destruct (foldl row_edge ([], G) rows) as [deps1 G1] eqn:H1. simpl.
    destruct (foldl row_edge ([], G1) rows) as [deps2 G2] eqn:H2. simpl.
    split.
    + f_equal.
      assert (Hfst : forall rows' ds g g',
                (foldl row_edge (ds, g) rows').1
                = ds ++ (foldl row_edge ([], g') rows').1).
      { induction rows' as [|dep rows' IH]; intros ds g g'; simpl.
        - by rewrite app_nil_r.
        - rewrite (IH (ds ++ _) _ g'), (IH [_] _ g'), <- app_assoc.
          reflexivity. }
      change deps2 with (deps2, G2).1. rewrite <- H2.
      change deps1 with (deps1, G1).1. rewrite <- H1.
      rewrite (Hfst rows [] G1 G). reflexivity.
    + change G2 with (deps2, G2).2. rewrite <- H2.
      apply dependency_rows_edges.
      change G1 with (deps1, G1).2. rewrite <- H1.
      apply dependency_rows_linked.
  - intros G HG. by apply NoDup_edges, built_wf.
Qed.

End Dependencies.

(** C5 as stated fails: after the same dependency row is extracted in two
    runs, the edge collection holds the edge once, not twice. *)
Lemma duplicate_edge_not_appended :
  edges after_one_run = [("RAW.PUBLIC.ORDERS", "MART.PUBLIC.ORDERS_V")] /\
  edges after_two_runs = [("RAW.PUBLIC.ORDERS", "MART.PUBLIC.ORDERS_V")] /\
  edges after_two_runs
    <> [("RAW.PUBLIC.ORDERS", "MART.PUBLIC.ORDERS_V"); ("RAW.PUBLIC.ORDERS", "MART.PUBLIC.ORDERS_V")] /\
  length (edges after_two_runs) <> 2%nat.
Proof. vm_compute. repeat split; (reflexivity || discriminate). Qed.

Lemma repeated_edge_is_merged_witness :
  NoDup (edges after_two_runs) /\
  edges after_two_runs = edges after_one_run.
Proof.
  destruct (repeated_edge_is_merged catalog_warehouse "2024-01-01T00:00:00" no_repr)
    as (_ & _ & Hnodup).
  split.
  - apply Hnodup.
    change after_two_runs
      with (add_edge (add_edge empty "RAW.PUBLIC.ORDERS" "MART.PUBLIC.ORDERS_V" direct)
                     "RAW.PUBLIC.ORDERS" "MART.PUBLIC.ORDERS_V" direct).
    repeat constructor.
  - reflexivity.
Defined.

End LineageProofs.

(* ===================================================================== *)
(** * The lineage tracker: query-text heuristics *)
(* ===================================================================== *)

Module QueryTextProofs.

Import PyStr Lineage LineageSpec.

Open Scope string_scope.

(** ** Facts about [str.split(sep)] *)

Lemma string_app_assoc (a b c : string) : (a ++ b) ++ c = a ++ (b ++ c).
Proof.
  induction a as [|x a IH]; [reflexivity|].
  change (String x ((a ++ b) ++ c) = String x (a ++ (b ++ c))). by rewrite IH.
Qed.

Lemma string_length_app (a b : string) :
  String.length (a ++ b) = (String.length a + String.length b)%nat.
Proof.
  induction a as [|x a IH]; [reflexivity|].
  change (S (String.length (a ++ b)) = S (String.length a + String.length b)).
  by rewrite IH.
Qed.

Lemma startswith_app p s : startswith p s = true -> exists rest, s = p ++ rest.
Proof.
  revert s. induction p as [|a p IH]; intros s; simpl.
  - intros _. by exists s.
  - destruct s as [|b s]; [discriminate|].
    intros H. apply andb_true_iff in H as [Hab Hp].
    apply bool_decide_eq_true in Hab. subst b.
    destruct (IH _ Hp) as (rest & ->). by exists rest.
Qed.

Lemma split_from_skip sep : forall s skip rest,
  String.length s = skip -> split_from sep skip (s ++ rest) = split_from sep 0 rest.
Proof.
  induction s as [|c s IH]; intros skip rest Hlen; simpl in *; subst skip.
  - reflexivity.
  - by apply IH.
Qed.

(** The two equations of [split]. *)
Lemma split_match a sep rest :
  split (String a sep) (String a sep ++ rest) = "" :: split (String a sep) rest.
Proof.
  unfold split. simpl split_from.
  assert (Hst : startswith (String a sep) (String a (sep ++ rest)) = true).
  { simpl. rewrite bool_decide_true by done. simpl.
    clear. induction sep as [|b sep IH]; simpl; [done|].
    by rewrite bool_decide_true, IH. }
  change (String a (sep ++ rest)) with (String a sep ++ rest) in *.
  simpl in Hst. simpl. rewrite Hst. f_equal.
  rewrite Nat.sub_0_r. by apply split_from_skip.
Qed.

Lemma split_no_match sep c s :
  startswith sep (String c s) = false ->
  exists piece pieces,
    split sep s = piece :: pieces /\ split sep (String c s) = String c piece :: pieces.
Proof.
  intros Hst. unfold split. cbn [split_from]. rewrite Hst.
  destruct (split_from sep 0 s) as [|piece pieces] eqn:E; [|by eauto].
  exfalso. clear -E. revert E. generalize 0%nat.
  induction s as [|d s IH]; intros skip; simpl; [discriminate|].
  destruct skip; [|apply IH].
  destruct (startswith sep (String d s)); [discriminate|].
  destruct (split_from sep 0 s); discriminate.
Qed.

Lemma split_head sep s :
  exists piece pieces post, split sep s = piece :: pieces /\ s = piece ++ post.
Proof.
  induction s as [|c s IH].
  - exists "", [], "". split; reflexivity.
  - destruct (startswith sep (String c s)) eqn:Hst.
    + destruct sep as [|a sep].
      * exists "", (split_from "" 0 s), (String c s).
        split; reflexivity.
      * destruct (startswith_app _ _ Hst) as (rest & Hrest). rewrite Hrest.
        rewrite split_match. by exists "", (split (String a sep) rest), (String a sep ++ rest).
    + destruct (split_no_match _ _ _ Hst) as (piece & pieces & Hs & Hcs).
      destruct IH as (piece' & pieces' & post & Hs' & Hpost).
      rewrite Hs in Hs'. injection Hs' as Hp Hps. subst piece' pieces'.
      exists (String c piece), pieces, post. split; [done|].
      rewrite Hpost at 1. reflexivity.
Qed.

(** Every piece after the first directly follows an occurrence of [sep]. *)
Lemma split_follows a sep : forall n s, String.length s <= n ->
  forall part, part ∈ drop 1 (split (String a sep) s) ->
  exists pre post, s = pre ++ String a sep ++ part ++ post.
Proof.
  induction n as [|n IH]; intros s Hlen part Hin.
  - destruct s; [|simpl in Hlen; lia]. by apply elem_of_nil in Hin.
  - destruct s as [|c s]; [by apply elem_of_nil in Hin|].
    destruct (startswith (String a sep) (String c s)) eqn:Hst.
    + destruct (startswith_app _ _ Hst) as (rest & Hrest). rewrite Hrest in *.
      rewrite split_match in Hin. simpl drop in Hin.
      assert (Hshort : String.length rest <= n).
      { rewrite string_length_app in Hlen. simpl in Hlen. lia. }
      destruct (split_head (String a sep) rest) as (piece & pieces & post & Hs & Hpost).
      rewrite Hs in Hin. apply elem_of_cons in Hin as [->|Hin].
      * exists "", post. rewrite Hpost at 1. reflexivity.
      * destruct (IH rest Hshort part) as (pre & post' & Hdec).
        { by rewrite Hs. }
        exists (String a sep ++ pre), post'. rewrite Hdec at 1.
        by rewrite string_app_assoc.
    + destruct (split_no_match _ _ _ Hst) as (piece & pieces & Hs & Hcs).
      rewrite Hcs in Hin. simpl drop in Hin.
      destruct (IH s ltac:(simpl in Hlen; lia) part) as (pre & post & Hdec).
      { by rewrite Hs. }
      exists (String c pre), post. rewrite Hdec at 1. reflexivity.
Qed.

Lemma split_contains sep s part :
  part ∈ drop 1 (split sep s) -> contains sep s = true.
Proof.
  induction s as [|c s IH]; intros Hin.
  - by apply elem_of_nil in Hin.
  - cbn [contains]. destruct (startswith sep (String c s)) eqn:Hst; [done|].
    destruct (split_no_match _ _ _ Hst) as (piece & pieces & Hs & Hcs).
    rewrite Hcs in Hin. simpl. apply IH. by rewrite Hs.
Qed.

(** ** _extract_source_tables *)

Lemma source_part_elem sources part t :
  t ∈ source_part sources part <-> t ∈ sources \/ candidate part t.
Proof.
  unfold source_part, candidate.
  destruct (split_ws (strip part)) as [|token rest].
  - split; [auto|]. intros [H|(? & ? & H & _)]; [done|discriminate].
  - destruct (contains "." (strip_chars "(),;" token)) eqn:E.
    + rewrite elem_of_union, elem_of_singleton. split.
      * intros [->|H]; [right; by eauto|by left].
      * intros [H|(tok & rest' & [= <- <-] & -> & _)]; [by right|by left].
    + split; [auto|]. intros [H|(tok & rest' & [= <- <-] & -> & H)]; [done|congruence].
Qed.

Lemma foldl_source_part parts : forall sources t,
  t ∈ foldl source_part sources parts
  <-> t ∈ sources \/ exists part, part ∈ parts /\ candidate part t.
Proof.
  induction parts as [|part parts IH]; intros sources t; simpl.
  - split; [auto|]. intros [H|(? & H & _)]; [done|by apply elem_of_nil in H].
  - rewrite IH, source_part_elem. split.
    + intros [[H|H]|(p & Hin & Hc)]; [by left|right|right].
      * exists part. split; [apply list_elem_of_here|done].
      * exists p. split; [by apply list_elem_of_further|done].
    + intros [H|(p & Hin & Hc)]; [by left; left|].
      apply elem_of_cons in Hin as [->|Hin]; [by left; right|right; by eauto].
Qed.

Lemma source_keyword_elem query_text sources keyword t :
  t ∈ source_keyword query_text sources keyword
  <-> t ∈ sources \/ exists part, part ∈ drop 1 (split keyword query_text) /\ candidate part t.
Proof.
  unfold source_keyword. destruct (contains keyword query_text) eqn:E.
  - apply foldl_source_part.
  - split; [auto|]. intros [H|(part & Hin & _)]; [done|].
    apply split_contains in Hin. congruence.
Qed.

Lemma foldl_source_keyword query_text kws : forall sources t,
  t ∈ foldl (source_keyword query_text) sources kws
  <-> t ∈ sources \/
      exists keyword part,
        keyword ∈ kws /\ part ∈ drop 1 (split keyword query_text) /\ candidate part t.
Proof.
  induction kws as [|kw kws IH]; intros sources t; simpl.
  - split; [auto|]. intros [H|(? & ? & H & _)]; [done|by apply elem_of_nil in H].
  - rewrite IH, source_keyword_elem. split.
    + intros [[H|(p & Hin & Hc)]|(k & p & Hk & Hin & Hc)]; [by left|right|right].
      * exists kw, p. split; [apply list_elem_of_here|done].
      * exists k, p. split; [by apply list_elem_of_further|done].
    + intros [H|(k & p & Hk & Hin & Hc)]; [by left; left|].
      apply elem_of_cons in Hk as [->|Hk]; [left; right; by eauto|right; by eauto 6].
Qed.

(** Every keyword ends with FROM or JOIN. *)
Lemma keyword_ends keyword :
  keyword ∈ keywords ->
  exists lead base, base ∈ ["FROM"; "JOIN"] /\ keyword = lead ++ base.
Proof.
  unfold keywords. intros H.
  repeat (apply elem_of_cons in H as [->|H]);
    [exists "", "FROM" | exists "", "JOIN" | exists "INNER ", "JOIN"
    | exists "LEFT ", "JOIN" | exists "RIGHT ", "JOIN" | exists "FULL ", "JOIN" | ];
    try (split; [repeat constructor|reflexivity]).
  by apply elem_of_nil in H.
Qed.

(** C9, as the code has it.  A text [t] is an extracted source exactly when,
    for one of the six keyword strings, [t] is the first whitespace-delimited
    token, stripped of ['(' ')' ',' ';'], of a piece that follows an
    occurrence of that string when the query text is split at it, and [t]
    contains a dot.  Every extracted source contains a dot and stands right
    after an occurrence of FROM or JOIN. *)
Theorem source_tables_characterised query_text t :
  (t ∈ _extract_source_tables query_text <->
   exists keyword part token rest,
     keyword ∈ keywords /\ part ∈ drop 1 (split keyword query_text) /\
     split_ws (strip part) = token :: rest /\
     t = strip_chars "(),;" token /\ contains "." t = true) /\
  (t ∈ _extract_source_tables query_text ->
   contains "." t = true /\
   exists keyword pre part post token rest,
     keyword ∈ ["FROM"; "JOIN"] /\
     query_text = pre ++ keyword ++ part ++ post /\
     split_ws (strip part) = token :: rest /\
     t = strip_chars "(),;" token).
Proof.
  assert (Hiff : t ∈ _extract_source_tables query_text <->
            exists keyword part,
              keyword ∈ keywords /\ part ∈ drop 1 (split keyword query_text) /\
              candidate part t).
  { unfold _extract_source_tables. rewrite foldl_source_keyword.
    split; [intros [H|H]; [by apply not_elem_of_empty in H|done]|by right]. }
  split.
  - rewrite Hiff. unfold candidate. split.
    + intros (k & p & Hk & Hp & tok & rest & H1 & H2 & H3). by exists k, p, tok, rest.
    + intros (k & p & tok & rest & Hk & Hp & H1 & H2 & H3). exists k, p. eauto 7.
  - intros Hin. apply Hiff in Hin as (k & p & Hk & Hp & tok & rest & H1 & H2 & H3).
    split; [done|].
    destruct (keyword_ends k Hk) as (lead & base & Hbase & ->).
    assert (Hocc : exists pre post, query_text = pre ++ (lead ++ base) ++ p ++ post).
    { destruct (lead ++ base) as [|a sep] eqn:E.
      - exfalso. repeat (apply elem_of_cons in Hbase as [->|Hbase]);
          [destruct lead; discriminate|destruct lead; discriminate|].
        by apply elem_of_nil in Hbase.
      - by apply (split_follows a sep (String.length query_text)). }
    destruct Hocc as (pre & post & Hocc).
    exists base, (pre ++ lead), p, post, tok, rest.
    split; [done|]. split; [|done].
    rewrite Hocc at 1. by rewrite !string_app_assoc.
Qed.

Lemma source_tables_characterised_witness :
  "A.B" ∈ _extract_source_tables "SELECT * FROM A.B JOIN C.D ON X" /\
  contains "." "A.B" = true /\
  exists keyword pre part post token rest,
    keyword ∈ ["FROM"; "JOIN"] /\
    "SELECT * FROM A.B JOIN C.D ON X" = pre ++ keyword ++ part ++ post /\
    split_ws (strip part) = token :: rest /\
    "A.B" = strip_chars "(),;" token.
Proof.
  assert (Hin : "A.B" ∈ _extract_source_tables "SELECT * FROM A.B JOIN C.D ON X").
  { vm_compute. reflexivity. }
  split; [exact Hin|].
  apply (source_tables_characterised "SELECT * FROM A.B JOIN C.D ON X" "A.B").
  exact Hin.
Defined.

(** C9 as stated fails: for a source table whose name contains FROM, the
    token after the FROM keyword is the full name, but the extraction
    returns the name cut before its FROM, which is no token of the text. *)
Lemma source_token_is_cut :
  let query_text := "INSERT INTO MART.S.T SELECT * FROM RAW.S.FROM_STAGE" in
  stated_source_tables query_text = {[ "RAW.S.FROM_STAGE" ]} /\
  _extract_source_tables query_text = {[ "RAW.S." ]} /\
  _extract_source_tables query_text <> stated_source_tables query_text /\
  "RAW.S." ∉ strip_chars "(),;" <$> split_ws query_text.
Proof.
  vm_compute. repeat split; try reflexivity; try discriminate.
  intros H. repeat (apply elem_of_cons in H as [H|H]; [discriminate|]).
  by apply elem_of_nil in H.
Qed.

(** ** _extract_target_tables *)

(** C4 as stated fails: the targets of the query are not {t}. *)
Lemma create_if_not_exists_target_missing :
  _extract_target_tables "CREATE TABLE IF NOT EXISTS t AS SELECT * FROM s" <> {[ "t" ]}.
Proof. vm_compute. discriminate. Qed.

(** C4, as the code has it.  For the query text the target extraction yields
    the empty set: the piece after CREATE TABLE starts with IF, which is
    excluded, and no other token of the piece is looked at, so neither [IF]
    nor [t] is a target; the same holds for the upper-cased text that
    [extract_query_history_lineage] passes.  Without IF NOT EXISTS the
    target is found. *)
Theorem create_if_not_exists_has_no_target :
  _extract_target_tables "CREATE TABLE IF NOT EXISTS t AS SELECT * FROM s" = ∅ /\
  ("t" ∉ _extract_target_tables "CREATE TABLE IF NOT EXISTS t AS SELECT * FROM s") /\
  ("IF" ∉ _extract_target_tables "CREATE TABLE IF NOT EXISTS t AS SELECT * FROM s") /\
  _extract_target_tables "CREATE TABLE IF NOT EXISTS T AS SELECT * FROM S" = ∅ /\
  _extract_target_tables "CREATE TABLE t AS SELECT * FROM s" = {[ "t" ]} /\
  (forall targets part token rest,
     split_ws (strip part) = token :: rest -> token ∈ ["IF"; "OR"] ->
     target_part_create targets part = targets).
Proof.
  assert (H : _extract_target_tables "CREATE TABLE IF NOT EXISTS t AS SELECT * FROM s" = ∅).
  { vm_compute. reflexivity. }
  rewrite !H. split; [reflexivity|]. split; [apply not_elem_of_empty|].
  split; [apply not_elem_of_empty|]. split; [vm_compute; reflexivity|].
  split; [vm_compute; reflexivity|].
  intros targets part token rest Hs Hin. unfold target_part_create. rewrite Hs.
  rewrite bool_decide_false; [reflexivity|]. intros Hn. by apply Hn.
Qed.

Lemma create_if_not_exists_has_no_target_witness :
  target_part_create ∅ " IF NOT EXISTS t AS SELECT * FROM s" = ∅.
Proof.
  destruct create_if_not_exists_has_no_target as (_ & _ & _ & _ & _ & Hskip).
  apply (Hskip ∅ " IF NOT EXISTS t AS SELECT * FROM s" "IF"
               ["NOT"; "EXISTS"; "t"; "AS"; "SELECT"; "*"; "FROM"; "s"]).
  - vm_compute. reflexivity.
  - apply list_elem_of_here.
Defined.

End QueryTextProofs.

(* ===================================================================== *)
(** * The remaining checks of the validator *)
(* ===================================================================== *)

Module ChecksProofs.

Import Quality QualitySpec ChecksSpec PyFacts.

(** A loop that appends entries under [key] and may lower the overall
    status, as each check method does. *)
Lemma accumulate_loop {A B} (key : string) (step : dict -> A -> outcome dict)
    (rel : A -> B -> Prop) (added : A -> B -> list pyval) (failed : A -> B -> bool) :
  key <> "overall_status" ->
  (forall (results : dict) entries x y,
     rel x y -> results !! key = Some (VList entries) ->
     step results x
     = Return (<[key := VList (entries ++ added x y)]>
                 (if failed x y then <["overall_status" := VStr "FAILED"]> results
                  else results))) ->
  forall xs ys (results : dict) entries status,
    Forall2 rel xs ys ->
    results !! key = Some (VList entries) ->
    results !! "overall_status" = Some (VStr status) ->
    exists results',
      for_each step xs results = Return results' /\
      results' !! key = Some (VList (entries ++ concat (zip_with added xs ys))) /\
      results' !! "overall_status"
        = Some (VStr (if existsb (fun p => failed p.1 p.2) (zip xs ys)
                      then "FAILED" else status)) /\
      (forall k, k <> key -> k <> "overall_status" -> results' !! k = results !! k).
Proof.
  intros Hkey Hstep xs ys results entries status Hall.
  revert results entries status.
  induction Hall as [|x y xs ys Hxy Hall IH]; intros results entries status Hk Hs.
  - exists results. simpl. rewrite app_nil_r. auto.
  - cbn [for_each]. rewrite (Hstep results entries x y Hxy Hk), bind_Return.
    set (results1 := <[key := _]> _).
    assert (Hk1 : results1 !! key = Some (VList (entries ++ added x y))).
    { unfold results1. apply lookup_insert_eq. }
    assert (Hs1 : results1 !! "overall_status"
              = Some (VStr (if failed x y then "FAILED" else status))).
    { unfold results1. rewrite lookup_insert_ne by done.
      destruct (failed x y); [apply lookup_insert_eq|exact Hs]. }
    destruct (IH _ _ _ Hk1 Hs1) as (results' & Hrun & Hk' & Hs' & Hrest).
    exists results'. split; [exact Hrun|]. split; [|split].
    + rewrite Hk'. cbn [zip_with concat]. by rewrite app_assoc.
    + rewrite Hs'. cbn [zip zip_with existsb fst snd].
      destruct (failed x y), (existsb _ _); reflexivity.
    + intros k Hne Hne'. rewrite (Hrest k Hne Hne'). unfold results1.
      rewrite lookup_insert_ne by done.
      destruct (failed x y); [by rewrite lookup_insert_ne|done].
Qed.

(** ** check_validity *)

Section Validity.

Variable execute_query : pyval -> outcome (list dict).
Variable utcnow_isoformat : string.

Lemma validity_status_failed answer :
  validity_status answer = "FAILED" <-> answer.2 <> Some 0%Z.
Proof.
  unfold validity_status. destruct (bool_decide (answer.2 = Some 0%Z)) eqn:E.
  - apply bool_decide_eq_true in E. split; [discriminate|done].
  - apply bool_decide_eq_false in E. split; done.
Qed.

Lemma validity_rule_step ftn item answer (results : dict) entries :
  answers_invalid execute_query ftn item answer /\ sql_sum answer ->
  results !! "rules" = Some (VList entries) ->
  validity_rule execute_query ftn results item
  = Return (<["rules" := VList (entries ++ [validity_report item answer])]>
              (if bool_decide (validity_status answer = "FAILED")
               then <["overall_status" := VStr "FAILED"]> results else results)).
Proof.
  intros [(row & rest & Hq & Ht & Hi) Hsql] Hrules.
  destruct item as [column rule], answer as [total invalid]. simpl in *.
  unfold validity_rule. rewrite Hq, !bind_Return. unfold first. rewrite !bind_Return.
  rewrite (getitem_Some _ _ _ Ht), !bind_Return.
  rewrite (getitem_Some _ _ _ Hi), !bind_Return.
  rewrite gt_zero_int, !bind_Return.
  assert (Hratio :
    ((if bool_decide (0 < total)%Z
      then valid ← sub (VInt total) (sum_value invalid); truediv valid (VInt total)
      else Return (VInt 0)) ≫= (fun r => round r 4))
    = Return (validity_ratio (total, invalid))).
  { unfold validity_ratio, sql_sum in *. simpl in *. destruct invalid as [k|]; simpl.
    - destruct (bool_decide (0 < total)%Z) eqn:E; [|reflexivity].
      apply bool_decide_eq_true in E. rewrite ?bind_Return.
      rewrite truediv_int by lia. reflexivity.
    - rewrite Hsql by done. reflexivity. }
  assert (Hst : passed_or_failed (eq_int (sum_value invalid) 0)
                = validity_status (total, invalid)).
  { unfold validity_status. simpl. destruct invalid as [k|]; simpl; [|done].
    destruct (bool_decide (k = 0)%Z) eqn:E.
    - apply bool_decide_eq_true in E. subst. reflexivity.
    - apply bool_decide_eq_false in E. rewrite bool_decide_false by congruence. done. }
  rewrite Hst.
  destruct (if bool_decide (0 < total)%Z
            then valid ← sub (VInt total) (sum_value invalid); truediv valid (VInt total)
            else Return (VInt 0)) as [ratio|e] eqn:Er; [|discriminate].
  rewrite !bind_Return. rewrite bind_Return in Hratio. rewrite Hratio, !bind_Return.
  unfold append_item.
  assert (Hrules' : (if bool_decide (validity_status (total, invalid) = "FAILED")
                     then <["overall_status" := VStr "FAILED"]> results else results)
                    !! "rules" = Some (VList entries)).
  { destruct (bool_decide (validity_status (total, invalid) = "FAILED")); cbv iota; [rewrite lookup_insert_ne by done|]; exact Hrules. }
  rewrite (getitem_Some _ _ _ Hrules'), !bind_Return.
  reflexivity.
Qed.

(** X1. Over a table where the validity query of each [(column, rule)]
    finds [total] rows with a non-null column and sums [invalid] invalid
    ones (NULL when there is no such row), [check_validity] reports one
    entry per rule, in order, with status PASSED exactly when the sum is
    the number 0; a NULL sum is reported FAILED with ratio 0; the overall
    status is FAILED exactly when some rule is. *)
Theorem check_validity_rules database schema table rules (answers : list (Z * option Z)) :
  let ftn := full_table_name database schema table in
  Forall2 (fun item answer => answers_invalid execute_query ftn item answer /\ sql_sum answer)
          rules answers ->
  exists result,
    check_validity execute_query utcnow_isoformat database schema table rules
      = Return result /\
    result !! "check_type" = Some (VStr "VALIDITY") /\
    result !! "rules" = Some (VList (zip_with validity_report rules answers)) /\
    (forall item total invalid,
       exists entry,
         validity_report item (total, invalid) = VDict entry /\
         (entry !! "status" = Some (VStr "PASSED") <-> invalid = Some 0%Z) /\
         (entry !! "status" = Some (VStr "FAILED") <-> invalid <> Some 0%Z) /\
         (invalid = None -> entry !! "validity_ratio" = Some (VInt 0)) /\
         (forall k, invalid = Some k -> (0 < total)%Z ->
            entry !! "validity_ratio"
            = Some (VNum (round_to 4 (Qc_of_Z (total - k) / Qc_of_Z total))))) /\
    (result !! "overall_status" = Some (VStr "FAILED")
     <-> Exists (fun answer => answer.2 <> Some 0%Z) answers) /\
    (result !! "overall_status" = Some (VStr "PASSED")
     <-> Forall (fun answer => answer.2 = Some 0%Z) answers).
Proof.
  intros ftn Hall.
  unfold check_validity. fold ftn.
  match goal with |- context [for_each _ _ ?r] => set (results0 := r) end.
  assert (Hr0 : results0 !! "rules" = Some (VList [])).
  { unfold results0. by simplify_map_eq. }
  assert (Hs0 : results0 !! "overall_status" = Some (VStr "PASSED")).
  { unfold results0. by simplify_map_eq. }
  destruct (accumulate_loop "rules" (validity_rule execute_query ftn)
              (fun item answer => answers_invalid execute_query ftn item answer /\ sql_sum answer)
              (fun item answer => [validity_report item answer])
              (fun _ answer => bool_decide (validity_status answer = "FAILED"))
              ltac:(done)
              ltac:(intros; by apply validity_rule_step)
              rules answers results0 [] "PASSED" Hall Hr0 Hs0)
    as (result & Hrun & Hr & Hs & Hrest).
  rewrite Hrun. simpl try_except.
  exists result. split; [reflexivity|]. split; [|split; [|split]].
  - rewrite Hrest by done. unfold results0. by simplify_map_eq.
  - rewrite Hr. simpl. do 2 f_equal.
    clear. revert answers. induction rules as [|r rules IH]; intros [|a answers]; simpl;
      try done. by rewrite IH.
  - intros item total invalid. eexists. split; [reflexivity|].
    simplify_map_eq. unfold validity_status, validity_ratio. simpl.
    destruct (bool_decide (invalid = Some 0%Z)) eqn:E.
    + apply bool_decide_eq_true in E. subst.
      split; [done|]. split; [split; [discriminate|done]|]. split; [discriminate|].
      intros k [= <-] Hpos. by rewrite bool_decide_true.
    + apply bool_decide_eq_false in E.
      split; [split; [discriminate|done]|]. split; [done|]. split.
      * by intros ->.
      * intros k -> Hpos. by rewrite bool_decide_true.
  - assert (Hex : existsb (fun p : (string * string) * (Z * option Z) =>
                     bool_decide (validity_status p.2 = "FAILED")) (zip rules answers) = true
              <-> Exists (fun answer : Z * option Z => answer.2 <> Some 0%Z) answers).
    { clear -Hall. induction Hall as [|r a rules answers _ _ IH]; simpl.
      - rewrite Exists_nil. split; [discriminate|done].
      - rewrite Exists_cons, orb_true_iff, IH, bool_decide_eq_true.
        by rewrite validity_status_failed. }
    rewrite Hs. split.
    + rewrite <- Hex. destruct (existsb _ _); split; done.
    + assert (Hall' : Forall (fun answer : Z * option Z => answer.2 = Some 0%Z) answers
                <-> ~ Exists (fun answer : Z * option Z => answer.2 <> Some 0%Z) answers).
      { rewrite Forall_forall, Exists_exists. split.
        - intros H (a & Hin & Hne). by apply Hne, H.
        - intros H a Hin. destruct (decide (a.2 = Some 0%Z)) as [|Hne]; [done|].
          exfalso. apply H. by exists a. }
      rewrite Hall', <- Hex. destruct (existsb _ _); split; try done.
Qed.

End Validity.

Lemma check_validity_rules_witness :
  exists result,
    check_validity orders_warehouse "2024-01-01T00:00:00" "DB" "S" "ORDERS"
      [("amount", "amount > 0"); ("discount", "discount >= 0")] = Return result /\
    result !! "rules"
      = Some (VList [ validity_report ("amount", "amount > 0") (10, Some 2)%Z;
                      validity_report ("discount", "discount >= 0") (0, None)%Z ]) /\
    result !! "overall_status" = Some (VStr "FAILED").
Proof.
  destruct (check_validity_rules orders_warehouse "2024-01-01T00:00:00" "DB" "S" "ORDERS"
              [("amount", "amount > 0"); ("discount", "discount >= 0")]
              [(10, Some 2); (0, None)]%Z)
    as (result & Hrun & _ & Hrules & _ & Hfailed & _).
  - repeat constructor; try (eexists _, _; repeat split; reflexivity); try done.
  - exists result. split; [exact Hrun|]. split; [exact Hrules|].
    apply Hfailed. apply Exists_cons_hd. discriminate.
Defined.

(** ** check_timeliness *)

Section Timeliness.

Variable execute_query : pyval -> outcome (list dict).
Variable utcnow_isoformat : string.
Variable repr : pyval -> string.

(** X2. When the freshness query gives the age of the newest row as a
    number, [check_timeliness] reports PASSED exactly when that age is at
    most [max_age_hours] (an age equal to the limit passes) and FAILED
    otherwise, and records the age, the limit and the text of the newest
    timestamp. *)
Theorem check_timeliness_status database schema table timestamp_column
    latest age max_age_hours (a m : Qc) :
  let ftn := full_table_name database schema table in
  answers_freshness execute_query ftn timestamp_column latest age ->
  as_number age = Some a ->
  as_number max_age_hours = Some m ->
  exists result,
    check_timeliness execute_query utcnow_isoformat repr database schema table
      timestamp_column max_age_hours = Return result /\
    result !! "check_type" = Some (VStr "TIMELINESS") /\
    result !! "table" = Some (VStr ftn) /\
    (result !! "status" = Some (VStr "PASSED") <-> (a <= m)%Qc) /\
    (result !! "status" = Some (VStr "FAILED") <-> (m < a)%Qc) /\
    result !! "age_hours" = Some age /\
    result !! "max_age_hours" = Some max_age_hours /\
    result !! "latest_timestamp" = Some (VStr (str repr latest)) /\
    result !! "error" = None.
Proof.
  intros ftn (row & rest & Hq & Hl & Ha) Hage Hmax.
  unfold check_timeliness. fold ftn.
  rewrite Hq, !bind_Return. unfold first. rewrite !bind_Return.
  rewrite (getitem_Some _ _ _ Hl), !bind_Return.
  rewrite (getitem_Some _ _ _ Ha), !bind_Return.
  unfold le. rewrite Hage, Hmax, bind_Return. simpl try_except.
  eexists. split; [reflexivity|].
  simplify_map_eq. repeat (split; [reflexivity|]).
  unfold passed_or_failed.
  destruct (bool_decide (a <= m)%Qc) eqn:E.
  - apply bool_decide_eq_true in E.
    split; [done|]. split; [|done].
    split; [discriminate|]. intros H. by apply Qclt_not_le in H.
  - apply bool_decide_eq_false in E.
    split; [split; [discriminate|done]|]. split; [|done].
    split; [|done]. intros _. by apply Qcnot_le_lt.
Qed.

(** X3. When the freshness query gives no age (NULL, as over a table with
    no timestamp at all) or an age that is not a number, [check_timeliness]
    reports neither PASSED nor FAILED: it returns the ERROR record, whose
    message is that of the failed comparison. *)
Theorem check_timeliness_without_age database schema table timestamp_column
    latest age max_age_hours :
  let ftn := full_table_name database schema table in
  answers_freshness execute_query ftn timestamp_column latest age ->
  as_number age = None ->
  check_timeliness execute_query utcnow_isoformat repr database schema table
    timestamp_column max_age_hours
  = Return (error_result "TIMELINESS" ftn (cmp_error "<=" age max_age_hours)) /\
  error_result "TIMELINESS" ftn (cmp_error "<=" age max_age_hours) !! "status"
  = Some (VStr "ERROR") /\
  error_result "TIMELINESS" ftn (cmp_error "<=" age max_age_hours) !! "error"
  = Some (VStr ("'<=' not supported between instances of '" +:+ type_name age
                +:+ "' and '" +:+ type_name max_age_hours +:+ "'")).
Proof.
  intros ftn (row & rest & Hq & Hl & Ha) Hage.
  unfold check_timeliness. fold ftn.
  rewrite Hq, !bind_Return. unfold first. rewrite !bind_Return.
  rewrite (getitem_Some _ _ _ Hl), !bind_Return.
  rewrite (getitem_Some _ _ _ Ha), !bind_Return.
  unfold le. rewrite Hage. split; [reflexivity|].
  unfold error_result. by simplify_map_eq.
Qed.

End Timeliness.

Lemma check_timeliness_status_witness :
  exists result,
    check_timeliness orders_warehouse "2024-01-01T00:00:00" sample_repr "DB" "S" "ORDERS"
      "created_at" default_max_age_hours = Return result /\
    result !! "status" = Some (VStr "FAILED") /\
    result !! "age_hours" = Some (VInt 30).
Proof.
  destruct (check_timeliness_status orders_warehouse "2024-01-01T00:00:00" sample_repr
              "DB" "S" "ORDERS" "created_at" (VOther "datetime" "2024-01-01 00:00:00")
              (VInt 30) default_max_age_hours (Qc_of_Z 30) (Qc_of_Z 24))
    as (result & Hrun & _ & _ & _ & Hfailed & Hage & _).
  - eexists _, _. repeat split; reflexivity.
  - reflexivity.
  - reflexivity.
  - exists result. split; [exact Hrun|]. split; [|exact Hage].
    apply Hfailed. reflexivity.
Defined.

Lemma check_timeliness_without_age_witness :
  check_timeliness orders_warehouse "2024-01-01T00:00:00" sample_repr "DB" "S" "EMPTY"
    "created_at" default_max_age_hours
  = Return (error_result "TIMELINESS" "DB.S.EMPTY"
              (TypeError "'<=' not supported between instances of 'NoneType' and 'int'")).
Proof.
  apply (check_timeliness_without_age orders_warehouse "2024-01-01T00:00:00" sample_repr
           "DB" "S" "EMPTY" "created_at" VNone VNone default_max_age_hours).
  - eexists _, _. repeat split; reflexivity.
  - reflexivity.
Defined.

(** ** check_consistency *)

Section Consistency.

Variable execute_query : pyval -> outcome (list dict).
Variable utcnow_isoformat : string.

Lemma consistency_step_entries check rows (results : dict) entries :
  (has_query check = true -> answers_check execute_query check rows) ->
  results !! "checks" = Some (VList entries) ->
  consistency_step execute_query results check
  = Return (<["checks" := VList (entries ++ consistency_entries check rows)]>
              (if inconsistent check rows
               then <["overall_status" := VStr "FAILED"]> results else results)).
Proof.
  intros Hans Hchecks. unfold consistency_step, consistency_entries, inconsistent.
  fold (has_query check). destruct (has_query check) eqn:Hq; simpl negb; cbv iota.
  - rewrite (Hans eq_refl), bind_Return.
    fold (inconsistent_count rows).
    assert (Hst : bool_decide (passed_or_failed (eq_int (inconsistent_count rows) 0) = "FAILED")
                  = negb (eq_int (inconsistent_count rows) 0)).
    { by destruct (eq_int (inconsistent_count rows) 0). }
    rewrite Hst. simpl andb.
    assert (Hchecks' : (if negb (eq_int (inconsistent_count rows) 0)
                        then <["overall_status" := VStr "FAILED"]> results else results)
                       !! "checks" = Some (VList entries)).
    { destruct (negb _); [rewrite lookup_insert_ne by done|]; exact Hchecks. }
    by rewrite (append_item_list _ _ _ _ Hchecks').
  - simpl andb. cbv iota. rewrite app_nil_r, insert_id by done. reflexivity.
Qed.

(** X4. [check_consistency] skips every check that carries no query (a
    missing, [None] or empty [query]): it issues nothing for it and reports
    no entry.  Each other check contributes one entry, in order, whose count
    is the [INCONSISTENT_COUNT] of the first row of its query, and 0 when
    the query gives no row or the row has no such column; the entry is
    PASSED exactly when that count equals 0, and the overall status is
    FAILED exactly when some entry is. *)
Theorem check_consistency_entries database schema table checks (answers : list (list dict)) :
  let ftn := full_table_name database schema table in
  Forall2 (fun check rows => has_query check = true -> answers_check execute_query check rows)
          checks answers ->
  exists result entries,
    check_consistency execute_query utcnow_isoformat database schema table checks
      = Return result /\
    result !! "check_type" = Some (VStr "CONSISTENCY") /\
    result !! "checks" = Some (VList entries) /\
    entries = concat (zip_with consistency_entries checks answers) /\
    length entries = length (filter (fun check => has_query check = true) checks) /\
    (forall check rows, has_query check = false -> consistency_entries check rows = []) /\
    (forall check, exists entry,
       consistency_report check [] = VDict entry /\
       entry !! "inconsistent_count" = Some (VInt 0) /\
       entry !! "status" = Some (VStr "PASSED")) /\
    (forall check row rest, row !! "INCONSISTENT_COUNT" = None ->
       exists entry,
         consistency_report check (row :: rest) = VDict entry /\
         entry !! "inconsistent_count" = Some (VInt 0) /\
         entry !! "status" = Some (VStr "PASSED")) /\
    (forall check row rest count, row !! "INCONSISTENT_COUNT" = Some count ->
       exists entry,
         consistency_report check (row :: rest) = VDict entry /\
         entry !! "inconsistent_count" = Some count /\
         (entry !! "status" = Some (VStr "PASSED") <-> eq_int count 0 = true)) /\
    (result !! "overall_status" = Some (VStr "FAILED")
     <-> exists check rows, (check, rows) ∈ zip checks answers /\
           has_query check = true /\ eq_int (inconsistent_count rows) 0 = false) /\
    (result !! "overall_status" = Some (VStr "PASSED")
     <-> forall check rows, (check, rows) ∈ zip checks answers ->
           has_query check = true -> eq_int (inconsistent_count rows) 0 = true).
Proof.
  intros ftn Hall.
  unfold check_consistency. fold ftn.
  match goal with |- context [for_each _ _ ?r] => set (results0 := r) end.
  assert (Hc0 : results0 !! "checks" = Some (VList [])).
  { unfold results0. by simplify_map_eq. }
  assert (Hs0 : results0 !! "overall_status" = Some (VStr "PASSED")).
  { unfold results0. by simplify_map_eq. }
  destruct (accumulate_loop "checks" (consistency_step execute_query)
              (fun check rows => has_query check = true -> answers_check execute_query check rows)
              consistency_entries inconsistent
              ltac:(done)
              ltac:(intros; by apply consistency_step_entries)
              checks answers results0 [] "PASSED" Hall Hc0 Hs0)
    as (result & Hrun & Hc & Hs & Hrest).
  rewrite Hrun. simpl try_except.
  exists result, (concat (zip_with consistency_entries checks answers)).
  split; [reflexivity|]. split; [|split; [exact Hc|split; [reflexivity|]]].
  { rewrite Hrest by done. unfold results0. by simplify_map_eq. }
  split.
  { clear -Hall. induction Hall as [|check rows checks answers _ _ IH]; [done|].
    cbn [zip_with concat]. rewrite length_app, IH, filter_cons.
    unfold consistency_entries.
    destruct (has_query check) eqn:E.
    - rewrite decide_True by done. reflexivity.
    - rewrite decide_False by done. reflexivity. }
  split.
  { intros check rows Hq. unfold consistency_entries. by rewrite Hq. }
  split.
  { intros check. eexists. split; [reflexivity|]. by simplify_map_eq. }
  split.
  { intros check row rest Hrow. eexists. split; [reflexivity|].
    unfold inconsistent_count, get. rewrite Hrow. by simplify_map_eq. }
  split.
  { intros check row rest count Hrow. eexists. split; [reflexivity|].
    unfold inconsistent_count, get. rewrite Hrow. simplify_map_eq.
    split; [done|]. unfold passed_or_failed.
    destruct (eq_int count 0); split; done. }
  assert (Hex : existsb (fun p : dict * list dict => inconsistent p.1 p.2) (zip checks answers)
                = true
            <-> exists check rows, (check, rows) ∈ zip checks answers /\
                  has_query check = true /\ eq_int (inconsistent_count rows) 0 = false).
  { rewrite existsb_exists. unfold inconsistent. split.
    - intros ([check rows] & Hin & H). apply andb_true_iff in H as [Hq Hn].
      apply negb_true_iff in Hn. exists check, rows.
      split; [by apply list_elem_of_In|done].
    - intros (check & rows & Hin & Hq & Hn). exists (check, rows).
      split; [by apply list_elem_of_In|]. simpl. by rewrite Hq, Hn. }
  rewrite Hs. split.
  - rewrite <- Hex. destruct (existsb _ _); split; done.
  - split.
    + intros Hp check rows Hin Hq.
      destruct (eq_int (inconsistent_count rows) 0) eqn:E; [done|].
      assert (Ht : existsb (fun p : dict * list dict => inconsistent p.1 p.2)
                     (zip checks answers) = true) by (apply Hex; eauto).
      rewrite Ht in Hp. discriminate.
    + intros Hno. destruct (existsb _ _) eqn:E; [|done].
      destruct (proj1 Hex eq_refl) as (check & rows & Hin & Hq & Hn).
      rewrite (Hno check rows Hin Hq) in Hn. discriminate.
Qed.

End Consistency.

Lemma check_consistency_entries_witness :
  exists result,
    check_consistency orders_warehouse "2024-01-01T00:00:00" "DB" "S" "ORDERS"
      [ {[ "name" := VStr "orphans";
           "query" := VStr "SELECT COUNT(1) AS INCONSISTENT_COUNT FROM ORPHANS" ]};
        {[ "name" := VStr "not written yet" ]};
        {[ "query" := VStr "SELECT 1 WHERE FALSE" ]} ] = Return result /\
    result !! "checks"
      = Some (VList [ VDict {[ "check_name" := VStr "orphans";
                               "inconsistent_count" := VInt 3;
                               "status" := VStr "FAILED" ]};
                      VDict {[ "check_name" := VStr "unnamed_check";
                               "inconsistent_count" := VInt 0;
                               "status" := VStr "PASSED" ]} ]) /\
    result !! "overall_status" = Some (VStr "FAILED").
Proof.
  destruct (check_consistency_entries orders_warehouse "2024-01-01T00:00:00" "DB" "S" "ORDERS"
              [ {[ "name" := VStr "orphans";
                   "query" := VStr "SELECT COUNT(1) AS INCONSISTENT_COUNT FROM ORPHANS" ]};
                {[ "name" := VStr "not written yet" ]};
                {[ "query" := VStr "SELECT 1 WHERE FALSE" ]} ]
              [ [ {[ "INCONSISTENT_COUNT" := VInt 3 ]} ]; []; [] ])
    as (result & entries & Hrun & _ & Hchecks & Hentries & _ & _ & _ & _ & _ & Hfailed & _).
  - apply Forall2_cons; [intros _; reflexivity|].
    apply Forall2_cons; [intros H; discriminate H|].
    apply Forall2_cons; [intros _; reflexivity|]. apply Forall2_nil.
  - exists result. split; [exact Hrun|]. split.
    + rewrite Hchecks, Hentries. reflexivity.
    + apply Hfailed. eexists _, _. split; [apply list_elem_of_here|]. split; reflexivity.
Defined.

(** ** check_completeness over all columns *)

Section Describe.

Variable execute_query : pyval -> outcome (list dict).
Variable utcnow_isoformat : string.
Variable repr : pyval -> string.

Local Abbreviation collect :=
  (fun (names : list pyval) (col : dict) => name ← getitem col "name"; Return (names ++ [name])).

Lemma getitem_None (d : dict) k : d !! k = None -> getitem d k = Raise (KeyError k).
Proof. unfold getitem. by intros ->. Qed.

Lemma describe_names rows names : forall acc,
  Forall2 (fun (row : dict) name => row !! "name" = Some name) rows names ->
  for_each collect rows acc = Return (acc ++ names).
Proof.
  intros acc Hall. revert acc.
  induction Hall as [|row name rows names Hrow _ IH]; intros acc; cbn [for_each].
  - by rewrite app_nil_r.
  - rewrite (getitem_Some _ _ _ Hrow), !bind_Return, IH, <- app_assoc. reflexivity.
Qed.

Lemma describe_missing rows (row : dict) : forall acc,
  row ∈ rows -> row !! "name" = None ->
  for_each collect rows acc = Raise (KeyError "name").
Proof.
  intros acc Hin Hrow. revert acc.
  induction rows as [|r rows IH]; intros acc; [by apply elem_of_nil in Hin|].
  cbn [for_each].
  destruct (r !! "name") as [name|] eqn:E.
  - rewrite (getitem_Some _ _ _ E), !bind_Return. apply IH.
    apply elem_of_cons in Hin as [->|Hin]; [congruence|done].
  - by rewrite (getitem_None _ _ E).
Qed.

(** X5. Called without columns ([None] or an empty list),
    [check_completeness] checks the columns that DESCRIBE TABLE lists, in
    that order: the result is the one of the call that names them.  When
    DESCRIBE lists no column the check passes with an empty column list;
    when a listed row has no [name] field the result is the ERROR record of
    the missing key. *)
Theorem check_completeness_describes database schema table columns threshold rows :
  let ftn := full_table_name database schema table in
  let run := check_completeness execute_query utcnow_isoformat repr database schema table in
  given columns = [] ->
  execute_query (VStr (describe_query ftn)) = Return rows ->
  (forall names,
     Forall2 (fun (row : dict) name => row !! "name" = Some name) rows names ->
     names <> [] ->
     run columns threshold = run (Some names) threshold) /\
  (rows = [] ->
   forall row rest total_rows,
     execute_query (VStr (count_query ftn)) = Return (row :: rest) ->
     row !! "TOTAL_ROWS" = Some total_rows ->
     exists result,
       run columns threshold = Return result /\
       result !! "columns" = Some (VList []) /\
       result !! "overall_status" = Some (VStr "PASSED") /\
       result !! "total_rows" = Some total_rows) /\
  (forall row : dict, row ∈ rows -> row !! "name" = None ->
     run columns threshold = Return (error_result "COMPLETENESS" ftn (KeyError "name")) /\
     error_result "COMPLETENESS" ftn (KeyError "name") !! "error" = Some (VStr "'name'")).
Proof.
  intros ftn run Hnone Hdescribe.
  assert (Hrun : forall k : list pyval -> outcome dict,
            try_except
              (cols ← match columns with
                      | Some (c :: cs) => Return (c :: cs)
                      | _ => col_results ← execute_query (VStr (describe_query ftn));
                             for_each collect col_results []
                      end; k cols)
              (fun e => Return (error_result "COMPLETENESS" ftn e))
            = try_except (cols ← for_each collect rows []; k cols)
                (fun e => Return (error_result "COMPLETENESS" ftn e))).
  { intros k. destruct columns as [[|c cs]|]; simpl in Hnone; try discriminate;
      by rewrite Hdescribe, bind_Return. }
  split; [|split].
  - intros names Hnames Hne. unfold run, check_completeness. fold ftn.
    rewrite Hrun, (describe_names rows names [] Hnames), !bind_Return. simpl app.
    destruct names as [|c cs]; [done|]. by rewrite bind_Return.
  - intros -> row rest total_rows Hq Htotal. unfold run, check_completeness. fold ftn.
    rewrite Hrun. cbn [for_each]. rewrite !bind_Return, Hq, !bind_Return.
    unfold first. rewrite !bind_Return, (getitem_Some _ _ _ Htotal), !bind_Return.
    cbn [for_each try_except]. eexists. split; [reflexivity|]. by simplify_map_eq.
  - intros row Hin Hrow. split.
    + unfold run, check_completeness. fold ftn.
      rewrite Hrun, (describe_missing rows row [] Hin Hrow). reflexivity.
    + unfold error_result. by simplify_map_eq.
Qed.

End Describe.

Lemma check_completeness_describes_witness :
  check_completeness described_warehouse "2024-01-01T00:00:00" sample_repr "DB" "S" "T"
    None default_threshold
  = check_completeness described_warehouse "2024-01-01T00:00:00" sample_repr "DB" "S" "T"
      (Some [VStr "a"; VStr "b"]) default_threshold.
Proof.
  apply (check_completeness_describes described_warehouse "2024-01-01T00:00:00" sample_repr
           "DB" "S" "T" None default_threshold
           [ {[ "name" := VStr "a" ]}; {[ "name" := VStr "b" ]} ]).
  - reflexivity.
  - reflexivity.
  - repeat constructor.
  - discriminate.
Defined.

(** ** generate_dq_report: the summary and the uncounted statuses *)

Section Summary.

Variable utcnow_isoformat : string.

Lemma tally_summary report result summary :
  report !! "passed_checks" <> None -> report !! "failed_checks" <> None ->
  report !! "error_checks" <> None ->
  report !! "check_summary" = Some (VList summary) ->
  forall report', tally report result = Return report' ->
  report' !! "check_summary" = Some (VList (summary ++ [summary_entry result])) /\
  report' !! "passed_checks" <> None /\ report' !! "failed_checks" <> None /\
  report' !! "error_checks" <> None.
Proof.
  intros Hp Hf He Hs report' Hrun. unfold tally in Hrun.
  assert (Hkeep : forall k (r1 : dict), incr_item report k = Return r1 ->
            k <> "check_summary" ->
            r1 !! "check_summary" = Some (VList summary) /\
            r1 !! "passed_checks" <> None /\ r1 !! "failed_checks" <> None /\
            r1 !! "error_checks" <> None).
  { intros k r1 Hincr Hk. unfold incr_item in Hincr.
    destruct (getitem report k) as [v|]; [|discriminate]. rewrite bind_Return in Hincr.
    destruct (add v (VInt 1)) as [v'|]; [|discriminate]. rewrite bind_Return in Hincr.
    injection Hincr as <-. rewrite lookup_insert_ne by done. split; [done|].
    repeat split; (destruct (decide (k = "passed_checks")) as [->|];
      [by rewrite ?lookup_insert_eq, ?lookup_insert_ne by done|]);
      (destruct (decide (k = "failed_checks")) as [->|];
      [by rewrite ?lookup_insert_eq, ?lookup_insert_ne by done|]);
      (destruct (decide (k = "error_checks")) as [->|];
      [by rewrite ?lookup_insert_eq, ?lookup_insert_ne by done|]);
      by rewrite lookup_insert_ne. }
  assert (Hmid : exists r1 : dict,
            (if eq_str (result_status result) "PASSED" then incr_item report "passed_checks"
             else if eq_str (result_status result) "FAILED"
                  then incr_item report "failed_checks"
                  else if eq_str (result_status result) "ERROR"
                       then incr_item report "error_checks" else Return report) = Return r1 /\
            r1 !! "check_summary" = Some (VList summary) /\
            r1 !! "passed_checks" <> None /\ r1 !! "failed_checks" <> None /\
            r1 !! "error_checks" <> None).
  { destruct (if eq_str (result_status result) "PASSED" then _ else _) as [r1|e] eqn:E;
      [|discriminate].
    exists r1. split; [done|].
    destruct (eq_str (result_status result) "PASSED"); [by apply (Hkeep "passed_checks")|].
    destruct (eq_str (result_status result) "FAILED"); [by apply (Hkeep "failed_checks")|].
    destruct (eq_str (result_status result) "ERROR"); [by apply (Hkeep "error_checks")|].
    injection E as <-. done. }
  destruct Hmid as (r1 & Hmid & Hs1 & Hp1 & Hf1 & He1).
  rewrite Hmid, bind_Return in Hrun.
  rewrite (append_item_list _ _ _ _ Hs1) in Hrun. injection Hrun as <-.
  rewrite lookup_insert_eq, !lookup_insert_ne by done. done.
Qed.

Lemma tally_summary_loop results : forall report summary,
  report !! "passed_checks" <> None -> report !! "failed_checks" <> None ->
  report !! "error_checks" <> None ->
  report !! "check_summary" = Some (VList summary) ->
  forall report', for_each tally results report = Return report' ->
  report' !! "check_summary" = Some (VList (summary ++ (summary_entry <$> results))).
Proof.
  induction results as [|r results IH]; intros report summary Hp Hf He Hs report' Hrun.
  - injection Hrun as <-. by rewrite app_nil_r.
  - cbn [for_each] in Hrun.
    destruct (tally report r) as [r1|e] eqn:E; [|discriminate].
    rewrite bind_Return in Hrun.
    destruct (tally_summary report r summary Hp Hf He Hs r1 E) as (Hs1 & Hp1 & Hf1 & He1).
    rewrite (IH r1 _ Hp1 Hf1 He1 Hs1 report' Hrun), fmap_cons, <- app_assoc. reflexivity.
Qed.

Lemma count_status_counted results :
  (count_status "PASSED" results + count_status "FAILED" results
   + count_status "ERROR" results)%Z
  = Z.of_nat (length (filter (fun r => counted (result_status r) = true) results)).
Proof.
  induction results as [|r results IH]; [reflexivity|].
  rewrite !QualityProofs.count_status_cons, filter_cons.
  destruct (eq_str (result_status r) "PASSED") eqn:EP.
  - rewrite (QualityProofs.eq_str_exclusive _ "PASSED" "FAILED"),
      (QualityProofs.eq_str_exclusive _ "PASSED" "ERROR") by done.
    rewrite decide_True by (unfold counted; by rewrite EP).
    simpl length. unfold indicator. lia.
  - destruct (eq_str (result_status r) "FAILED") eqn:EF.
    + rewrite (QualityProofs.eq_str_exclusive _ "FAILED" "ERROR") by done.
      rewrite decide_True by (unfold counted; by rewrite EP, EF).
      simpl length. unfold indicator. lia.
    + destruct (eq_str (result_status r) "ERROR") eqn:EE.
      * rewrite decide_True by (unfold counted; by rewrite EP, EF, EE).
        simpl length. unfold indicator. lia.
      * rewrite decide_False by (unfold counted; by rewrite EP, EF, EE).
        unfold indicator. lia.
Qed.

Lemma generate_dq_report_loop results :
  exists (report0 report1 : dict) rate,
    report0 !! "passed_checks" <> None /\ report0 !! "failed_checks" <> None /\
    report0 !! "error_checks" <> None /\ report0 !! "check_summary" = Some (VList []) /\
    for_each tally results report0 = Return report1 /\
    generate_dq_report utcnow_isoformat results = Return (<["success_rate" := rate]> report1) /\
    rate = match results with
           | [] => VInt 0
           | _ => VNum (Qc_of_Z (count_status "PASSED" results)
                        / Qc_of_Z (Z.of_nat (length results)))
           end /\
    tallied report1 (Z.of_nat (length results)) (count_status "PASSED" results)
      (count_status "FAILED" results) (count_status "ERROR" results).
Proof.
  unfold generate_dq_report.
  match goal with |- context [for_each tally results ?r] => set (report0 := r) end.
  assert (H0 : tallied report0 (Z.of_nat (length results)) 0 0 0).
  { unfold tallied, report0, len. simplify_map_eq. eauto 10. }
  destruct (QualityProofs.tally_loop results _ _ _ _ _ H0) as (report1 & Hloop & Htallied).
  rewrite !Z.add_0_l in Htallied.
  exists report0, report1.
  destruct Htallied as (Ht & Hp & Hf & He & Hs).
  rewrite Hloop, bind_Return, (getitem_Some _ _ _ Ht), bind_Return, gt_zero_int, bind_Return.
  assert (Hrest : report0 !! "passed_checks" <> None /\ report0 !! "failed_checks" <> None /\
                  report0 !! "error_checks" <> None /\
                  report0 !! "check_summary" = Some (VList [])).
  { unfold report0. by simplify_map_eq. }
  destruct Hrest as (Hp0 & Hf0 & He0 & Hs0).
  assert (Htallied : tallied report1 (Z.of_nat (length results))
            (count_status "PASSED" results) (count_status "FAILED" results)
            (count_status "ERROR" results)).
  { unfold tallied. eauto 10. }
  destruct (bool_decide (0 < Z.of_nat (length results))%Z) eqn:E.
  - apply bool_decide_eq_true in E.
    rewrite (getitem_Some _ _ _ Hp), !bind_Return, truediv_int by lia.
    rewrite bind_Return. eexists. do 6 (split; [done|]). split; [|done].
    by destruct results.
  - rewrite bind_Return. eexists. do 6 (split; [done|]). split; [|done].
    apply bool_decide_eq_false in E. destruct results; [done|]. simpl length in E. lia.
Qed.

(** X6. The report of [generate_dq_report] summarises every result, in
    order, by its table, check type and status.  The three counters are
    non-negative and add up to at most [total_checks]; they add up to it
    exactly when every result has status PASSED, FAILED or ERROR: a result
    with any other status (UNKNOWN when it carries none) is counted in the
    total only.  All checks passed exactly when [passed_checks] equals
    [total_checks]. *)
Theorem generate_dq_report_summary (results : list dict) :
  exists report passed failed errors,
    generate_dq_report utcnow_isoformat results = Return report /\
    report !! "check_summary" = Some (VList (summary_entry <$> results)) /\
    report !! "total_checks" = Some (VInt (Z.of_nat (length results))) /\
    report !! "passed_checks" = Some (VInt passed) /\
    report !! "failed_checks" = Some (VInt failed) /\
    report !! "error_checks" = Some (VInt errors) /\
    (0 <= passed)%Z /\ (0 <= failed)%Z /\ (0 <= errors)%Z /\
    (passed + failed + errors <= Z.of_nat (length results))%Z /\
    ((passed + failed + errors)%Z = Z.of_nat (length results)
     <-> Forall (fun r => counted (result_status r) = true) results) /\
    (passed = Z.of_nat (length results)
     <-> Forall (fun r => result_status r = VStr "PASSED") results).
Proof.
  destruct (generate_dq_report_loop results)
    as (report0 & report1 & rate & Hp0 & Hf0 & He0 & Hs0 & Hloop & Hrun & _
        & Ht & Hp & Hf & He & _).
  exists (<["success_rate" := rate]> report1),
    (count_status "PASSED" results), (count_status "FAILED" results),
    (count_status "ERROR" results).
  split; [exact Hrun|]. rewrite !lookup_insert_ne by done. split.
  { by apply (tally_summary_loop results report0 [] Hp0 Hf0 He0 Hs0). }
  do 4 (split; [assumption|]).
  assert (Hfilter : forall P `{forall r : dict, Decision (P r)},
            length (filter P results) <= length results
            /\ (length (filter P results) = length results <-> Forall P results)).
  { intros P HP. split; [apply length_filter|].
    clear. induction results as [|r results IH]; [by split|].
    rewrite filter_cons, list.Forall_cons. destruct (decide (P r)) as [Hr|Hr]; simpl.
    - split.
      + intros [= Hlen]. split; [done|]. by apply IH.
      + intros [_ Hall]. f_equal. by apply IH.
    - pose proof (length_filter P results). split; [lia|tauto]. }
  split; [unfold count_status; lia|]. split; [unfold count_status; lia|].
  split; [unfold count_status; lia|].
  rewrite count_status_counted.
  destruct (Hfilter (fun r => counted (result_status r) = true) _) as [Hle Hiff].
  split; [lia|]. split.
  - rewrite <- Hiff. lia.
  - unfold count_status.
    destruct (Hfilter (fun r => eq_str (result_status r) "PASSED") _) as [_ Hiff'].
    rewrite Nat2Z.inj_iff, Hiff'. apply Forall_proper; [|done].
    intros r. unfold eq_str. destruct (result_status r); simpl; try (split; done).
    rewrite bool_decide_spec. split; [by intros ->|by intros [= ->]].
Qed.

End Summary.

End ChecksProofs.

(* ===================================================================== *)
(** * Running and saving validations *)
(* ===================================================================== *)

Module StateFacts.

Import PyState.

Lemma bind_lift_Return {S A B} (a : A) (f : A -> stateful S B) s :
  (lift (Return a) ≫= f) s = f a s.
Proof. reflexivity. Qed.

Lemma bind_lift_Raise {S A B} e (f : A -> stateful S B) s :
  (lift (Raise e : outcome A) ≫= f) s = (Raise e, s).
Proof. reflexivity. Qed.

Lemma bind_lift {S A B} (o : outcome A) (f : A -> stateful S B) s :
  (lift o ≫= f) s = match o with Return a => f a s | Raise e => (Raise e, s) end.
Proof. by destruct o. Qed.

Lemma bind_update {S B} (g : S -> S) (f : () -> stateful S B) s :
  (update g ≫= f) s = f () (g s).
Proof. reflexivity. Qed.

Lemma bind_run {S A B} (m : stateful S A) (f : A -> stateful S B) s :
  (m ≫= f) s = match m s with (Return a, s') => f a s' | (Raise e, s') => (Raise e, s') end.
Proof. reflexivity. Qed.

Lemma st_for_app {S A} (body : A -> stateful S ()) xs ys s :
  st_for body (xs ++ ys) s
  = match st_for body xs s with
    | (Return _, s') => st_for body ys s'
    | (Raise e, s') => (Raise e, s')
    end.
Proof.
  revert s. induction xs as [|x xs IH]; intros s; [reflexivity|].
  cbn [app st_for]. unfold st_bind. destruct (body x s) as [[[]|e] s']; [apply IH|done].
Qed.

End StateFacts.

Module ValidationProofs.

Import PyState Driver Quality QualitySpec Validation ValidationSpec PyFacts StateFacts.

Section Run.

Variable execute_query : pyval -> outcome (list dict).
Variable utcnow_isoformat : string.
Variable repr : pyval -> string.
Variable config : dict.

Local Abbreviation run := (run_comprehensive_validation execute_query utcnow_isoformat repr config).
Local Abbreviation completeness :=
  (check_completeness execute_query utcnow_isoformat repr).

Lemma effective_config_eq validation_config :
  match validation_config with
  | Some d => if truthy (VDict d) then VDict d else get config "data_quality" (VDict ∅)
  | None => get config "data_quality" (VDict ∅)
  end = effective_config config validation_config.
Proof.
  destruct validation_config as [d|]; [|done]. simpl.
  by destruct (bool_decide (d = ∅)).
Qed.

Lemma check_completeness_returns database schema table columns threshold :
  exists check, completeness database schema table columns threshold = Return check.
Proof. unfold check_completeness. apply try_except_returns. Qed.

(** X7. [run_comprehensive_validation] reads the completeness rule from
    [validation_config], or from the [data_quality] section of the
    validator's configuration when none (or an empty one) is given.  With
    the rule enabled (the default) it runs the completeness check over all
    columns and reports FAILED exactly when the check's [overall_status] is
    FAILED: a check that ended as an ERROR record leaves the validation
    PASSED, with no [error] field.  With the rule disabled it runs nothing
    and reports PASSED.  When the configuration cannot be read it reports
    ERROR with the message and no check. *)
Theorem comprehensive_validation_status database schema table validation_config :
  let ftn := full_table_name database schema table in
  let cfg := effective_config config validation_config in
  let result := run database schema table validation_config in
  result !! "table" = Some (VStr ftn) /\
  (forall enabled threshold,
     completeness_setting cfg "enabled" py_true = Return enabled ->
     truthy enabled = true ->
     completeness_setting cfg "threshold" default_threshold = Return threshold ->
     exists check,
       completeness database schema table None threshold = Return check /\
       result !! "checks" = Some (VList [VDict check]) /\
       (result !! "overall_status" = Some (VStr "FAILED")
        <-> check !! "overall_status" = Some (VStr "FAILED")) /\
       (result !! "overall_status" = Some (VStr "PASSED")
        <-> check !! "overall_status" <> Some (VStr "FAILED")) /\
       result !! "error" = None /\
       (forall e, execute_query (VStr (describe_query ftn)) = Raise e ->
          check = error_result "COMPLETENESS" ftn e /\
          check !! "status" = Some (VStr "ERROR") /\
          result !! "overall_status" = Some (VStr "PASSED"))) /\
  (forall enabled,
     completeness_setting cfg "enabled" py_true = Return enabled ->
     truthy enabled = false ->
     result !! "checks" = Some (VList []) /\
     result !! "overall_status" = Some (VStr "PASSED") /\
     result !! "error" = None) /\
  (forall e,
     completeness_setting cfg "enabled" py_true = Raise e ->
     result !! "checks" = Some (VList []) /\
     result !! "overall_status" = Some (VStr "ERROR") /\
     result !! "error" = Some (VStr (exn_str e))).
Proof.
  intros ftn cfg result.
  unfold result, run_comprehensive_validation. rewrite effective_config_eq. fold cfg ftn.
  match goal with |- context [st_try _ _ ?r] => set (results := r) end.
  assert (Hchecks : results !! "checks" = Some (VList [])) by (unfold results; by simplify_map_eq).
  unfold st_try, comprehensive_checks.
  split.
  { destruct (completeness_rules cfg) as [rules|e] eqn:Hrules; rewrite bind_lift.
    - destruct (pyget rules "enabled" py_true) as [enabled|e] eqn:Hen; rewrite bind_lift.
      + destruct (truthy enabled).
        * rewrite bind_lift. destruct (pyget rules "threshold" default_threshold) as [thr|e];
            rewrite bind_lift.
          -- destruct (check_completeness_returns database schema table None thr)
               as (check & Hc).
             rewrite Hc, bind_lift, bind_run. unfold update_with.
             rewrite (append_item_list _ _ _ _ Hchecks).
             destruct (eq_str (get_none check "overall_status") "FAILED");
               unfold results; by simplify_map_eq.
          -- unfold results. by simplify_map_eq.
        * unfold results. by simplify_map_eq.
      + unfold results. by simplify_map_eq.
    - unfold results. by simplify_map_eq. }
  split; [|split].
  - intros enabled threshold Hen Htruthy Hthr.
    unfold completeness_setting in Hen, Hthr.
    destruct (completeness_rules cfg) as [rules|e] eqn:Hrules; [|discriminate].
    rewrite bind_Return in Hen, Hthr.
    rewrite bind_lift, Hen, bind_lift, Htruthy, bind_lift, Hthr, bind_lift.
    destruct (check_completeness_returns database schema table None threshold)
      as (check & Hc).
    exists check. split; [exact Hc|].
    rewrite Hc, bind_lift, bind_run. unfold update_with.
    rewrite (append_item_list _ _ _ _ Hchecks). simpl app.
    assert (Hstatus : eq_str (get_none check "overall_status") "FAILED" = true
              <-> check !! "overall_status" = Some (VStr "FAILED")).
    { unfold get_none, get.
      destruct (check !! "overall_status") as [v|]; simpl; [|split; discriminate].
      destruct v; simpl; try (split; [discriminate|by intros [=]]).
      rewrite bool_decide_eq_true. split; [by intros ->|by intros [= ->]]. }
    destruct (eq_str (get_none check "overall_status") "FAILED") eqn:E.
    + simpl. unfold results. simplify_map_eq.
      split; [done|]. split; [tauto|]. split; [|split; [done|]].
      * split; [discriminate|]. intros H. exfalso. apply H. by apply Hstatus.
      * intros e He. exfalso.
        assert (Hcheck : check = error_result "COMPLETENESS" ftn e).
        { unfold check_completeness in Hc. fold ftn in Hc. rewrite He in Hc.
          simpl in Hc. by injection Hc as <-. }
        subst check. unfold error_result in E. by simplify_map_eq.
    + simpl. unfold results. simplify_map_eq.
      split; [done|]. split; [|split; [|split; [done|]]].
      * split; [discriminate|]. intros H. apply Hstatus in H. discriminate.
      * split; [|done]. intros _ H. apply Hstatus in H. discriminate.
      * intros e He.
        assert (Hcheck : check = error_result "COMPLETENESS" ftn e).
        { unfold check_completeness in Hc. fold ftn in Hc. rewrite He in Hc.
          simpl in Hc. by injection Hc as <-. }
        subst check. split; [done|]. split; [|done]. unfold error_result. by simplify_map_eq.
  - intros enabled Hen Htruthy. unfold completeness_setting in Hen.
    destruct (completeness_rules cfg) as [rules|e] eqn:Hrules; [|discriminate].
    rewrite bind_Return in Hen. rewrite bind_lift, Hen, bind_lift, Htruthy.
    unfold results. by simplify_map_eq.
  - intros e He. unfold completeness_setting in He.
    destruct (completeness_rules cfg) as [rules|e'] eqn:Hrules.
    + rewrite bind_Return in He. rewrite bind_lift, He, bind_lift.
      unfold results. by simplify_map_eq.
    + injection He as ->. rewrite bind_lift. unfold results. by simplify_map_eq.
Qed.

(** What the method returns when the completeness rule is enabled. *)
Lemma run_enabled database schema table validation_config enabled threshold check :
  let cfg := effective_config config validation_config in
  completeness_setting cfg "enabled" py_true = Return enabled ->
  truthy enabled = true ->
  completeness_setting cfg "threshold" default_threshold = Return threshold ->
  completeness database schema table None threshold = Return check ->
  let results : dict :=
    <["checks" := VList [VDict check]]>
      {[ "table" := VStr (full_table_name database schema table);
         "validation_timestamp" := VStr utcnow_isoformat;
         "checks" := VList [];
         "overall_status" := VStr "PASSED" ]} in
  run database schema table validation_config
  = if eq_str (get_none check "overall_status") "FAILED"
    then <["overall_status" := VStr "FAILED"]> results else results.
Proof.
  intros cfg Hen Htruthy Hthr Hc results.
  unfold run_comprehensive_validation. rewrite effective_config_eq. fold cfg.
  unfold completeness_setting in Hen, Hthr.
  unfold st_try, comprehensive_checks.
  destruct (completeness_rules cfg) as [rules|e] eqn:Hrules; [|discriminate].
  rewrite bind_Return in Hen, Hthr.
  rewrite bind_lift_Return, Hen, bind_lift_Return, Htruthy, bind_lift_Return, Hthr.
  rewrite bind_lift_Return, Hc, bind_lift_Return, bind_run. unfold update_with.
  rewrite (append_item_list _ _ [] _) by (by simplify_map_eq). simpl app.
  fold results. by destruct (eq_str (get_none check "overall_status") "FAILED").
Qed.

(** X8. A table whose completeness check could not run is reported as
    passed: when the DESCRIBE query of the table raises, the validation that
    [run_comprehensive_validation] returns is counted by
    [generate_dq_report] under [passed_checks], not under [error_checks],
    and the success rate over it is 1. *)
Theorem errored_completeness_counts_as_passed database schema table validation_config
    enabled threshold e :
  let ftn := full_table_name database schema table in
  let cfg := effective_config config validation_config in
  completeness_setting cfg "enabled" py_true = Return enabled ->
  truthy enabled = true ->
  completeness_setting cfg "threshold" default_threshold = Return threshold ->
  execute_query (VStr (describe_query ftn)) = Raise e ->
  exists report,
    generate_dq_report utcnow_isoformat [run database schema table validation_config]
      = Return report /\
    report !! "total_checks" = Some (VInt 1) /\
    report !! "passed_checks" = Some (VInt 1) /\
    report !! "failed_checks" = Some (VInt 0) /\
    report !! "error_checks" = Some (VInt 0) /\
    report !! "success_rate" = Some (VNum 1).
Proof.
  intros ftn cfg Hen Htruthy Hthr He.
  assert (Hc : completeness database schema table None threshold
               = Return (error_result "COMPLETENESS" ftn e)).
  { unfold check_completeness. fold ftn. by rewrite He. }
  pose proof (run_enabled database schema table validation_config enabled threshold _
                Hen Htruthy Hthr Hc) as Hrun.
  cbv zeta in Hrun. fold ftn in Hrun.
  assert (Hnot : eq_str (get_none (error_result "COMPLETENESS" ftn e) "overall_status") "FAILED"
                 = false) by (unfold error_result, get_none, get; by simplify_map_eq).
  rewrite Hnot in Hrun. rewrite Hrun.
  match goal with |- context [generate_dq_report _ [?r]] => set (result := r) end.
  assert (Hstatus : result_status result = VStr "PASSED").
  { unfold result, result_status, get. by simplify_map_eq. }
  destruct (ChecksProofs.generate_dq_report_loop utcnow_isoformat [result])
    as (report0 & report1 & rate & _ & _ & _ & _ & _ & Hreport & Hrate
        & Ht & Hp & Hf & Herr & _).
  assert (Hcount : forall s, count_status s [result] = indicator (eq_str (VStr "PASSED") s)).
  { intros s. rewrite QualityProofs.count_status_cons, Hstatus.
    unfold count_status. simpl. lia. }
  rewrite !Hcount in *. simpl in Ht, Hp, Hf, Herr, Hrate.
  exists (<["success_rate" := rate]> report1). split; [exact Hreport|].
  rewrite lookup_insert_eq, !lookup_insert_ne by done.
  do 4 (split; [assumption|]). rewrite Hrate. do 2 f_equal.
Qed.

End Run.

Lemma comprehensive_validation_status_witness :
  let result :=
    run_comprehensive_validation sample_warehouse "2024-01-01T00:00:00" sample_repr ∅
      "DB" "S" "X" None in
  result !! "overall_status" = Some (VStr "PASSED") /\
  result !! "checks"
    = Some (VList [VDict (error_result "COMPLETENESS" "DB.S.X"
                            (DriverError "SQL compilation error"))]).
Proof.
  intros result.
  destruct (comprehensive_validation_status sample_warehouse "2024-01-01T00:00:00"
              sample_repr ∅ "DB" "S" "X" None) as (_ & Henabled & _).
  destruct (Henabled py_true default_threshold) as (check & _ & Hchecks & _ & _ & _ & Hmask);
    [reflexivity..|].
  destruct (Hmask (DriverError "SQL compilation error")) as (Hcheck & _ & Hpassed);
    [reflexivity|].
  subst result. split; [exact Hpassed|]. rewrite Hchecks, Hcheck. reflexivity.
Defined.

Lemma errored_completeness_counts_as_passed_witness :
  exists report,
    generate_dq_report "2024-01-01T00:00:00"
      [run_comprehensive_validation sample_warehouse "2024-01-01T00:00:00" sample_repr ∅
         "DB" "S" "X" None] = Return report /\
    report !! "passed_checks" = Some (VInt 1) /\
    report !! "error_checks" = Some (VInt 0).
Proof.
  destruct (errored_completeness_counts_as_passed sample_warehouse "2024-01-01T00:00:00"
              sample_repr ∅ "DB" "S" "X" None py_true default_threshold
              (DriverError "SQL compilation error"))
    as (report & Hrun & _ & Hpassed & _ & Herrors & _); [reflexivity..|].
  exists report. auto.
Defined.

(** ** save_validation_results *)

Section Save.

Variable execute_query : pyval -> outcome (list dict).
Variable execute_many : string -> list (list pyval) -> outcome ().
Variable repr : pyval -> string.
Variable utcnow : pyval.
Variable utcnow_timestamp : string.
Variable json_dumps : pyval -> outcome string.

Local Abbreviation save :=
  (save_validation_results execute_query execute_many repr utcnow utcnow_timestamp json_dumps).
Local Abbreviation row_of := (validation_row repr utcnow utcnow_timestamp json_dumps).

Lemma validation_row_step insert_data (result : dict) text :
  json_dumps (VDict result) = Return text ->
  row_of insert_data result
  = Return (insert_data ++ [[ VStr (validation_id repr utcnow_timestamp result);
                              get result "table" (VStr "");
                              get result "check_type" (VStr "");
                              result_status result; VStr text; utcnow ]]).
Proof. intros H. unfold validation_row. by rewrite H. Qed.

Lemma validation_rows results texts : forall insert_data,
  Forall2 (fun result text => json_dumps (VDict result) = Return text) results texts ->
  exists rows,
    for_each row_of results insert_data = Return (insert_data ++ rows) /\
    Forall2 (fun (result : dict) row =>
               length row = 6 /\
               column 1 row = Some (get result "table" (VStr "")) /\
               column 2 row = Some (get result "check_type" (VStr "")) /\
               column 3 row = Some (result_status result) /\
               column 5 row = Some utcnow) results rows /\
    Forall2 (fun text row => column 4 row = Some (VStr text)) texts rows.
Proof.
  intros insert_data Hall. revert insert_data.
  induction Hall as [|result text results texts Hjson _ IH]; intros insert_data.
  - exists []. rewrite app_nil_r. by repeat split.
  - cbn [for_each]. rewrite (validation_row_step _ _ _ Hjson), bind_Return.
    destruct (IH (insert_data ++ [[ VStr (validation_id repr utcnow_timestamp result);
                                    get result "table" (VStr "");
                                    get result "check_type" (VStr "");
                                    result_status result; VStr text; utcnow ]]))
      as (rows & Hrun & Hrows & Htexts).
    eexists (_ :: rows). rewrite Hrun, <- app_assoc. split; [reflexivity|].
    split; constructor; done.
Qed.

Lemma validation_rows_fail results (result : dict) : forall insert_data,
  result ∈ results -> raises (json_dumps (VDict result)) ->
  raises (for_each row_of results insert_data).
Proof.
  intros insert_data Hin Hjson. revert insert_data.
  apply (for_each_raises row_of result results Hin).
  intros s. unfold validation_row. by apply raises_bind_l.
Qed.

(** X9. [save_validation_results] first executes the CREATE TABLE
    statement; when that raises, or when a result cannot be encoded as
    JSON, the method raises and nothing is inserted.  Otherwise it hands one
    batch to [execute_many], also for an empty list, with one six-field
    tuple per result, in order, whose table, check type and status are those
    of the result, read as [generate_dq_report] reads them: a result without
    table or check type is stored with the empty text. *)
Theorem save_validation_results_batch results output_table log :
  let ddl := VStr (validation_ddl output_table) in
  let insert := validation_insert output_table in
  (forall e, execute_query ddl = Raise e ->
     save results output_table log = (Raise e, log ++ [ExecuteQuery ddl])) /\
  (forall created (result : dict),
     execute_query ddl = Return created ->
     result ∈ results -> raises (json_dumps (VDict result)) ->
     exists e, save results output_table log = (Raise e, log ++ [ExecuteQuery ddl])) /\
  (forall created texts,
     execute_query ddl = Return created ->
     Forall2 (fun result text => json_dumps (VDict result) = Return text) results texts ->
     exists data,
       save results output_table log
       = (execute_many insert data, log ++ [ExecuteQuery ddl; ExecuteMany insert data]) /\
       length data = length results /\
       Forall (fun row => length row = 6) data /\
       column 1 <$> data = (fun result => Some (get result "table" (VStr ""))) <$> results /\
       column 2 <$> data = (fun result => Some (get result "check_type" (VStr ""))) <$> results /\
       column 3 <$> data = (fun result => Some (result_status result)) <$> results /\
       column 4 <$> data = (fun text => Some (VStr text)) <$> texts).
Proof.
  intros ddl insert. unfold save_validation_results, create_table_if_not_exists, run_query.
  fold ddl insert. split; [|split].
  - intros e He. rewrite !bind_run, He. reflexivity.
  - intros created result Hddl Hin Hjson.
    destruct (validation_rows_fail results result [] Hin Hjson) as (e & He).
    exists e. rewrite !bind_run, Hddl. simpl. rewrite bind_lift, He. reflexivity.
  - intros created texts Hddl Hall.
    destruct (validation_rows results texts [] Hall) as (data & Hrun & Hrows & Htexts).
    exists data. rewrite !bind_run, Hddl. simpl. rewrite bind_lift, Hrun. simpl.
    unfold run_many. rewrite <- app_assoc. split; [reflexivity|].
    split; [symmetry; by eapply Forall2_length|].
    split.
    { clear -Hrows. induction Hrows as [|???? (H & _)]; constructor; done. }
    repeat split.
    + clear -Hrows. induction Hrows as [|???? (_ & H & _)]; [done|]. rewrite !fmap_cons. by f_equal.
    + clear -Hrows. induction Hrows as [|???? (_ & _ & H & _)]; [done|].
      rewrite !fmap_cons. by f_equal.
    + clear -Hrows. induction Hrows as [|???? (_ & _ & _ & H & _)]; [done|].
      rewrite !fmap_cons. by f_equal.
    + clear -Htexts. induction Htexts as [|???? H]; [done|]. rewrite !fmap_cons. by f_equal.
Qed.

End Save.

Lemma save_validation_results_batch_witness :
  let results := [ error_result "UNIQUENESS" "DB.S.U" (DriverError "boom");
                   ({[ "table" := VStr "DB.S.T"; "overall_status" := VStr "PASSED" ]} : dict) ] in
  (exists e,
     save_validation_results empty_warehouse accepting sample_repr sample_now sample_timestamp rejecting_json
       results "DQ" []
     = (Raise e, [ExecuteQuery (VStr (validation_ddl "DQ"))])) /\
  (exists data,
     save_validation_results empty_warehouse accepting sample_repr sample_now sample_timestamp constant_json
       results "DQ" []
     = (Return (), [ExecuteQuery (VStr (validation_ddl "DQ"));
                    ExecuteMany (validation_insert "DQ") data]) /\
     column 2 <$> data = [Some (VStr "UNIQUENESS"); Some (VStr "")] /\
     column 3 <$> data = [Some (VStr "ERROR"); Some (VStr "PASSED")]).
Proof.
  intros results. split.
  - destruct (save_validation_results_batch empty_warehouse accepting sample_repr sample_now sample_timestamp
                rejecting_json results "DQ" []) as (_ & Hjson & _).
    apply (Hjson [] (error_result "UNIQUENESS" "DB.S.U" (DriverError "boom"))).
    + reflexivity.
    + apply list_elem_of_here.
    + by eexists.
  - destruct (save_validation_results_batch empty_warehouse accepting sample_repr sample_now sample_timestamp
                constant_json results "DQ" []) as (_ & _ & Hsave).
    destruct (Hsave [] ["{}"; "{}"]) as (data & Hrun & _ & _ & _ & Htype & Hstatus & _).
    + reflexivity.
    + repeat constructor.
    + exists data. split; [exact Hrun|]. split; [exact Htype|exact Hstatus].
Defined.

End ValidationProofs.

(* ===================================================================== *)
(** * The lineage tracker: targets and query types *)
(* ===================================================================== *)

Module TargetTextProofs.

Import PyStr Lineage LineageSpec QueryTextProofs.

Open Scope string_scope.

(** [t] is what the piece [part] contributes as a target. *)
Local Abbreviation first_token part t :=
  (exists token rest, split_ws (strip part) = token :: rest /\ t = strip_chars "(),;" token).

Local Abbreviation first_token_create part t :=
  (exists token rest,
     split_ws (strip part) = token :: rest /\ (token ∉ ["IF"; "OR"]) /\
     t = strip_chars "(),;" token).

Lemma target_part_elem targets part t :
  t ∈ target_part targets part <-> t ∈ targets \/ first_token part t.
Proof.
  unfold target_part. destruct (split_ws (strip part)) as [|token rest].
  - split; [auto|]. intros [H|(? & ? & H & _)]; [done|discriminate].
  - rewrite elem_of_union, elem_of_singleton. split.
    + intros [->|H]; [right; by eauto|by left].
    + intros [H|(tok & rest' & [= <- <-] & ->)]; [by right|by left].
Qed.

Lemma target_part_create_elem targets part t :
  t ∈ target_part_create targets part <-> t ∈ targets \/ first_token_create part t.
Proof.
  unfold target_part_create. destruct (split_ws (strip part)) as [|token rest].
  - split; [auto|]. intros [H|(? & ? & H & _)]; [done|discriminate].
  - destruct (bool_decide (token ∉ ["IF"; "OR"])) eqn:E.
    + apply bool_decide_eq_true in E. rewrite elem_of_union, elem_of_singleton. split.
      * intros [->|H]; [right; by eauto|by left].
      * intros [H|(tok & rest' & [= <- <-] & _ & ->)]; [by right|by left].
    + apply bool_decide_eq_false in E. split; [auto|].
      intros [H|(tok & rest' & [= <- <-] & Hn & _)]; [done|contradiction].
Qed.

Lemma foldl_elem (step : gset string -> string -> gset string) (P : string -> string -> Prop) :
  (forall targets part t, t ∈ step targets part <-> t ∈ targets \/ P part t) ->
  forall parts targets t,
    t ∈ foldl step targets parts <-> t ∈ targets \/ exists part, part ∈ parts /\ P part t.
Proof.
  intros Hstep parts. induction parts as [|part parts IH]; intros targets t; simpl.
  - split; [auto|]. intros [H|(? & H & _)]; [done|by apply elem_of_nil in H].
  - rewrite IH, Hstep. split.
    + intros [[H|H]|(p & Hin & Hp)]; [by left|right|right].
      * exists part. split; [apply list_elem_of_here|done].
      * exists p. split; [by apply list_elem_of_further|done].
    + intros [H|(p & Hin & Hp)]; [by left; left|].
      apply elem_of_cons in Hin as [->|Hin]; [by left; right|right; by eauto].
Qed.

Lemma keyword_block (step : gset string -> string -> gset string)
    (P : string -> string -> Prop) keyword query_text targets t :
  (forall targets part t, t ∈ step targets part <-> t ∈ targets \/ P part t) ->
  t ∈ (if contains keyword query_text
       then foldl step targets (drop 1 (split keyword query_text)) else targets)
  <-> t ∈ targets \/ exists part, part ∈ drop 1 (split keyword query_text) /\ P part t.
Proof.
  intros Hstep. destruct (contains keyword query_text) eqn:E.
  - by apply foldl_elem.
  - split; [auto|]. intros [H|(part & Hin & _)]; [done|].
    apply split_contains in Hin. congruence.
Qed.

(** A text that contains [a ++ b] contains [a]. *)
Lemma startswith_prefix a b s : startswith (a ++ b) s = true -> startswith a s = true.
Proof.
  revert s. induction a as [|x a IH]; intros s; [done|].
  destruct s as [|y s]; [done|]. simpl.
  intros H. apply andb_true_iff in H as [-> H]. simpl. by apply IH.
Qed.

Lemma contains_prefix a b s : contains (a ++ b) s = true -> contains a s = true.
Proof.
  induction s as [|c s IH]; cbn [contains]; intros H.
  - apply orb_true_iff in H as [H|H]; [|done].
    by rewrite (startswith_prefix a b "" H).
  - apply orb_true_iff in H as [H|H].
    + by rewrite (startswith_prefix a b _ H).
    + rewrite (IH H). apply orb_true_r.
Qed.

(** X10. A text [t] is an extracted target exactly when it is the first
    whitespace-delimited token, stripped of ['(' ')' ',' ';'], of a piece
    that follows INSERT INTO or MERGE INTO in the query text, or of a piece
    that follows CREATE TABLE and does not start with the token IF or OR.
    Unlike a source, a target needs no dot.  Every target stands right after
    an occurrence of one of the three phrases, and a text that contains none
    of them has no target. *)
Theorem target_tables_characterised query_text t :
  (t ∈ _extract_target_tables query_text <->
   (exists part token rest,
      part ∈ drop 1 (split "INSERT INTO" query_text) /\
      split_ws (strip part) = token :: rest /\ t = strip_chars "(),;" token) \/
   (exists part token rest,
      part ∈ drop 1 (split "CREATE TABLE" query_text) /\
      split_ws (strip part) = token :: rest /\ (token ∉ ["IF"; "OR"]) /\
      t = strip_chars "(),;" token) \/
   (exists part token rest,
      part ∈ drop 1 (split "MERGE INTO" query_text) /\
      split_ws (strip part) = token :: rest /\ t = strip_chars "(),;" token)) /\
  (t ∈ _extract_target_tables query_text ->
   exists keyword pre part post token rest,
     keyword ∈ ["INSERT INTO"; "CREATE TABLE"; "MERGE INTO"] /\
     contains keyword query_text = true /\
     query_text = pre ++ keyword ++ part ++ post /\
     split_ws (strip part) = token :: rest /\
     t = strip_chars "(),;" token) /\
  (contains "INSERT INTO" query_text = false ->
   contains "CREATE TABLE" query_text = false ->
   contains "MERGE INTO" query_text = false ->
   _extract_target_tables query_text = ∅).
Proof.
  assert (Hiff : t ∈ _extract_target_tables query_text <->
            (exists part, part ∈ drop 1 (split "INSERT INTO" query_text) /\ first_token part t) \/
            (exists part, part ∈ drop 1 (split "CREATE TABLE" query_text)
                          /\ first_token_create part t) \/
            (exists part, part ∈ drop 1 (split "MERGE INTO" query_text) /\ first_token part t)).
  { unfold _extract_target_tables. cbv zeta.
    rewrite (keyword_block target_part (fun part t => first_token part t))
      by apply target_part_elem.
    rewrite (keyword_block target_part_create (fun part t => first_token_create part t))
      by apply target_part_create_elem.
    rewrite (keyword_block target_part (fun part t => first_token part t))
      by apply target_part_elem.
    rewrite elem_of_empty. tauto. }
  split; [|split].
  - rewrite Hiff. split.
    + intros [(p & Hp & tok & rest & H1 & H2)|[(p & Hp & tok & rest & H1 & H2 & H3)
                                               |(p & Hp & tok & rest & H1 & H2)]];
        [left|right; left|right; right]; by exists p, tok, rest.
    + intros [(p & tok & rest & Hp & H1 & H2)|[(p & tok & rest & Hp & H1 & H2 & H3)
                                               |(p & tok & rest & Hp & H1 & H2)]];
        [left|right; left|right; right]; exists p; eauto 6.
  - intros Hin. apply Hiff in Hin.
    assert (Hocc : forall a sep part, part ∈ drop 1 (split (String a sep) query_text) ->
              contains (String a sep) query_text = true /\
              exists pre post, query_text = pre ++ String a sep ++ part ++ post).
    { intros a sep part Hp. split; [by eapply split_contains|].
      by apply (split_follows a sep (String.length query_text)). }
    destruct Hin as [(p & Hp & tok & rest & H1 & H2)|[(p & Hp & tok & rest & H1 & _ & H2)
                                                      |(p & Hp & tok & rest & H1 & H2)]];
      destruct (Hocc _ _ _ Hp) as (Hc & pre & post & Hdec);
      [exists "INSERT INTO"|exists "CREATE TABLE"|exists "MERGE INTO"];
      exists pre, p, post, tok, rest;
      (split; [by repeat first [apply list_elem_of_here|apply list_elem_of_further]|]); done.
  - intros H1 H2 H3. unfold _extract_target_tables. by rewrite H1, H2, H3.
Qed.

Lemma target_tables_characterised_witness :
  "STAGE" ∈ _extract_target_tables "INSERT INTO STAGE SELECT * FROM RAW.S.T" /\
  exists keyword pre part post token rest,
    keyword ∈ ["INSERT INTO"; "CREATE TABLE"; "MERGE INTO"] /\
    contains keyword "INSERT INTO STAGE SELECT * FROM RAW.S.T" = true /\
    "INSERT INTO STAGE SELECT * FROM RAW.S.T" = pre ++ keyword ++ part ++ post /\
    split_ws (strip part) = token :: rest /\
    "STAGE" = strip_chars "(),;" token.
Proof.
  assert (Hin : "STAGE" ∈ _extract_target_tables "INSERT INTO STAGE SELECT * FROM RAW.S.T").
  { vm_compute. reflexivity. }
  split; [exact Hin|].
  apply (target_tables_characterised "INSERT INTO STAGE SELECT * FROM RAW.S.T" "STAGE").
  exact Hin.
Defined.

Lemma target_query_type query_text t :
  t ∈ _extract_target_tables query_text ->
  _determine_query_type query_text ∈ ["INSERT"; "CREATE_TABLE_AS_SELECT"; "MERGE"].
Proof.
  intros Hin. unfold _determine_query_type.
  assert (Hsome : contains "INSERT INTO" query_text = true
                  \/ contains "CREATE TABLE" query_text = true
                  \/ contains "MERGE INTO" query_text = true).
  { destruct (contains "INSERT INTO" query_text) eqn:E1; [by left|].
    destruct (contains "CREATE TABLE" query_text) eqn:E2; [by right; left|].
    destruct (contains "MERGE INTO" query_text) eqn:E3; [by right; right|].
    exfalso. unfold _extract_target_tables in Hin. rewrite E1, E2, E3 in Hin.
    by apply not_elem_of_empty in Hin. }
  destruct Hsome as [H|[H|H]].
  - rewrite (contains_prefix "INSERT" " INTO" _ H). set_solver.
  - rewrite H. destruct (contains "INSERT" query_text); set_solver.
  - rewrite (contains_prefix "MERGE" " INTO" _ H).
    destruct (contains "INSERT" query_text), (contains "CREATE TABLE" query_text);
      set_solver.
Qed.

Lemma source_has_dot query_text t :
  t ∈ _extract_source_tables query_text -> contains "." t = true.
Proof.
  unfold _extract_source_tables. rewrite foldl_source_keyword.
  intros [H|(keyword & part & _ & _ & token & rest & _ & _ & H)]; [|done].
  by apply not_elem_of_empty in H.
Qed.

(** X11. The query type follows from the first of INSERT, CREATE TABLE,
    MERGE and UPDATE that occurs anywhere in the text: a MERGE statement
    with an INSERT clause is typed INSERT.  A text from which a target is
    extracted is never typed UPDATE or UNKNOWN, and one that contains
    INSERT INTO is typed INSERT. *)
Theorem query_type_of_targets query_text :
  _determine_query_type query_text
    ∈ ["INSERT"; "CREATE_TABLE_AS_SELECT"; "MERGE"; "UPDATE"; "UNKNOWN"] /\
  (contains "INSERT INTO" query_text = true -> _determine_query_type query_text = "INSERT") /\
  (contains "MERGE INTO" query_text = true -> contains "INSERT" query_text = true ->
   _determine_query_type query_text = "INSERT") /\
  (_determine_query_type query_text = "MERGE" ->
   contains "INSERT" query_text = false /\ contains "CREATE TABLE" query_text = false) /\
  (_determine_query_type query_text = "UNKNOWN" <->
   contains "INSERT" query_text = false /\ contains "CREATE TABLE" query_text = false /\
   contains "MERGE" query_text = false /\ contains "UPDATE" query_text = false) /\
  (forall t, t ∈ _extract_target_tables query_text ->
     _determine_query_type query_text ∈ ["INSERT"; "CREATE_TABLE_AS_SELECT"; "MERGE"]).
Proof.
  assert (Hinsert : contains "INSERT INTO" query_text = true ->
            contains "INSERT" query_text = true).
  { apply (contains_prefix "INSERT" " INTO"). }
  assert (Hmerge : contains "MERGE INTO" query_text = true ->
            contains "MERGE" query_text = true).
  { apply (contains_prefix "MERGE" " INTO"). }
  unfold _determine_query_type.
  split; [|split; [|split; [|split; [|split]]]].
  - destruct (contains "INSERT" query_text), (contains "CREATE TABLE" query_text),
      (contains "MERGE" query_text), (contains "UPDATE" query_text); set_solver.
  - intros H. by rewrite (Hinsert H).
  - intros _ H. by rewrite H.
  - destruct (contains "INSERT" query_text); [discriminate|].
    destruct (contains "CREATE TABLE" query_text); [discriminate|]. done.
  - destruct (contains "INSERT" query_text), (contains "CREATE TABLE" query_text),
      (contains "MERGE" query_text), (contains "UPDATE" query_text);
      split; try discriminate; try done; intros (? & ? & ? & ?); discriminate.
  - intros t Hin. by apply (target_query_type query_text t).
Qed.

Lemma query_type_of_targets_witness :
  _determine_query_type
    "MERGE INTO MART.S.T USING RAW.S.U ON A = B WHEN NOT MATCHED THEN INSERT (A) VALUES (B)"
  = "INSERT".
Proof.
  apply (query_type_of_targets
           "MERGE INTO MART.S.T USING RAW.S.U ON A = B WHEN NOT MATCHED THEN INSERT (A) VALUES (B)").
  - reflexivity.
  - reflexivity.
Defined.

End TargetTextProofs.

(* ===================================================================== *)
(** * The lineage tracker: what the graph holds *)
(* ===================================================================== *)

Module GraphProofs.

Import Nx NxSpec Lineage LineageSpec History HistorySpec PyFacts NxProofs LineageProofs.

Implicit Types (G : DiGraph) (u v x y n : string) (attr : dict).

Lemma has_node_add_edge G u v attr n :
  wf G ->
  has_node (add_edge G u v attr) n
  = bool_decide (u = n) || bool_decide (v = n) || has_node G n.
Proof.
  intros HG. unfold has_node.
  rewrite (wf_node _ (wf_add_edge G u v attr HG)), (wf_node _ HG).
  apply succ_add_edge_mem.
Qed.

Lemma edges_mono G u v attr x y :
  wf G -> (x, y) ∈ edges G -> (x, y) ∈ edges (add_edge G u v attr).
Proof. intros HG H. apply edges_add_edge; auto. Qed.

Lemma built_edge_ends G :
  built G ->
  (forall n, has_node G n = true <-> exists m, (n, m) ∈ edges G \/ (m, n) ∈ edges G) /\
  (forall x y, (x, y) ∈ edges G -> has_node G x = true /\ has_node G y = true).
Proof.
  intros HG.
  assert (Hends : forall n, has_node G n = true
            <-> exists m, (n, m) ∈ edges G \/ (m, n) ∈ edges G).
  { induction HG as [|G u v attr HG IH]; intros n.
    - split; [discriminate|]. intros (m & [H|H]); by apply elem_of_nil in H.
    - pose proof (built_wf _ HG) as Hwf.
      rewrite has_node_add_edge by done. rewrite !orb_true_iff, !bool_decide_eq_true, IH.
      split.
      + intros [[-> | ->]|(m & [H|H])].
        * exists v. left. apply edges_add_edge; auto.
        * exists u. right. apply edges_add_edge; auto.
        * exists m. left. by apply edges_mono.
        * exists m. right. by apply edges_mono.
      + intros (m & [H|H]); apply edges_add_edge in H as [[= -> ->]|H]; eauto. }
  split; [exact Hends|]. intros x y H. split; apply Hends; eauto.
Qed.

(** X12. In a graph that the tracker has built, a table is present exactly
    when it is an end of some edge: no table stands alone, so a table that
    the lookups know has at least one direct ancestor or descendant.  Both
    ends of every edge are present, and [add_edge] never removes a table or
    an edge. *)
Theorem tables_are_edge_ends G :
  built G ->
  (forall n, has_node G n = true <-> exists m, (n, m) ∈ edges G \/ (m, n) ∈ edges G) /\
  (forall x y, (x, y) ∈ edges G -> has_node G x = true /\ has_node G y = true) /\
  (forall u v attr n, has_node G n = true -> has_node (add_edge G u v attr) n = true) /\
  (forall u v attr x y, (x, y) ∈ edges G -> (x, y) ∈ edges (add_edge G u v attr)) /\
  (forall n, has_node G n = true ->
     exists ancestors descendants,
       get_upstream_lineage G n default_max_depth
         = Return (lineage_record "ancestors" "DIRECT_UPSTREAM" n ancestors) /\
       get_downstream_lineage G n default_max_depth
         = Return (lineage_record "descendants" "DIRECT_DOWNSTREAM" n descendants) /\
       (ancestors <> [] \/ descendants <> [])).
Proof.
  intros HG. destruct (built_edge_ends G HG) as [Hends Hedges].
  pose proof (built_wf _ HG) as Hwf.
  split; [exact Hends|]. split; [exact Hedges|]. split; [|split].
  - intros u v attr n Hn. rewrite has_node_add_edge by done. rewrite Hn. apply orb_true_r.
  - intros u v attr x y. by apply edges_mono.
  - intros n Hn.
    exists (od_keys (inner (_pred G) n)), (od_keys (inner (_succ G) n)).
    split; [by apply upstream_present|]. split; [by apply downstream_present|].
    apply Hends in Hn as (m & [H|H]).
    + right. apply elem_of_edges in H; [|apply wf_nodup, Hwf].
      intros E. rewrite E in H. by apply elem_of_nil in H.
    + left. apply elem_of_edges in H; [|apply wf_nodup, Hwf].
      apply (wf_sym _ Hwf) in H.
      intros E. rewrite E in H. by apply elem_of_nil in H.
Qed.

Lemma tables_are_edge_ends_witness :
  exists m, ("STG.S.B", m) ∈ edges chain \/ (m, "STG.S.B") ∈ edges chain.
Proof.
  apply (tables_are_edge_ends chain).
  - unfold chain. repeat constructor.
  - reflexivity.
Defined.

(** ** extract_table_dependencies, then the lookups *)

Section Dependencies.

Variable execute_query : pyval -> outcome (list dict).
Variable utcnow_isoformat : string.
Variable repr : pyval -> string.

Local Abbreviation row_edge := (dependency_row utcnow_isoformat repr).
Local Abbreviation extract := (extract_table_dependencies execute_query utcnow_isoformat repr).

Lemma dependency_rows_built rows : forall dependencies G,
  built G -> built (foldl row_edge (dependencies, G) rows).2.
Proof.
  induction rows as [|dep rows IH]; intros dependencies G HG; simpl; [done|].
  apply IH. by constructor.
Qed.

Lemma dependency_rows_length rows : forall dependencies G,
  length (foldl row_edge (dependencies, G) rows).1 = length dependencies + length rows.
Proof.
  induction rows as [|dep rows IH]; intros dependencies G; simpl; [lia|].
  rewrite IH, length_app. simpl. lia.
Qed.

Lemma linked_edge G x y : wf G -> linked G x y -> (x, y) ∈ edges G.
Proof.
  intros HG (_ & _ & H). apply elem_of_edges; [apply wf_nodup, HG|].
  by apply od_mem_keys.
Qed.

Lemma edge_linked G x y : built G -> (x, y) ∈ edges G -> linked G x y.
Proof.
  intros HG H. pose proof (built_wf _ HG) as Hwf.
  assert (Hx : has_node G x = true /\ has_node G y = true).
  { by apply (built_edge_ends G HG). }
  unfold has_node in Hx. rewrite !(wf_node _ Hwf) in Hx. destruct Hx as [Hx Hy].
  split; [done|]. split; [done|].
  apply od_mem_keys. by apply elem_of_edges in H; [|apply wf_nodup].
Qed.

(** X13. A successful [extract_table_dependencies] returns one record per
    row of the catalog query and leaves a graph in which the lookups find
    every row: the row's referenced object is listed upstream of its
    table, and the table downstream of the referenced object.  Nothing the
    graph held before is lost.  When the query raises, the exception is
    re-raised and the graph is left as it was. *)
Theorem dependencies_are_looked_up G database_name schema_name :
  built G ->
  let query := VStr (dependencies_query database_name schema_name) in
  let run := extract G database_name schema_name in
  (forall e, execute_query query = Raise e -> run = (Raise e, G)) /\
  (forall rows, execute_query query = Return rows ->
     exists dependencies,
       run.1 = Return dependencies /\
       length dependencies = length rows /\
       built run.2 /\
       (forall x y, (x, y) ∈ edges G -> (x, y) ∈ edges run.2) /\
       (forall n, has_node G n = true -> has_node run.2 n = true) /\
       (forall dep max_depth, dep ∈ rows ->
          exists ancestors descendants,
            get_upstream_lineage run.2 (dependency_target repr dep) max_depth
              = Return (lineage_record "ancestors" "DIRECT_UPSTREAM"
                          (dependency_target repr dep) ancestors) /\
            dependency_source repr dep ∈ ancestors /\
            get_downstream_lineage run.2 (dependency_source repr dep) max_depth
              = Return (lineage_record "descendants" "DIRECT_DOWNSTREAM"
                          (dependency_source repr dep) descendants) /\
            dependency_target repr dep ∈ descendants)).
Proof.
  intros HG query run. unfold run, extract_table_dependencies. fold query. split.
  - intros e ->. reflexivity.
  - intros rows ->.
    destruct (foldl row_edge ([], G) rows) as [dependencies G'] eqn:Hfold. simpl.
    assert (HG' : built G').
    { change G' with (dependencies, G').2. rewrite <- Hfold. by apply dependency_rows_built. }
    pose proof (built_wf _ HG') as Hwf'. pose proof (built_wf _ HG) as Hwf.
    destruct (dependency_rows_linked utcnow_isoformat repr rows [] G) as [Hmono Hall].
    rewrite Hfold in Hmono, Hall. simpl in Hmono, Hall.
    exists dependencies. split; [done|]. split.
    { change dependencies with (dependencies, G').1. rewrite <- Hfold.
      by rewrite dependency_rows_length. }
    split; [done|]. split; [|split].
    + intros x y H. apply linked_edge; [done|]. by apply Hmono, edge_linked.
    + intros n Hn. unfold has_node in *. rewrite (wf_node _ Hwf') . rewrite (wf_node _ Hwf) in Hn.
      destruct (od_mem (_succ G') n) eqn:E; [done|].
      destruct (built_edge_ends G HG) as [Hends _].
      assert (Hn' : has_node G n = true) by (unfold has_node; by rewrite (wf_node _ Hwf)).
      apply Hends in Hn' as (m & [H|H]); apply (edge_linked _ _ _ HG), Hmono in H;
        destruct H as (H1 & H2 & _); congruence.
    + intros dep max_depth Hin. specialize (Hall dep Hin).
      pose proof (linked_edge _ _ _ Hwf' Hall) as Hedge.
      destruct Hall as (Hs & Ht & _).
      exists (od_keys (inner (_pred G') (dependency_target repr dep))),
        (od_keys (inner (_succ G') (dependency_source repr dep))).
      split; [apply upstream_present; [done|]; unfold has_node; by rewrite (wf_node _ Hwf')|].
      split; [apply (wf_sym _ Hwf'); by apply elem_of_edges in Hedge; [|apply wf_nodup]|].
      split; [apply downstream_present; [done|]; unfold has_node; by rewrite (wf_node _ Hwf')|].
      by apply elem_of_edges in Hedge; [|apply wf_nodup].
Qed.

End Dependencies.

Lemma dependencies_are_looked_up_witness :
  let run := extract_table_dependencies catalog_warehouse "2024-01-01T00:00:00" no_repr
               empty "PROD_DB" None in
  exists ancestors,
    get_upstream_lineage run.2 "MART.PUBLIC.ORDERS_V" default_max_depth
      = Return (lineage_record "ancestors" "DIRECT_UPSTREAM" "MART.PUBLIC.ORDERS_V" ancestors) /\
    "RAW.PUBLIC.ORDERS" ∈ ancestors.
Proof.
  intros run.
  destruct (dependencies_are_looked_up catalog_warehouse "2024-01-01T00:00:00" no_repr
              empty "PROD_DB" None built_empty) as [_ Hrows].
  destruct (Hrows [ {[ "DATABASE_NAME" := VStr "MART"; "SCHEMA_NAME" := VStr "PUBLIC";
                       "TABLE_NAME" := VStr "ORDERS_V";
                       "REFERENCED_DATABASE" := VStr "RAW";
                       "REFERENCED_SCHEMA" := VStr "PUBLIC";
                       "REFERENCED_OBJECT_NAME" := VStr "ORDERS";
                       "REFERENCED_OBJECT_DOMAIN" := VStr "TABLE" ]} ] eq_refl)
    as (dependencies & _ & _ & _ & _ & _ & Hlook).
  destruct (Hlook _ default_max_depth (list_elem_of_here _ _))
    as (ancestors & descendants & Hup & Hin & _).
  exists ancestors. split; [exact Hup|exact Hin].
Defined.

(** ** get_full_lineage *)

Section FullLineage.

Variable utcnow_isoformat : string.

Lemma upstream_returns G table_name max_depth :
  exists upstream, get_upstream_lineage G table_name max_depth = Return upstream.
Proof.
  unfold get_upstream_lineage. destruct (negb (has_node G table_name)); [by eexists|].
  apply try_except_returns.
Qed.

Lemma downstream_returns G table_name max_depth :
  exists downstream, get_downstream_lineage G table_name max_depth = Return downstream.
Proof.
  unfold get_downstream_lineage. destruct (negb (has_node G table_name)); [by eexists|].
  apply try_except_returns.
Qed.

(** X14. [get_full_lineage] never raises, whatever the graph: it returns a
    record with the table name and the results of the two lookups at the
    default depth.  For a table that is not in the graph both are the empty
    mapping; for a table of a graph that the tracker has built they list
    its direct ancestors and descendants. *)
Theorem full_lineage_record G table_name :
  (exists upstream downstream,
     get_upstream_lineage G table_name default_max_depth = Return upstream /\
     get_downstream_lineage G table_name default_max_depth = Return downstream /\
     get_full_lineage utcnow_isoformat G table_name
     = Return {[ "table" := VStr table_name;
                 "upstream" := VDict upstream;
                 "downstream" := VDict downstream;
                 "extracted_at" := VStr utcnow_isoformat ]}) /\
  (has_node G table_name = false ->
   get_full_lineage utcnow_isoformat G table_name
   = Return {[ "table" := VStr table_name;
               "upstream" := VDict ∅;
               "downstream" := VDict ∅;
               "extracted_at" := VStr utcnow_isoformat ]}) /\
  (built G -> has_node G table_name = true ->
   exists ancestors descendants,
     get_full_lineage utcnow_isoformat G table_name
     = Return {[ "table" := VStr table_name;
                 "upstream" := VDict (lineage_record "ancestors" "DIRECT_UPSTREAM"
                                        table_name ancestors);
                 "downstream" := VDict (lineage_record "descendants" "DIRECT_DOWNSTREAM"
                                          table_name descendants);
                 "extracted_at" := VStr utcnow_isoformat ]} /\
     (forall u, u ∈ ancestors <-> (u, table_name) ∈ edges G) /\
     (forall v, v ∈ descendants <-> (table_name, v) ∈ edges G)).
Proof.
  split; [|split].
  - destruct (upstream_returns G table_name default_max_depth) as (upstream & Hup).
    destruct (downstream_returns G table_name default_max_depth) as (downstream & Hdown).
    exists upstream, downstream. split; [done|]. split; [done|].
    unfold get_full_lineage. by rewrite Hup, Hdown.
  - intros Hn. unfold get_full_lineage, get_upstream_lineage, get_downstream_lineage.
    by rewrite Hn.
  - intros HG Hn. pose proof (built_wf _ HG) as Hwf.
    exists (od_keys (inner (_pred G) table_name)), (od_keys (inner (_succ G) table_name)).
    split; [|split].
    + unfold get_full_lineage.
      by rewrite (upstream_present G _ _ Hwf Hn), (downstream_present G _ _ Hwf Hn).
    + intros u. rewrite (wf_sym _ Hwf). symmetry. apply elem_of_edges, wf_nodup, Hwf.
    + intros v. symmetry. apply elem_of_edges, wf_nodup, Hwf.
Qed.

End FullLineage.

Lemma full_lineage_record_witness :
  get_full_lineage "2024-01-01T00:00:00" chain "unknown.table"
  = Return {[ "table" := VStr "unknown.table";
              "upstream" := VDict ∅;
              "downstream" := VDict ∅;
              "extracted_at" := VStr "2024-01-01T00:00:00" ]}.
Proof.
  apply (full_lineage_record "2024-01-01T00:00:00" chain "unknown.table").
  reflexivity.
Defined.

End GraphProofs.

(* ===================================================================== *)
(** * The lineage tracker: query history *)
(* ===================================================================== *)

Module HistoryProofs.

Import PyStr PyState Nx NxSpec Lineage LineageSpec History HistorySpec.
Import PyFacts StateFacts NxProofs GraphProofs.

Implicit Types (G : DiGraph) (attr : dict).

(** ** Adding the pairs of a statement *)

Lemma add_pairs_built G attr pairs : built G -> built (add_pairs G attr pairs).
Proof.
  revert G. induction pairs as [|p pairs IH]; intros G HG; [done|].
  apply IH. by constructor.
Qed.

Lemma add_pairs_edges G attr pairs x y :
  wf G ->
  (x, y) ∈ edges (add_pairs G attr pairs) <-> (x, y) ∈ pairs \/ (x, y) ∈ edges G.
Proof.
  revert G. induction pairs as [|[s t] pairs IH]; intros G HG.
  - split; [auto|]. intros [H|H]; [by apply elem_of_nil in H|done].
  - change (add_pairs G attr ((s, t) :: pairs))
      with (add_pairs (add_edge G s t attr) attr pairs).
    rewrite IH by (by apply wf_add_edge).
    rewrite edges_add_edge, elem_of_cons by done. tauto.
Qed.

Lemma add_pairs_app G attr pairs pairs' :
  add_pairs G attr (pairs ++ pairs') = add_pairs (add_pairs G attr pairs) attr pairs'.
Proof. apply foldl_app. Qed.

Section Loops.

Variable utcnow_isoformat : string.
Variable repr : pyval -> string.
Variable upper : string -> string.
Variable iterate : gset string -> list string.

Local Abbreviation lineage := (history_lineage utcnow_isoformat repr).
Local Abbreviation pair_step := (history_pair utcnow_isoformat repr).
Local Abbreviation record_step := (history_record utcnow_isoformat repr upper iterate).

Lemma sources_loop row query_text target sources : forall records G,
  st_for (pair_step row query_text target) sources (records, G)
  = (Return (),
     (records ++ ((fun source => lineage row query_text source target) <$> sources),
      add_pairs G (query_based row) ((fun source => (source, target)) <$> sources))).
Proof.
  induction sources as [|source sources IH]; intros records G; cbn [st_for].
  - by rewrite app_nil_r.
  - unfold st_bind. cbn [history_pair update]. rewrite IH, fmap_cons, <- app_assoc.
    reflexivity.
Qed.

Lemma targets_loop row query_text sources targets : forall records G,
  st_for (fun target => st_for (pair_step row query_text target) sources) targets
         (records, G)
  = (Return (),
     (records ++ ((fun p => lineage row query_text p.1 p.2)
                    <$> (target ← targets; source ← sources; [(source, target)])),
      add_pairs G (query_based row)
        (target ← targets; source ← sources; [(source, target)]))).
Proof.
  induction targets as [|target targets IH]; intros records G; cbn [st_for].
  - by rewrite app_nil_r.
  - unfold st_bind. rewrite sources_loop, IH.
    rewrite bind_cons, fmap_app, add_pairs_app, <- app_assoc.
    assert (Hsrc : (source ← sources; [(source, target)])
                   = (fun source => (source, target)) <$> sources).
    { clear. induction sources as [|s sources IH]; [done|].
      rewrite bind_cons, fmap_cons, IH. reflexivity. }
    rewrite Hsrc, <- list_fmap_compose. reflexivity.
Qed.

Lemma record_loop row text records G :
  query_text_is row text ->
  record_step row (records, G)
  = (Return (), (records ++ row_records utcnow_isoformat repr upper iterate row text,
                 row_graph upper iterate G row text)).
Proof.
  intros Htext. unfold history_record, upper_query_text. rewrite Htext.
  rewrite bind_lift_Return. apply targets_loop.
Qed.

Lemma record_fails row v records G :
  get row "QUERY_TEXT" (VStr "") = v -> (forall text, v <> VStr text) ->
  record_step row (records, G) = (Raise (no_upper v), (records, G)).
Proof.
  intros Hv Hne. unfold history_record, upper_query_text. rewrite Hv.
  destruct v; try reflexivity. by destruct (Hne s).
Qed.

Lemma rows_loop rows texts : forall records G,
  Forall2 query_text_is rows texts ->
  st_for record_step rows (records, G)
  = (Return (), (records ++ rows_records utcnow_isoformat repr upper iterate rows texts,
                 rows_graph upper iterate G rows texts)).
Proof.
  intros records G Hall. revert records G.
  induction Hall as [|row text rows texts Htext _ IH]; intros records G; cbn [st_for].
  - by rewrite app_nil_r.
  - unfold st_bind. rewrite (record_loop row text records G Htext), IH.
    unfold rows_records, rows_graph. cbn [zip_with concat zip foldl fst snd].
    by rewrite app_assoc.
Qed.

Lemma rows_graph_built G rows texts : built G -> built (rows_graph upper iterate G rows texts).
Proof.
  unfold rows_graph. generalize (zip rows texts). intros ps. revert G.
  induction ps as [|p ps IH]; intros G HG; [done|].
  apply IH. by apply add_pairs_built.
Qed.

Lemma rows_graph_edges G rows texts x y :
  built G ->
  (x, y) ∈ edges (rows_graph upper iterate G rows texts)
  <-> (x, y) ∈ edges G \/
      exists row text, (row, text) ∈ zip rows texts /\
                       (x, y) ∈ record_pairs iterate (upper text).
Proof.
  unfold rows_graph. generalize (zip rows texts). intros ps. revert G.
  induction ps as [|[row text] ps IH]; intros G HG; simpl.
  - split; [auto|]. intros [H|(? & ? & H & _)]; [done|by apply elem_of_nil in H].
  - rewrite IH by (by apply add_pairs_built). unfold row_graph at 1. simpl.
    rewrite add_pairs_edges by (by apply built_wf). split.
    + intros [[H|H]|(r & t & Hin & H)]; [right|by left|right].
      * exists row, text. split; [apply list_elem_of_here|done].
      * exists r, t. split; [by apply list_elem_of_further|done].
    + intros [H|(r & t & Hin & H)]; [by left; right|].
      apply elem_of_cons in Hin as [[= -> ->]|Hin]; [by left; left|right; eauto].
Qed.

End Loops.

(** ** extract_query_history_lineage *)

Section Extraction.

Variable execute_query : pyval -> outcome (list dict).
Variable utcnow_isoformat : string.
Variable repr : pyval -> string.
Variable isoformat_days_before : pyval -> outcome string.
Variable upper : string -> string.
Variable iterate : gset string -> list string.

(** A loop over a set visits the elements of the set. *)
Hypothesis iterate_elements : forall (X : gset string) x, x ∈ iterate X <-> x ∈ X.

Local Abbreviation extract :=
  (extract_query_history_lineage execute_query utcnow_isoformat repr isoformat_days_before
     upper iterate).

Lemma record_pairs_elem query_text source target :
  (source, target) ∈ record_pairs iterate query_text
  <-> source ∈ _extract_source_tables query_text /\
      target ∈ _extract_target_tables query_text.
Proof.
  unfold record_pairs. rewrite list_elem_of_bind. split.
  - intros (t & H & Ht). apply list_elem_of_bind in H as (s & H & Hs).
    apply list_elem_of_singleton in H as [= -> ->]. by rewrite <- !iterate_elements.
  - intros [Hs Ht]. exists target. split; [|by apply iterate_elements].
    apply list_elem_of_bind. exists source. split; [apply list_elem_of_here|].
    by apply iterate_elements.
Qed.

Lemma record_pairs_nil query_text :
  _extract_source_tables query_text = ∅ \/ _extract_target_tables query_text = ∅ ->
  record_pairs iterate query_text = [].
Proof.
  intros H. destruct (record_pairs iterate query_text) as [|[s t] ps] eqn:E; [done|].
  assert (Hin : (s, t) ∈ record_pairs iterate query_text) by (rewrite E; apply list_elem_of_here).
  apply record_pairs_elem in Hin as [Hs Ht]. destruct H as [H|H]; rewrite H in *; set_solver.
Qed.

Lemma zip_texts (rows : list dict) (texts : list string) text :
  length rows = length texts ->
  text ∈ texts <-> exists row, (row, text) ∈ zip rows texts.
Proof.
  revert texts. induction rows as [|row rows IH]; intros [|t texts] Hlen; try discriminate.
  - split; [intros H; by apply elem_of_nil in H|intros (? & H); by apply elem_of_nil in H].
  - simpl in Hlen. injection Hlen as Hlen. simpl. rewrite elem_of_cons, (IH texts Hlen). split.
    + intros [->|(r & H)]; [exists row; apply list_elem_of_here|].
      exists r. by apply list_elem_of_further.
    + intros (r & H). apply elem_of_cons in H as [[= -> ->]|H]; [by left|right; eauto].
Qed.

Lemma graph_after G rows texts x y :
  built G -> Forall2 query_text_is rows texts ->
  (x, y) ∈ edges (rows_graph upper iterate G rows texts)
  <-> (x, y) ∈ edges G \/
      exists text, text ∈ texts /\
        x ∈ _extract_source_tables (upper text) /\ y ∈ _extract_target_tables (upper text).
Proof.
  intros HG Hall. rewrite rows_graph_edges by done.
  apply Forall2_length in Hall. split.
  - intros [H|(row & text & Hin & H)]; [by left|right].
    exists text. split; [apply (zip_texts rows texts text Hall); eauto|].
    by apply record_pairs_elem.
  - intros [H|(text & Hin & Hs & Ht)]; [by left|right].
    apply (zip_texts rows texts text Hall) in Hin as (row & Hin).
    exists row, text. split; [done|]. by apply record_pairs_elem.
Qed.

(** X15. When every row of the query history carries a text,
    [extract_query_history_lineage] returns, row after row, one record for
    every pair of a source and a target that the two extractions find in
    the upper-cased text, and adds the edge of every such pair to the graph,
    which loses nothing.  Every record names a source that contains a dot,
    has an edge in the graph, and is typed INSERT, CREATE_TABLE_AS_SELECT or
    MERGE, never UPDATE or UNKNOWN.  Statements in which no dotted source or
    no target is found give no record and no edge. *)
Theorem history_lineage_extracted G days limit start rows texts :
  built G ->
  isoformat_days_before days = Return start ->
  execute_query (VStr (history_query repr start utcnow_isoformat limit)) = Return rows ->
  Forall2 query_text_is rows texts ->
  exists records G',
    extract G days limit = (Return records, G') /\
    records = rows_records utcnow_isoformat repr upper iterate rows texts /\
    built G' /\
    (forall x y,
       (x, y) ∈ edges G' <->
       (x, y) ∈ edges G \/
       exists text, text ∈ texts /\
         x ∈ _extract_source_tables (upper text) /\ y ∈ _extract_target_tables (upper text)) /\
    (forall record : dict, record ∈ records ->
       exists source target query_type,
         record !! "source_table" = Some (VStr source) /\
         record !! "target_table" = Some (VStr target) /\
         record !! "query_type" = Some (VStr query_type) /\
         contains "." source = true /\
         (source, target) ∈ edges G' /\
         query_type ∈ ["INSERT"; "CREATE_TABLE_AS_SELECT"; "MERGE"]) /\
    (Forall (fun text => _extract_source_tables (upper text) = ∅
                         \/ _extract_target_tables (upper text) = ∅) texts ->
     records = [] /\ forall x y, (x, y) ∈ edges G' <-> (x, y) ∈ edges G).
Proof.
  intros HG Hstart Hquery Hall.
  exists (rows_records utcnow_isoformat repr upper iterate rows texts),
    (rows_graph upper iterate G rows texts).
  split.
  { unfold extract_query_history_lineage. rewrite Hstart, Hquery.
    by rewrite (rows_loop utcnow_isoformat repr upper iterate rows texts [] G Hall). }
  split; [done|]. split; [by apply rows_graph_built|].
  split; [intros x y; by apply graph_after|]. split.
  - intros record Hin. unfold rows_records in Hin.
    apply list_elem_of_In, in_concat in Hin as (rs & Hrs & Hin).
    apply list_elem_of_In in Hrs, Hin.
    assert (Hzip : exists row text, (row, text) ∈ zip rows texts /\
              rs = row_records utcnow_isoformat repr upper iterate row text).
    { clear -Hrs. revert texts Hrs. induction rows as [|row rows IH]; intros [|t texts] H;
        try (by apply elem_of_nil in H).
      cbn [zip_with] in H. apply elem_of_cons in H as [->|H].
      - exists row, t. split; [apply list_elem_of_here|done].
      - destruct (IH _ H) as (r & t' & Hin & ->). exists r, t'.
        split; [by apply list_elem_of_further|done]. }
    destruct Hzip as (row & text & Hzip & ->).
    apply list_elem_of_fmap in Hin as ([source target] & -> & Hpair).
    exists source, target, (_determine_query_type (upper text)).
    unfold history_lineage. simplify_map_eq. do 3 (split; [done|]).
    pose proof Hpair as Hpair'. apply record_pairs_elem in Hpair' as [Hs Ht].
    split; [by apply (TargetTextProofs.source_has_dot (upper text))|]. split.
    + apply rows_graph_edges; [done|]. right. eauto.
    + by apply (TargetTextProofs.target_query_type (upper text) target).
  - intros Hnone.
    assert (Hrecords : rows_records utcnow_isoformat repr upper iterate rows texts = []).
    { unfold rows_records. clear -Hall Hnone iterate_elements.
      induction Hall as [|row text rows texts _ _ IH]; [done|].
      apply list.Forall_cons in Hnone as [Hnone Hrest]. cbn [zip_with concat].
      rewrite (IH Hrest), app_nil_r. unfold row_records.
      by rewrite (record_pairs_nil _ Hnone). }
    split; [done|]. intros x y. rewrite graph_after by done. split; [|auto].
    intros [H|(text & Hin & Hs & Ht)]; [done|].
    rewrite list.Forall_forall in Hnone. destruct (Hnone text Hin) as [H|H]; rewrite H in *; set_solver.
Qed.

(** X16. [extract_query_history_lineage] re-raises, with the graph as it
    was, when the time window or the query raises.  When a row of the
    history carries no text (NULL, or any value that is not a [str]) the
    call raises an AttributeError at that row and returns no record, but the
    edges of the rows before it stay in the graph. *)
Theorem history_lineage_aborts G days limit :
  built G ->
  (forall e, isoformat_days_before days = Raise e -> extract G days limit = (Raise e, G)) /\
  (forall start e,
     isoformat_days_before days = Return start ->
     execute_query (VStr (history_query repr start utcnow_isoformat limit)) = Raise e ->
     extract G days limit = (Raise e, G)) /\
  (forall start rows texts row rest v,
     isoformat_days_before days = Return start ->
     execute_query (VStr (history_query repr start utcnow_isoformat limit))
       = Return (rows ++ row :: rest) ->
     Forall2 query_text_is rows texts ->
     get row "QUERY_TEXT" (VStr "") = v -> (forall text, v <> VStr text) ->
     exists G',
       extract G days limit = (Raise (no_upper v), G') /\
       built G' /\
       forall x y,
         (x, y) ∈ edges G' <->
         (x, y) ∈ edges G \/
         exists text, text ∈ texts /\
           x ∈ _extract_source_tables (upper text) /\
           y ∈ _extract_target_tables (upper text)).
Proof.
  intros HG. unfold extract_query_history_lineage. split; [|split].
  - by intros e ->.
  - by intros start e -> ->.
  - intros start rows texts row rest v -> -> Hall Hv Hne.
    exists (rows_graph upper iterate G rows texts).
    split; [|split; [by apply rows_graph_built|intros x y; by apply graph_after]].
    rewrite st_for_app.
    rewrite (rows_loop utcnow_isoformat repr upper iterate rows texts [] G Hall).
    cbn [st_for]. unfold st_bind.
    by rewrite (record_fails utcnow_isoformat repr upper iterate row v _ _ Hv Hne).
Qed.

End Extraction.

(** What the two extractions find in the sample statements. *)
Lemma loading_t_tables :
  _extract_source_tables
    (ascii_upper "insert into mart.s.t select * from raw.s.a join raw.s.b on x")
  = {[ "RAW.S.A"; "RAW.S.B" ]} /\
  _extract_target_tables
    (ascii_upper "insert into mart.s.t select * from raw.s.a join raw.s.b on x")
  = {[ "MART.S.T" ]}.
Proof. split; vm_compute; reflexivity. Qed.

Lemma loading_u_tables :
  _extract_source_tables (ascii_upper "insert into mart.s.u select * from raw.s.a")
  = {[ "RAW.S.A" ]} /\
  _extract_target_tables (ascii_upper "insert into mart.s.u select * from raw.s.a")
  = {[ "MART.S.U" ]}.
Proof. split; vm_compute; reflexivity. Qed.

Lemma history_lineage_extracted_witness :
  exists records G',
    sample_history [loading_t; loading_u] empty = (Return records, G') /\
    length records = 3 /\
    forall x y,
      (x, y) ∈ edges G' <->
      (x, y) ∈ [("RAW.S.A", "MART.S.T"); ("RAW.S.B", "MART.S.T"); ("RAW.S.A", "MART.S.U")].
Proof.
  destruct (history_lineage_extracted (history_warehouse [loading_t; loading_u])
              "2024-01-01T00:00:00" no_repr week_before ascii_upper elements
              (fun X x => elem_of_elements X x) empty default_days default_limit
              "2023-12-25T00:00:00" [loading_t; loading_u]
              [ "insert into mart.s.t select * from raw.s.a join raw.s.b on x";
                "insert into mart.s.u select * from raw.s.a" ])
    as (records & G' & Hrun & Hrecords & _ & Hedges & _).
  - constructor.
  - reflexivity.
  - vm_compute. reflexivity.
  - repeat constructor.
  - exists records, G'. split; [exact Hrun|]. clear Hrun. split.
    + rewrite Hrecords. vm_compute. reflexivity.
    + clear Hrecords. intros x y. rewrite Hedges. clear Hedges. split.
      * intros [H|(text & Hin & Hs & Ht)]; [by apply elem_of_nil in H|].
        apply elem_of_cons in Hin as [->|Hin].
        { rewrite (proj1 loading_t_tables) in Hs. rewrite (proj2 loading_t_tables) in Ht.
          apply elem_of_singleton in Ht as ->.
          apply elem_of_union in Hs as [Hs|Hs]; apply elem_of_singleton in Hs as ->.
          - apply list_elem_of_here.
          - apply list_elem_of_further, list_elem_of_here. }
        apply list_elem_of_singleton in Hin as ->.
        rewrite (proj1 loading_u_tables) in Hs. rewrite (proj2 loading_u_tables) in Ht.
        apply elem_of_singleton in Ht as ->. apply elem_of_singleton in Hs as ->.
        do 2 apply list_elem_of_further. apply list_elem_of_here.
      * intros H. right.
        apply elem_of_cons in H as [[= -> ->]|H].
        { eexists. split; [apply list_elem_of_here|].
          rewrite (proj1 loading_t_tables), (proj2 loading_t_tables).
          split; [apply elem_of_union_l|]; by apply elem_of_singleton. }
        apply elem_of_cons in H as [[= -> ->]|H].
        { eexists. split; [apply list_elem_of_here|].
          rewrite (proj1 loading_t_tables), (proj2 loading_t_tables).
          split; [apply elem_of_union_r|]; by apply elem_of_singleton. }
        apply list_elem_of_singleton in H as [= -> ->].
        eexists. split; [apply list_elem_of_further, list_elem_of_here|].
        rewrite (proj1 loading_u_tables), (proj2 loading_u_tables).
        split; by apply elem_of_singleton.
Defined.

Lemma history_lineage_aborts_witness :
  exists G',
    sample_history [loading_t; without_text; loading_u] empty
      = (Raise (AttributeError "'NoneType' object has no attribute 'upper'"), G') /\
    ("RAW.S.A", "MART.S.T") ∈ edges G' /\
    ("RAW.S.A", "MART.S.U") ∉ edges G'.
Proof.
  destruct (history_lineage_aborts (history_warehouse [loading_t; without_text; loading_u])
              "2024-01-01T00:00:00" no_repr week_before ascii_upper elements
              (fun X x => elem_of_elements X x) empty default_days default_limit built_empty)
    as (_ & _ & Habort).
  destruct (Habort "2023-12-25T00:00:00" [loading_t]
              [ "insert into mart.s.t select * from raw.s.a join raw.s.b on x" ]
              without_text [loading_u] VNone)
    as (G' & Hrun & _ & Hedges).
  - reflexivity.
  - vm_compute. reflexivity.
  - repeat constructor.
  - reflexivity.
  - intros text H. discriminate H.
  - exists G'. split; [exact Hrun|]. clear Hrun Habort. split.
    + apply Hedges. right. eexists. split; [apply list_elem_of_here|].
      rewrite (proj1 loading_t_tables), (proj2 loading_t_tables).
      split; [apply elem_of_union_l|]; by apply elem_of_singleton.
    + intros H. apply Hedges in H as [H|(text & Hin & Hs & Ht)]; [by apply elem_of_nil in H|].
      apply list_elem_of_singleton in Hin as ->.
      rewrite (proj2 loading_t_tables) in Ht. by apply elem_of_singleton in Ht.
Defined.

End HistoryProofs.

(* ===================================================================== *)
(** * The lineage tracker: saving *)
(* ===================================================================== *)

Module SaveLineageProofs.

Import PyState Driver Nx NxSpec Lineage LineageSpec History HistorySpec ValidationSpec.
Import QualitySpec PyFacts StateFacts.

Section Save.

Variable execute_query : pyval -> outcome (list dict).
Variable execute_many : string -> list (list pyval) -> outcome ().
Variable utcnow_isoformat : string.
Variable repr : pyval -> string.
Variable utcnow : pyval.
Variable json_dumps : pyval -> outcome string.
Variable fromisoformat : pyval -> outcome pyval.

Local Abbreviation save :=
  (save_lineage_to_snowflake execute_query execute_many utcnow_isoformat utcnow json_dumps
     fromisoformat).
Local Abbreviation row_of := (lineage_row utcnow_isoformat utcnow json_dumps fromisoformat).

(** The time that is parsed for a record. *)
Local Abbreviation time_text record := (get record "execution_time" (VStr utcnow_isoformat)).

Lemma lineage_row_step insert_data (record : dict) time text :
  fromisoformat (time_text record) = Return time ->
  json_dumps (VDict record) = Return text ->
  row_of insert_data record
  = Return (insert_data ++ [[ get record "query_id" (VStr "");
                              get record "source_table" (VStr "");
                              get record "target_table" (VStr "");
                              get record "query_type" (VStr "UNKNOWN");
                              get record "query_id" (VStr "");
                              get record "user_name" (VStr "");
                              time; VStr text; utcnow ]]).
Proof. intros Ht Hj. unfold lineage_row. by rewrite Ht, bind_Return, Hj. Qed.

Lemma lineage_rows records encoded : forall insert_data,
  Forall2 (fun (record : dict) (p : pyval * string) =>
             fromisoformat (time_text record) = Return p.1 /\
             json_dumps (VDict record) = Return p.2) records encoded ->
  exists rows,
    for_each row_of records insert_data = Return (insert_data ++ rows) /\
    Forall2 (fun (record : dict) row =>
               take 6 row = [ get record "query_id" (VStr "");
                              get record "source_table" (VStr "");
                              get record "target_table" (VStr "");
                              get record "query_type" (VStr "UNKNOWN");
                              get record "query_id" (VStr "");
                              get record "user_name" (VStr "") ] /\
               length row = 9) records rows /\
    Forall2 (fun (p : pyval * string) row =>
               column 6 row = Some p.1 /\ column 7 row = Some (VStr p.2)) encoded rows.
Proof.
  intros insert_data Hall. revert insert_data.
  induction Hall as [|record [time text] records encoded [Ht Hj] _ IH]; intros insert_data.
  - exists []. rewrite app_nil_r. by repeat split.
  - cbn [for_each]. rewrite (lineage_row_step _ _ _ _ Ht Hj), bind_Return.
    match goal with |- context [for_each _ _ ?d] => destruct (IH d) as (rows & Hrun & Hr & He) end.
    eexists (_ :: rows). rewrite Hrun, <- app_assoc. split; [reflexivity|].
    split; constructor; done.
Qed.

Lemma lineage_rows_fail records (record : dict) : forall insert_data,
  record ∈ records ->
  raises (fromisoformat (time_text record)) \/ raises (json_dumps (VDict record)) ->
  raises (for_each row_of records insert_data).
Proof.
  intros insert_data Hin Hfail. revert insert_data.
  apply (for_each_raises row_of record records Hin).
  intros s. unfold lineage_row. destruct Hfail as [H|H].
  - by apply raises_bind_l.
  - apply raises_bind_r. intros time. by apply raises_bind_l.
Qed.

Lemma save_rows records output_table log created data :
  execute_query (VStr (lineage_ddl output_table)) = Return created ->
  for_each row_of records [] = Return data ->
  save records output_table log
  = (execute_many (lineage_insert output_table) data,
     log ++ [ExecuteQuery (VStr (lineage_ddl output_table));
             ExecuteMany (lineage_insert output_table) data]).
Proof.
  intros Hddl Hrun. unfold save_lineage_to_snowflake, create_table_if_not_exists, run_query.
  rewrite !bind_run, Hddl. simpl. rewrite bind_lift, Hrun. simpl.
  unfold run_many. by rewrite <- app_assoc.
Qed.

(** X17. [save_lineage_to_snowflake] executes the CREATE TABLE statement
    and then hands one batch of nine-field tuples, one per record and in
    order, to [execute_many].  A tuple takes its fields from the keys
    [query_id] (twice), [source_table], [target_table], [query_type] and
    [user_name] of the record, with the empty text, or UNKNOWN for the
    type, where a key is missing, and the parsed [execution_time], or the
    current time where there is none.  When the statement raises, or a time
    cannot be parsed, or a record cannot be encoded, the method raises and
    nothing is inserted. *)
Theorem save_lineage_batch records output_table log :
  let ddl := VStr (lineage_ddl output_table) in
  let insert := lineage_insert output_table in
  (forall e, execute_query ddl = Raise e ->
     save records output_table log = (Raise e, log ++ [ExecuteQuery ddl])) /\
  (forall created (record : dict),
     execute_query ddl = Return created -> record ∈ records ->
     raises (fromisoformat (time_text record)) \/ raises (json_dumps (VDict record)) ->
     exists e, save records output_table log = (Raise e, log ++ [ExecuteQuery ddl])) /\
  (forall created encoded,
     execute_query ddl = Return created ->
     Forall2 (fun (record : dict) (p : pyval * string) =>
                fromisoformat (time_text record) = Return p.1 /\
                json_dumps (VDict record) = Return p.2) records encoded ->
     exists data,
       save records output_table log
       = (execute_many insert data, log ++ [ExecuteQuery ddl; ExecuteMany insert data]) /\
       Forall2 (fun (record : dict) row =>
                  take 6 row = [ get record "query_id" (VStr "");
                                 get record "source_table" (VStr "");
                                 get record "target_table" (VStr "");
                                 get record "query_type" (VStr "UNKNOWN");
                                 get record "query_id" (VStr "");
                                 get record "user_name" (VStr "") ] /\
                  length row = 9) records data /\
       Forall2 (fun (p : pyval * string) row =>
                  column 6 row = Some p.1 /\ column 7 row = Some (VStr p.2)) encoded data).
Proof.
  intros ddl insert. split; [|split].
  - intros e He. unfold save_lineage_to_snowflake, create_table_if_not_exists, run_query.
    fold ddl. rewrite !bind_run, He. reflexivity.
  - intros created record Hddl Hin Hfail.
    destruct (lineage_rows_fail records record [] Hin Hfail) as (e & He).
    exists e. unfold save_lineage_to_snowflake, create_table_if_not_exists, run_query.
    fold ddl. rewrite !bind_run, Hddl. simpl. rewrite bind_lift, He. reflexivity.
  - intros created encoded Hddl Hall.
    destruct (lineage_rows records encoded [] Hall) as (data & Hrun & Hrows & Henc).
    exists data. split; [by apply (save_rows _ _ _ created)|done].
Qed.

(** ** Saving what extract_table_dependencies returned *)

Lemma dependency_records_keys rows : forall dependencies G,
  Forall (fun record : dict =>
            take 6 [ get record "query_id" (VStr ""); get record "source_table" (VStr "");
                     get record "target_table" (VStr "");
                     get record "query_type" (VStr "UNKNOWN");
                     get record "query_id" (VStr ""); get record "user_name" (VStr "") ]
            = [VStr ""; VStr ""; VStr ""; VStr "UNKNOWN"; VStr ""; VStr ""]
            /\ time_text record = VStr utcnow_isoformat) dependencies ->
  Forall (fun record : dict =>
            take 6 [ get record "query_id" (VStr ""); get record "source_table" (VStr "");
                     get record "target_table" (VStr "");
                     get record "query_type" (VStr "UNKNOWN");
                     get record "query_id" (VStr ""); get record "user_name" (VStr "") ]
            = [VStr ""; VStr ""; VStr ""; VStr "UNKNOWN"; VStr ""; VStr ""]
            /\ time_text record = VStr utcnow_isoformat)
         (foldl (dependency_row utcnow_isoformat repr) (dependencies, G) rows).1.
Proof.
  induction rows as [|dep rows IH]; intros dependencies G Hall; [done|].
  cbn [foldl]. unfold dependency_row at 2. apply IH.
  apply Forall_app. split; [done|]. constructor; [|constructor].
  unfold get. by simplify_map_eq.
Qed.

(** X18. The records that [extract_table_dependencies] returns carry none
    of the keys that [save_lineage_to_snowflake] reads.  Saved as the
    pipeline saves them, every declared dependency becomes a row whose
    lineage id, source table, target table, query id and user name are the
    empty text and whose lineage type is UNKNOWN, with the current time as
    its execution time: the rows do not say which object depends on
    which. *)
Theorem dependencies_saved_without_tables G database_name schema_name output_table log
    dependencies G' created now texts :
  extract_table_dependencies execute_query utcnow_isoformat repr G database_name schema_name
    = (Return dependencies, G') ->
  execute_query (VStr (lineage_ddl output_table)) = Return created ->
  fromisoformat (VStr utcnow_isoformat) = Return now ->
  Forall2 (fun (record : dict) text => json_dumps (VDict record) = Return text)
          dependencies texts ->
  exists data,
    save dependencies output_table log
    = (execute_many (lineage_insert output_table) data,
       log ++ [ExecuteQuery (VStr (lineage_ddl output_table));
               ExecuteMany (lineage_insert output_table) data]) /\
    length data = length dependencies /\
    Forall (fun row =>
              take 7 row = [VStr ""; VStr ""; VStr ""; VStr "UNKNOWN"; VStr ""; VStr ""; now])
           data.
Proof.
  intros Hextract Hddl Hnow Hjson.
  assert (Hkeys : Forall (fun record : dict =>
            take 6 [ get record "query_id" (VStr ""); get record "source_table" (VStr "");
                     get record "target_table" (VStr "");
                     get record "query_type" (VStr "UNKNOWN");
                     get record "query_id" (VStr ""); get record "user_name" (VStr "") ]
            = [VStr ""; VStr ""; VStr ""; VStr "UNKNOWN"; VStr ""; VStr ""]
            /\ time_text record = VStr utcnow_isoformat) dependencies).
  { unfold extract_table_dependencies in Hextract.
    destruct (execute_query _) as [rows|e]; [|discriminate].
    pose proof (dependency_records_keys rows [] G (Forall_nil _)) as Hall.
    destruct (foldl _ _ rows) as [ds G1]. by injection Hextract as <- <-. }
  assert (Hall : Forall2 (fun (record : dict) (p : pyval * string) =>
                   fromisoformat (time_text record) = Return p.1 /\
                   json_dumps (VDict record) = Return p.2)
                 dependencies ((fun text => (now, text)) <$> texts)).
  { clear -Hkeys Hjson Hnow. induction Hjson as [|record text ds texts Hj _ IH]; [constructor|].
    apply list.Forall_cons in Hkeys as [[_ Ht] Hrest]. rewrite fmap_cons.
    constructor; [|by apply IH]. simpl. by rewrite Ht. }
  destruct (lineage_rows dependencies _ [] Hall) as (data & Hrun & Hrows & Henc).
  exists data. split; [by apply (save_rows _ _ _ created)|].
  split; [symmetry; by eapply Forall2_length|].
  clear -Hkeys Hrows Henc.
  revert texts Henc. induction Hrows as [|record row ds data [Hrow Hlen] _ IH];
    intros texts Henc; [constructor|].
  apply list.Forall_cons in Hkeys as [[Hk _] Hrest].
  destruct texts as [|text texts]; [inversion Henc|].
  rewrite fmap_cons in Henc. apply Forall2_cons_1 in Henc as [[H6 _] Henc].
  constructor; [|by apply (IH Hrest texts)].
  simpl in Hk. rewrite Hk in Hrow.
  do 9 (destruct row as [|? row]; [discriminate|]). destruct row; [|discriminate].
  simpl in Hrow, H6. injection Hrow as -> -> -> -> -> ->. injection H6 as ->. reflexivity.
Qed.

End Save.

Lemma save_lineage_batch_witness :
  exists row,
    save_lineage_to_snowflake empty_warehouse accepting "2024-01-01T00:00:00" sample_now
      constant_json sample_fromisoformat [query_record] "LINEAGE" []
    = (Return (), [ExecuteQuery (VStr (lineage_ddl "LINEAGE"));
                   ExecuteMany (lineage_insert "LINEAGE") [row]]) /\
    take 6 row = [VStr "q1"; VStr "RAW.S.A"; VStr "MART.S.T"; VStr "INSERT";
                  VStr "q1"; VStr "ETL"].
Proof.
  destruct (save_lineage_batch empty_warehouse accepting "2024-01-01T00:00:00" sample_now
              constant_json sample_fromisoformat [query_record] "LINEAGE" [])
    as (_ & _ & Hsave).
  destruct (Hsave [] [(VOther "datetime" "2024-01-01 00:00:00", "{}")])
    as (data & Hrun & Hrows & _).
  - reflexivity.
  - repeat constructor.
  - apply Forall2_cons_inv_l in Hrows as (row & data' & [Hrow _] & Hnil & ->).
    apply Forall2_nil_inv_l in Hnil as ->.
    exists row. split; [exact Hrun|exact Hrow].
Defined.

Lemma declared_rows :
  exists row, saving_warehouse (VStr (dependencies_query "PROD_DB" None)) = Return [row].
Proof.
  unfold saving_warehouse, catalog_warehouse.
  rewrite bool_decide_true by reflexivity. by eexists.
Qed.

Lemma declared_run :
  declared = (Return declared_records, declared.2) /\
  exists record, declared_records = [record].
Proof.
  unfold declared_records, declared, extract_table_dependencies.
  destruct declared_rows as (row & ->).
  cbn [foldl]. unfold dependency_row. cbv beta iota zeta.
  split; [reflexivity|]. eexists. reflexivity.
Qed.

Lemma dependencies_saved_without_tables_witness :
  exists data,
    save_lineage_to_snowflake saving_warehouse accepting "2024-01-01T00:00:00" sample_now
      constant_json sample_fromisoformat declared_records "LINEAGE" []
    = (Return (), [ExecuteQuery (VStr (lineage_ddl "LINEAGE"));
                   ExecuteMany (lineage_insert "LINEAGE") data]) /\
    length data = 1 /\
    Forall (fun row =>
              take 7 row = [VStr ""; VStr ""; VStr ""; VStr "UNKNOWN"; VStr ""; VStr "";
                            VOther "datetime" "2024-01-01 00:00:00"]) data.
Proof.
  destruct (dependencies_saved_without_tables saving_warehouse accepting "2024-01-01T00:00:00"
              no_repr sample_now constant_json sample_fromisoformat
              empty "PROD_DB" None "LINEAGE" [] declared_records declared.2 []
              (VOther "datetime" "2024-01-01 00:00:00") ["{}"])
    as (data & Hrun & Hlen & Hrows).
  - exact (proj1 declared_run).
  - vm_compute. reflexivity.
  - reflexivity.
  - destruct (proj2 declared_run) as (record & Hone).
    rewrite Hone. repeat constructor.
  - exists data. split; [exact Hrun|]. split; [|exact Hrows].
    rewrite Hlen. destruct (proj2 declared_run) as (record & Hone). by rewrite Hone.
Defined.

End SaveLineageProofs.

(* ===================================================================== *)
(** * The metadata extractor: the catalog *)
(* ===================================================================== *)

Module CatalogProofs.

Import PyState Driver Catalog CatalogSpec QualitySpec ValidationSpec PyFacts StateFacts.

Section Extractors.

Variable execute_query : pyval -> outcome (list dict).
Variable utcnow_isoformat : string.
Variable repr : pyval -> string.

Local Abbreviation database := (extract_database_metadata execute_query utcnow_isoformat repr).
Local Abbreviation schemas_of := (extract_schema_metadata execute_query utcnow_isoformat repr).
Local Abbreviation tables_of := (extract_table_metadata execute_query utcnow_isoformat repr).
Local Abbreviation columns_of := (extract_column_metadata execute_query utcnow_isoformat repr).

(** A loop that appends one record per row builds the list of the records. *)
Lemma foldl_append {A B} (f : A -> B) rows : forall acc,
  foldl (fun acc row => acc ++ [f row]) acc rows = acc ++ (f <$> rows).
Proof.
  induction rows as [|row rows IH]; intros acc; simpl.
  - by rewrite app_nil_r.
  - by rewrite IH, <- app_assoc.
Qed.

(** X19. [extract_database_metadata] returns [None] when SHOW DATABASES
    gives no row and a mapping of six fields for the first row otherwise,
    with the text [None] as creation time when the row has none; unlike
    [extract_table_statistics], it re-raises what the query raises. *)
Theorem database_metadata_outcome database_name :
  let query := VStr (database_query database_name) in
  (execute_query query = Return [] -> database database_name = Return None) /\
  (forall e, execute_query query = Raise e -> database database_name = Raise e) /\
  (forall e, execute_query query = Raise e ->
     forall schema_name table_name,
       execute_query (VStr (Metadata.statistics_query database_name schema_name table_name))
         = Raise e ->
       Metadata.extract_table_statistics execute_query utcnow_isoformat
         database_name schema_name table_name = Return (VDict ∅)) /\
  (forall info rest, execute_query query = Return (info :: rest) ->
     exists metadata : dict,
       database database_name = Return (Some metadata) /\
       metadata !! "database_name" = Some (get_none info "name") /\
       metadata !! "owner" = Some (get_none info "owner") /\
       metadata !! "created_on" = Some (VStr (str repr (get_none info "created_on"))) /\
       (info !! "created_on" = None -> metadata !! "created_on" = Some (VStr "None")) /\
       size metadata = 6) /\
  (database database_name = Return None <-> execute_query query = Return []).
Proof.
  intros query. unfold extract_database_metadata. fold query.
  split; [by intros ->|]. split; [by intros e ->|]. split; [|split].
  - intros e _ schema_name table_name Hq.
    unfold Metadata.extract_table_statistics. by rewrite Hq.
  - intros info rest ->. simpl. eexists. split; [reflexivity|].
    simplify_map_eq. do 3 (split; [done|]). split.
    + intros Hnone. unfold get_none, get. by rewrite Hnone.
    + rewrite !map_size_insert_None by (by simplify_map_eq). by rewrite map_size_singleton.
  - destruct (execute_query query) as [[|info rest]|e]; simpl; split; try done.
Qed.

(** X20. The extractions of schemas, tables and columns return one record
    per row of their query, in the order of the rows, and re-raise what the
    query raises.  An empty schema name is no schema name.  A column is
    recorded as nullable, primary key or unique key exactly when the row
    holds the text [Y] in the field: any other value, or none, is
    [False]. *)
Theorem records_follow_rows database_name :
  (forall schema_name rows,
     execute_query (VStr (schemas_query database_name schema_name)) = Return rows ->
     schemas_of database_name schema_name
     = Return (schema_metadata utcnow_isoformat repr database_name <$> rows)) /\
  (forall schema_name rows,
     execute_query (VStr (tables_query database_name schema_name)) = Return rows ->
     tables_of database_name schema_name
     = Return (table_metadata utcnow_isoformat repr <$> rows)) /\
  (forall schema_name table_name rows,
     execute_query (VStr (columns_query repr database_name schema_name table_name))
       = Return rows ->
     columns_of database_name schema_name table_name
     = Return (column_of utcnow_isoformat database_name schema_name table_name <$> rows)) /\
  (forall schema_name e,
     (execute_query (VStr (schemas_query database_name schema_name)) = Raise e ->
      schemas_of database_name schema_name = Raise e) /\
     (execute_query (VStr (tables_query database_name schema_name)) = Raise e ->
      tables_of database_name schema_name = Raise e)) /\
  (forall schema_name table_name e,
     execute_query (VStr (columns_query repr database_name schema_name table_name)) = Raise e ->
     columns_of database_name schema_name table_name = Raise e) /\
  schemas_of database_name (Some "") = schemas_of database_name None /\
  tables_of database_name (Some "") = tables_of database_name None /\
  (forall schema_name table_name (col : dict),
     let column := column_of utcnow_isoformat database_name schema_name table_name col in
     (c_nullable column = true <-> col !! "null?" = Some (VStr "Y")) /\
     (c_primary_key column = true <-> col !! "primary key" = Some (VStr "Y")) /\
     (c_unique_key column = true <-> col !! "unique key" = Some (VStr "Y")) /\
     c_database_name column = database_name /\
     c_column_name column = get_none col "name").
Proof.
  assert (Hflag : forall (col : dict) k,
            eq_str (get_none col k) "Y" = true <-> col !! k = Some (VStr "Y")).
  { intros col k. unfold get_none, get. destruct (col !! k) as [v|]; [|split; discriminate].
    destruct v; simpl; try (split; [discriminate|by intros [=]]).
    rewrite bool_decide_eq_true. split; [by intros ->|by intros [= ->]]. }
  split; [|split; [|split; [|split; [|split; [|split; [|split]]]]]].
  - intros schema_name rows Hq. unfold extract_schema_metadata.
    by rewrite Hq, bind_Return, foldl_append.
  - intros schema_name rows Hq. unfold extract_table_metadata.
    by rewrite Hq, bind_Return, foldl_append.
  - intros schema_name table_name rows Hq. unfold extract_column_metadata.
    by rewrite Hq, bind_Return, foldl_append.
  - intros schema_name e. unfold extract_schema_metadata, extract_table_metadata.
    split; by intros ->.
  - intros schema_name table_name e Hq. unfold extract_column_metadata. by rewrite Hq.
  - reflexivity.
  - reflexivity.
  - intros schema_name table_name col column. unfold column, column_of. simpl.
    rewrite !Hflag. done.
Qed.

(** ** extract_full_metadata *)

Local Abbreviation full := (extract_full_metadata execute_query utcnow_isoformat repr).
Local Abbreviation entries := (database_entries execute_query utcnow_isoformat repr).
Local Abbreviation columns_step := (table_columns execute_query utcnow_isoformat repr).

Lemma extended_nil c : extended c [] [] [] [] = c.
Proof. destruct c. unfold extended. simpl. by rewrite !app_nil_r. Qed.

Lemma extended_extended c ds ss ts cs ds' ss' ts' cs' :
  extended (extended c ds ss ts cs) ds' ss' ts' cs'
  = extended c (ds ++ ds') (ss ++ ss') (ts ++ ts') (cs ++ cs').
Proof. unfold extended. simpl. by rewrite !app_assoc. Qed.

Lemma columns_step_run db table c :
  columns_step db table c
  = match described execute_query utcnow_isoformat repr db table with
    | Return cs => (Return (), extended c [] [] [] cs)
    | Raise e => (Raise e, c)
    end.
Proof.
  unfold table_columns, described.
  destruct (getitem table "schema_name") as [schema|e]; rewrite bind_lift; [|done].
  destruct (getitem table "table_name") as [table_name|e]; rewrite bind_lift; [|done].
  rewrite !bind_Return.
  destruct (columns_of db schema table_name) as [cs|e]; rewrite bind_lift; [|done].
  unfold update, extended. simpl. by rewrite !app_nil_r.
Qed.

Lemma columns_loop db ts : forall c,
  exists o,
    st_for (columns_step db) ts c
    = (o, extended c [] [] []
            (columns_until_failure execute_query utcnow_isoformat repr db ts)).
Proof.
  induction ts as [|table ts IH]; intros c; cbn [st_for columns_until_failure].
  - exists (Return ()). by rewrite extended_nil.
  - unfold st_bind. rewrite columns_step_run.
    destruct (described execute_query utcnow_isoformat repr db table) as [cs|e].
    + destruct (IH (extended c [] [] [] cs)) as (o & ->).
      exists o. by rewrite extended_extended.
    + exists (Raise e). by rewrite extended_nil.
Qed.

Lemma database_step db c :
  (st_try (entries db) (fun e => mret ()) c).2
  = extended c (database_part execute_query utcnow_isoformat repr db)
      (schema_part execute_query utcnow_isoformat repr db)
      (table_part execute_query utcnow_isoformat repr db)
      (column_part execute_query utcnow_isoformat repr db)
  /\ (st_try (entries db) (fun e => mret ()) c).1 = Return ().
Proof.
  unfold st_try, database_entries, column_part, table_part, schema_part, database_part.
  destruct (database db) as [entry|e]; rewrite bind_lift;
    [|by rewrite extended_nil].
  rewrite bind_update.
  destruct (schemas_of db None) as [ss|e]; rewrite bind_lift;
    [|split; [|done]; unfold extended; simpl; by rewrite !app_nil_r].
  rewrite bind_update.
  destruct (tables_of db None) as [ts|e]; rewrite bind_lift;
    [|split; [|done]; unfold extended; simpl; by rewrite !app_nil_r].
  rewrite bind_update.
  match goal with |- context [st_for _ _ ?c'] =>
    destruct (columns_loop db ts c') as (o & ->) end.
  destruct o as [[]|e]; simpl; (split; [|reflexivity]); unfold extended; simpl;
    by rewrite !app_nil_r.
Qed.

Lemma full_loop dbs : forall c,
  st_for (fun db => st_try (entries db) (fun e => mret ())) dbs c
  = (Return (),
     extended c (dbs ≫= database_part execute_query utcnow_isoformat repr)
       (dbs ≫= schema_part execute_query utcnow_isoformat repr)
       (dbs ≫= table_part execute_query utcnow_isoformat repr)
       (dbs ≫= column_part execute_query utcnow_isoformat repr)).
Proof.
  induction dbs as [|db dbs IH]; intros c; cbn [st_for].
  - by rewrite extended_nil.
  - unfold st_bind. destruct (database_step db c) as [Hc Ho].
    destruct (st_try (entries db) _ c) as [o c'] eqn:E. simpl in Hc, Ho. subst o c'.
    rewrite IH, extended_extended, !bind_cons. reflexivity.
Qed.

(** X21. [extract_full_metadata] never raises, and a database at which an
    extraction fails keeps what was extracted before the failure.  The
    catalog lists, database after database: the entry of the database when
    SHOW DATABASES returned, [None] when it returned no row; its schemas
    when SHOW SCHEMAS returned too; its tables when SHOW TABLES returned
    too; and the columns of its tables, up to the first table whose
    columns cannot be extracted.  A database whose first query raises
    leaves no trace in the catalog. *)
Theorem full_metadata_catalog dbs :
  full dbs
  = {| databases := dbs ≫= database_part execute_query utcnow_isoformat repr;
       schemas := dbs ≫= schema_part execute_query utcnow_isoformat repr;
       tables := dbs ≫= table_part execute_query utcnow_isoformat repr;
       columns := dbs ≫= column_part execute_query utcnow_isoformat repr;
       extraction_timestamp := utcnow_isoformat |} /\
  length (databases (full dbs)) <= length dbs /\
  (forall db, db ∈ dbs ->
     execute_query (VStr (database_query db)) = Return [] -> None ∈ databases (full dbs)) /\
  (forall db e, execute_query (VStr (database_query db)) = Raise e ->
     database_part execute_query utcnow_isoformat repr db = [] /\
     schema_part execute_query utcnow_isoformat repr db = [] /\
     table_part execute_query utcnow_isoformat repr db = [] /\
     column_part execute_query utcnow_isoformat repr db = []) /\
  (forall db entry e,
     database db = Return entry ->
     execute_query (VStr (schemas_query db None)) = Raise e ->
     database_part execute_query utcnow_isoformat repr db = [entry] /\
     schema_part execute_query utcnow_isoformat repr db = [] /\
     table_part execute_query utcnow_isoformat repr db = []) /\
  (forall dbs', full (dbs ++ dbs')
     = extended (full dbs)
         (dbs' ≫= database_part execute_query utcnow_isoformat repr)
         (dbs' ≫= schema_part execute_query utcnow_isoformat repr)
         (dbs' ≫= table_part execute_query utcnow_isoformat repr)
         (dbs' ≫= column_part execute_query utcnow_isoformat repr)).
Proof.
  assert (Hfull : forall dbs, full dbs
            = {| databases := dbs ≫= database_part execute_query utcnow_isoformat repr;
                 schemas := dbs ≫= schema_part execute_query utcnow_isoformat repr;
                 tables := dbs ≫= table_part execute_query utcnow_isoformat repr;
                 columns := dbs ≫= column_part execute_query utcnow_isoformat repr;
                 extraction_timestamp := utcnow_isoformat |}).
  { intros ds. unfold extract_full_metadata. by rewrite full_loop. }
  split; [apply Hfull|]. rewrite !Hfull. cbn [databases].
  split; [|split; [|split; [|split]]].
  - clear. induction dbs as [|db dbs IH]; [done|].
    rewrite bind_cons, length_app. unfold database_part at 1.
    destruct (database db); simpl; lia.
  - intros db Hin Hq. apply list_elem_of_bind. exists db. split; [|done].
    unfold database_part, extract_database_metadata. rewrite Hq. simpl.
    apply list_elem_of_here.
  - intros db e Hq. unfold column_part, table_part, schema_part, database_part,
      extract_database_metadata. by rewrite Hq.
  - intros db entry e Hdb Hq. unfold table_part, schema_part, database_part.
    rewrite Hdb. unfold extract_schema_metadata. by rewrite Hq.
  - intros dbs'. rewrite Hfull. unfold extended. simpl. by rewrite !bind_app.
Qed.

End Extractors.

Lemma full_metadata_catalog_witness :
  None ∈ databases (extract_full_metadata prod_warehouse "2024-01-01T00:00:00" sample_repr
                      ["PROD"; "GONE"]).
Proof.
  apply (full_metadata_catalog prod_warehouse "2024-01-01T00:00:00" sample_repr
           ["PROD"; "GONE"]) with (db := "GONE").
  - apply list_elem_of_further, list_elem_of_here.
  - vm_compute. reflexivity.
Defined.

End CatalogProofs.

(** * Saving the catalog *)

Module SaveMetadataProofs.

Import PyState Driver Catalog QualitySpec ValidationSpec CatalogSpec PyFacts StateFacts.
Import CatalogProofs.

(** ** save_metadata_to_snowflake *)

Section Save.

Variable execute_query : pyval -> outcome (list dict).
Variable execute_many : string -> list (list pyval) -> outcome ().
Variable utcnow_isoformat : string.
Variable repr : pyval -> string.
Variable utcnow : pyval.
Variable json_dumps : pyval -> outcome string.
Variable json_dumps_column : column_metadata -> outcome string.

Local Abbreviation save :=
  (save_metadata_to_snowflake execute_query execute_many repr utcnow json_dumps
     json_dumps_column).
Local Abbreviation full := (extract_full_metadata execute_query utcnow_isoformat repr).

(** The tuples of all four loops. *)
Local Abbreviation all_rows c :=
  (insert_data ← for_each (database_row utcnow json_dumps) (databases c) [];
   insert_data ← for_each (schema_row utcnow json_dumps) (schemas c) insert_data;
   insert_data ← for_each (table_row utcnow json_dumps) (tables c) insert_data;
   for_each (column_row repr utcnow json_dumps_column) (columns c) insert_data).

Lemma save_run c output_table log :
  save c output_table log
  = match execute_query (VStr (metadata_ddl output_table)) with
    | Raise e => (Raise e, log ++ [ExecuteQuery (VStr (metadata_ddl output_table))])
    | Return _ =>
        match all_rows c with
        | Raise e => (Raise e, log ++ [ExecuteQuery (VStr (metadata_ddl output_table))])
        | Return data =>
            (execute_many (metadata_insert output_table) data,
             log ++ [ExecuteQuery (VStr (metadata_ddl output_table));
                     ExecuteMany (metadata_insert output_table) data])
        end
    end.
Proof.
  unfold save_metadata_to_snowflake, create_table_if_not_exists, run_query.
  rewrite !bind_run. destruct (execute_query _) as [created|e]; [|done]. simpl.
  rewrite bind_lift. destruct (all_rows c) as [data|e]; [|done].
  unfold run_many. by rewrite <- app_assoc.
Qed.

Lemma tagged_loop {A} (step : list (list pyval) -> A -> outcome (list (list pyval)))
    (tag : string) xs :
  (forall acc x, x ∈ xs ->
     exists row, step acc x = Return (acc ++ [row]) /\ column 0 row = Some (VStr tag)) ->
  forall acc, exists rows,
    for_each step xs acc = Return (acc ++ rows) /\
    column 0 <$> rows = replicate (length xs) (Some (VStr tag)).
Proof.
  induction xs as [|x xs IH]; intros Hstep acc.
  - exists []. by rewrite app_nil_r.
  - destruct (Hstep acc x (list_elem_of_here _ _)) as (row & Hrow & Htag).
    destruct (IH (fun acc' y Hy => Hstep acc' y (list_elem_of_further _ _ _ Hy)) (acc ++ [row]))
      as (rows & Hrows & Htags).
    exists (row :: rows). cbn [for_each]. rewrite Hrow, bind_Return, Hrows, <- app_assoc.
    split; [done|]. rewrite fmap_cons, Htag, Htags. reflexivity.
Qed.

Lemma database_row_entry acc (d : dict) v text :
  d !! "database_name" = Some v ->
  json_dumps (VDict d) = Return text ->
  database_row utcnow json_dumps acc (Some d)
  = Return (acc ++ [[VStr "DATABASE"; v; VNone; v; VStr text; utcnow]]).
Proof.
  intros Hv Htext. unfold database_row. cbn [subscript entry_value].
  by rewrite (getitem_Some _ _ _ Hv), !bind_Return, Htext, bind_Return.
Qed.

Lemma none_is_not_subscriptable dbs :
  None ∈ dbs ->
  (forall d : dict, Some d ∈ dbs -> is_Some (d !! "database_name")) ->
  (forall v, exists text, json_dumps v = Return text) ->
  forall acc, for_each (database_row utcnow json_dumps) dbs acc = Raise not_subscriptable.
Proof.
  intros Hin Hkeys Hjson. induction dbs as [|[d|] dbs IH]; intros acc.
  - by apply elem_of_nil in Hin.
  - cbn [for_each].
    destruct (Hkeys d (list_elem_of_here _ _)) as (v & Hv).
    destruct (Hjson (VDict d)) as (text & Htext).
    rewrite (database_row_entry _ _ _ _ Hv Htext), bind_Return.
    apply IH.
    + apply elem_of_cons in Hin as [?|?]; [discriminate|done].
    + intros d' Hd'. apply Hkeys. by apply list_elem_of_further.
  - reflexivity.
Qed.

(** The records that the extractors build carry the keys that saving
    reads, whatever the rows hold. *)
Lemma schema_metadata_keyed db row :
  keyed ["database_name"; "schema_name"] (schema_metadata utcnow_isoformat repr db row).
Proof. unfold keyed, schema_metadata. repeat constructor; simplify_map_eq; by eexists. Qed.

Lemma table_metadata_keyed row :
  keyed ["database_name"; "schema_name"; "table_name"]
        (table_metadata utcnow_isoformat repr row).
Proof. unfold keyed, table_metadata. repeat constructor; simplify_map_eq; by eexists. Qed.

Lemma database_part_keyed db entry :
  entry ∈ database_part execute_query utcnow_isoformat repr db ->
  entry = None \/ exists d : dict, entry = Some d /\ keyed ["database_name"] d.
Proof.
  unfold database_part, extract_database_metadata.
  destruct (execute_query (VStr (database_query db))) as [[|info rest]|e]; simpl; intros Hin.
  - apply list_elem_of_singleton in Hin. by left.
  - apply list_elem_of_singleton in Hin as ->. right. eexists. split; [reflexivity|].
    unfold keyed. repeat constructor. simplify_map_eq. by eexists.
  - by apply elem_of_nil in Hin.
Qed.

Lemma schema_part_keyed db :
  Forall (keyed ["database_name"; "schema_name"])
         (schema_part execute_query utcnow_isoformat repr db).
Proof.
  unfold schema_part, extract_schema_metadata.
  destruct (extract_database_metadata _ _ _ db); [|constructor].
  destruct (execute_query (VStr (schemas_query db None))) as [rows|e]; simpl; [|constructor].
  rewrite foldl_append. simpl. apply list.Forall_forall. intros schema Hin.
  apply list_elem_of_fmap in Hin as (row & -> & _). apply schema_metadata_keyed.
Qed.

Lemma table_part_keyed db :
  Forall (keyed ["database_name"; "schema_name"; "table_name"])
         (table_part execute_query utcnow_isoformat repr db).
Proof.
  unfold table_part, extract_table_metadata.
  destruct (extract_database_metadata _ _ _ db); [|constructor].
  destruct (extract_schema_metadata _ _ _ db None); [|constructor].
  destruct (execute_query (VStr (tables_query db None))) as [rows|e]; simpl; [|constructor].
  rewrite foldl_append. simpl. apply list.Forall_forall. intros table Hin.
  apply list_elem_of_fmap in Hin as (row & -> & _). apply table_metadata_keyed.
Qed.

Lemma full_parts dbs :
  databases (full dbs) = dbs ≫= database_part execute_query utcnow_isoformat repr /\
  schemas (full dbs) = dbs ≫= schema_part execute_query utcnow_isoformat repr /\
  tables (full dbs) = dbs ≫= table_part execute_query utcnow_isoformat repr.
Proof. unfold extract_full_metadata. by rewrite full_loop. Qed.

Lemma full_keyed dbs :
  (forall entry, entry ∈ databases (full dbs) ->
     entry = None \/ exists d : dict, entry = Some d /\ keyed ["database_name"] d) /\
  Forall (keyed ["database_name"; "schema_name"]) (schemas (full dbs)) /\
  Forall (keyed ["database_name"; "schema_name"; "table_name"]) (tables (full dbs)).
Proof.
  destruct (full_parts dbs) as (-> & -> & ->). split; [|split].
  - intros entry Hin. apply list_elem_of_bind in Hin as (db & Hin & _).
    by apply database_part_keyed in Hin.
  - apply list.Forall_forall. intros schema Hin. apply list_elem_of_bind in Hin as (db & Hin & _).
    pose proof (schema_part_keyed db) as Hk. rewrite list.Forall_forall in Hk. by apply Hk.
  - apply list.Forall_forall. intros table Hin. apply list_elem_of_bind in Hin as (db & Hin & _).
    pose proof (table_part_keyed db) as Hk. rewrite list.Forall_forall in Hk. by apply Hk.
Qed.

Lemma save_none c output_table log created :
  execute_query (VStr (metadata_ddl output_table)) = Return created ->
  None ∈ databases c ->
  (exists e, save c output_table log
             = (Raise e, log ++ [ExecuteQuery (VStr (metadata_ddl output_table))])) /\
  ((forall d : dict, Some d ∈ databases c -> is_Some (d !! "database_name")) ->
   (forall v, exists text, json_dumps v = Return text) ->
   save c output_table log
   = (Raise not_subscriptable, log ++ [ExecuteQuery (VStr (metadata_ddl output_table))])).
Proof.
  intros Hddl Hnone. split.
  - rewrite save_run, Hddl.
    assert (Hraise : raises (for_each (database_row utcnow json_dumps) (databases c) [])).
    { apply (for_each_raises _ None _ Hnone). intros acc. by eexists. }
    destruct Hraise as (e & He). rewrite He. by exists e.
  - intros Hkeys Hjson. rewrite save_run, Hddl.
    by rewrite (none_is_not_subscriptable _ Hnone Hkeys Hjson).
Qed.

Lemma save_keyed c output_table log created :
  execute_query (VStr (metadata_ddl output_table)) = Return created ->
  Forall (fun db => exists d : dict, db = Some d /\ keyed ["database_name"] d)
         (databases c) ->
  Forall (keyed ["database_name"; "schema_name"]) (schemas c) ->
  Forall (keyed ["database_name"; "schema_name"; "table_name"]) (tables c) ->
  (forall v, exists text, json_dumps v = Return text) ->
  (forall column, exists text, json_dumps_column column = Return text) ->
  exists data,
    save c output_table log
    = (execute_many (metadata_insert output_table) data,
       log ++ [ExecuteQuery (VStr (metadata_ddl output_table));
               ExecuteMany (metadata_insert output_table) data]) /\
    column 0 <$> data
    = replicate (length (databases c)) (Some (VStr "DATABASE"))
      ++ replicate (length (schemas c)) (Some (VStr "SCHEMA"))
      ++ replicate (length (tables c)) (Some (VStr "TABLE"))
      ++ replicate (length (columns c)) (Some (VStr "COLUMN")) /\
    length data = length (databases c) + length (schemas c) + length (tables c)
                  + length (columns c).
Proof.
  intros Hddl Hdbs Hschemas Htables Hjson Hjsonc.
  rewrite save_run, Hddl.
  destruct (tagged_loop (database_row utcnow json_dumps) "DATABASE" (databases c))
    with (acc := @nil (list pyval)) as (rows1 & Hrun1 & Htag1).
  { intros acc db Hin. rewrite list.Forall_forall in Hdbs.
    destruct (Hdbs db Hin) as (d & -> & Hk). apply Forall_cons_1 in Hk as [[v Hv] _].
    destruct (Hjson (VDict d)) as (text & Htext).
    rewrite (database_row_entry _ _ _ _ Hv Htext). by eexists. }
  destruct (tagged_loop (schema_row utcnow json_dumps) "SCHEMA" (schemas c))
    with (acc := rows1) as (rows2 & Hrun2 & Htag2).
  { intros acc schema Hin. rewrite list.Forall_forall in Hschemas.
    pose proof (Hschemas schema Hin) as Hk.
    apply Forall_cons_1 in Hk as [[v1 Hv1] Hk]. apply Forall_cons_1 in Hk as [[v2 Hv2] _].
    unfold schema_row.
    rewrite (getitem_Some _ _ _ Hv1), !bind_Return, (getitem_Some _ _ _ Hv2), !bind_Return.
    destruct (Hjson (VDict schema)) as (text & ->). rewrite bind_Return. by eexists. }
  destruct (tagged_loop (table_row utcnow json_dumps) "TABLE" (tables c))
    with (acc := rows1 ++ rows2) as (rows3 & Hrun3 & Htag3).
  { intros acc table Hin. rewrite list.Forall_forall in Htables.
    pose proof (Htables table Hin) as Hk.
    apply Forall_cons_1 in Hk as [[v1 Hv1] Hk]. apply Forall_cons_1 in Hk as [[v2 Hv2] Hk].
    apply Forall_cons_1 in Hk as [[v3 Hv3] _].
    unfold table_row.
    rewrite (getitem_Some _ _ _ Hv1), !bind_Return, (getitem_Some _ _ _ Hv2), !bind_Return.
    rewrite (getitem_Some _ _ _ Hv3), !bind_Return.
    destruct (Hjson (VDict table)) as (text & ->). rewrite bind_Return. by eexists. }
  destruct (tagged_loop (column_row repr utcnow json_dumps_column) "COLUMN" (columns c))
    with (acc := (rows1 ++ rows2) ++ rows3) as (rows4 & Hrun4 & Htag4).
  { intros acc column Hin. unfold column_row.
    destruct (Hjsonc column) as (text & ->). rewrite bind_Return. by eexists. }
  simpl in Hrun1. rewrite Hrun1, bind_Return, Hrun2, bind_Return, Hrun3, bind_Return, Hrun4.
  eexists. split; [reflexivity|].
  assert (Htags : column 0 <$> ((rows1 ++ rows2) ++ rows3) ++ rows4
            = replicate (length (databases c)) (Some (VStr "DATABASE"))
              ++ replicate (length (schemas c)) (Some (VStr "SCHEMA"))
              ++ replicate (length (tables c)) (Some (VStr "TABLE"))
              ++ replicate (length (columns c)) (Some (VStr "COLUMN"))).
  { by rewrite !fmap_app, Htag1, Htag2, Htag3, Htag4, <- !app_assoc. }
  split; [exact Htags|].
  rewrite <- (length_fmap (column 0)), Htags, !length_app, !length_replicate. lia.
Qed.

(** X22. [save_metadata_to_snowflake] executes the CREATE TABLE statement
    first and raises what it raises.  A [None] among the database entries
    makes the method raise before anything is inserted: a TypeError, when
    the entries before it can be encoded.  Over a catalog whose records
    carry their names and can be encoded, one batch is handed to
    [execute_many]: a tuple per database, then per schema, then per table,
    then per column, tagged DATABASE, SCHEMA, TABLE and COLUMN. *)
Theorem save_metadata_batch c output_table log :
  let ddl := VStr (metadata_ddl output_table) in
  let insert := metadata_insert output_table in
  (forall e, execute_query ddl = Raise e ->
     save c output_table log = (Raise e, log ++ [ExecuteQuery ddl])) /\
  (forall created, execute_query ddl = Return created -> None ∈ databases c ->
     (exists e, save c output_table log = (Raise e, log ++ [ExecuteQuery ddl])) /\
     ((forall d : dict, Some d ∈ databases c -> is_Some (d !! "database_name")) ->
      (forall v, exists text, json_dumps v = Return text) ->
      save c output_table log = (Raise not_subscriptable, log ++ [ExecuteQuery ddl]))) /\
  (forall created,
     execute_query ddl = Return created ->
     Forall (fun db => exists d : dict, db = Some d /\ keyed ["database_name"] d)
            (databases c) ->
     Forall (keyed ["database_name"; "schema_name"]) (schemas c) ->
     Forall (keyed ["database_name"; "schema_name"; "table_name"]) (tables c) ->
     (forall v, exists text, json_dumps v = Return text) ->
     (forall column, exists text, json_dumps_column column = Return text) ->
     exists data,
       save c output_table log
       = (execute_many insert data, log ++ [ExecuteQuery ddl; ExecuteMany insert data]) /\
       column 0 <$> data
       = replicate (length (databases c)) (Some (VStr "DATABASE"))
         ++ replicate (length (schemas c)) (Some (VStr "SCHEMA"))
         ++ replicate (length (tables c)) (Some (VStr "TABLE"))
         ++ replicate (length (columns c)) (Some (VStr "COLUMN")) /\
       length data = length (databases c) + length (schemas c) + length (tables c)
                     + length (columns c)).
Proof.
  intros ddl insert. split; [|split].
  - intros e He. rewrite save_run. fold ddl. by rewrite He.
  - intros created Hddl Hnone. by apply (save_none _ _ _ created).
  - intros created. apply save_keyed.
Qed.

(** X23. Saving what [extract_full_metadata] extracted.  A tracked database
    for which SHOW DATABASES returns no row breaks the saving of the whole
    catalog: the extraction records [None] for it, and
    [save_metadata_to_snowflake] then raises without inserting anything,
    whatever else the catalog holds; the exception is the TypeError of
    subscripting [None] when the CREATE TABLE statement succeeds and the
    entries can be encoded.  When no tracked database is answered with no
    row, the extracted records always carry the names that saving reads,
    whatever the rows hold, and the whole catalog goes into one batch. *)
Theorem extracted_catalog_saved dbs output_table log :
  let ddl := VStr (metadata_ddl output_table) in
  let insert := metadata_insert output_table in
  (forall db, db ∈ dbs ->
     execute_query (VStr (database_query db)) = Return [] ->
     None ∈ databases (full dbs) /\
     (exists e, save (full dbs) output_table log = (Raise e, log ++ [ExecuteQuery ddl])) /\
     (forall created, execute_query ddl = Return created ->
        (forall v, exists text, json_dumps v = Return text) ->
        save (full dbs) output_table log
        = (Raise not_subscriptable, log ++ [ExecuteQuery ddl]))) /\
  (forall created,
     execute_query ddl = Return created ->
     (forall db, db ∈ dbs -> execute_query (VStr (database_query db)) <> Return []) ->
     (forall v, exists text, json_dumps v = Return text) ->
     (forall column, exists text, json_dumps_column column = Return text) ->
     exists data,
       save (full dbs) output_table log
       = (execute_many insert data, log ++ [ExecuteQuery ddl; ExecuteMany insert data]) /\
       length data = length (databases (full dbs)) + length (schemas (full dbs))
                     + length (tables (full dbs)) + length (columns (full dbs))).
Proof.
  intros ddl insert. destruct (full_keyed dbs) as (Hentries & Hschemas & Htables). split.
  - intros db Hin Hq.
    assert (Hnone : None ∈ databases (full dbs)).
    { destruct (full_parts dbs) as (-> & _). apply list_elem_of_bind. exists db.
      split; [|done]. unfold database_part, extract_database_metadata. rewrite Hq. simpl.
      apply list_elem_of_here. }
    assert (Hkeys : forall d : dict, Some d ∈ databases (full dbs) ->
              is_Some (d !! "database_name")).
    { intros d Hd. destruct (Hentries _ Hd) as [|(d' & [= <-] & Hk)]; [discriminate|].
      by apply Forall_cons_1 in Hk as [Hk _]. }
    split; [done|]. split.
    + destruct (execute_query ddl) as [created|e] eqn:Hddl.
      * exact (proj1 (save_none (full dbs) output_table log created Hddl Hnone)).
      * exists e. rewrite save_run. fold ddl. by rewrite Hddl.
    + intros created Hddl Hjson.
      by apply (save_none (full dbs) output_table log created Hddl Hnone).
  - intros created Hddl Hrows Hjson Hjsonc.
    destruct (save_keyed (full dbs) output_table log created Hddl) as (data & Hrun & _ & Hlen);
      try done.
    + apply list.Forall_forall. intros entry Hin.
      destruct (Hentries _ Hin) as [->|Hsome]; [|done].
      destruct (full_parts dbs) as (Hdbs & _). rewrite Hdbs in Hin.
      apply list_elem_of_bind in Hin as (db & Hin & Hdb). exfalso. apply (Hrows db Hdb).
      unfold database_part, extract_database_metadata in Hin.
      destruct (execute_query (VStr (database_query db))) as [[|info rest]|e]; simpl in Hin.
      * done.
      * by apply list_elem_of_singleton in Hin.
      * by apply elem_of_nil in Hin.
    + by exists data.
Qed.

End Save.

Lemma save_metadata_batch_witness :
  let c := {| databases := [Some {[ "database_name" := VStr "PROD" ]}]; schemas := [];
              tables := []; columns := []; extraction_timestamp := "2024-01-01T00:00:00" |} in
  exists data,
    save_metadata_to_snowflake prod_warehouse accepting sample_repr sample_now constant_json
      constant_json_column c "METADATA_CATALOG" []
    = (Return (), [ExecuteQuery (VStr (metadata_ddl "METADATA_CATALOG"));
                   ExecuteMany (metadata_insert "METADATA_CATALOG") data]) /\
    column 0 <$> data = [Some (VStr "DATABASE")].
Proof.
  intros c.
  destruct (save_metadata_batch prod_warehouse accepting sample_repr sample_now constant_json
              constant_json_column c "METADATA_CATALOG" []) as (_ & _ & Hsave).
  destruct (Hsave []) as (data & Hrun & Htags & _).
  - vm_compute. reflexivity.
  - repeat constructor. eexists. split; [reflexivity|].
    repeat constructor. exists (VStr "PROD"). apply lookup_singleton_eq.
  - constructor.
  - constructor.
  - intros v. by eexists.
  - intros column. by eexists.
  - exists data. split; [exact Hrun|exact Htags].
Defined.

Lemma prod_catalog_sizes :
  let c := extract_full_metadata prod_warehouse "2024-01-01T00:00:00" sample_repr ["PROD"] in
  length (databases c) + length (schemas c) + length (tables c) + length (columns c) = 4.
Proof. vm_compute. reflexivity. Qed.

Lemma prod_answered :
  match prod_warehouse (VStr (database_query "PROD")) with
  | Return (_ :: _) => True
  | _ => False
  end.
Proof. vm_compute. exact I. Qed.

Lemma extracted_catalog_saved_witness :
  save_metadata_to_snowflake prod_warehouse accepting sample_repr sample_now constant_json
    constant_json_column
    (extract_full_metadata prod_warehouse "2024-01-01T00:00:00" sample_repr ["PROD"; "GONE"])
    "METADATA_CATALOG" []
  = (Raise (TypeError "'NoneType' object is not subscriptable"),
     [ExecuteQuery (VStr (metadata_ddl "METADATA_CATALOG"))]) /\
  exists data,
    save_metadata_to_snowflake prod_warehouse accepting sample_repr sample_now constant_json
      constant_json_column
      (extract_full_metadata prod_warehouse "2024-01-01T00:00:00" sample_repr ["PROD"])
      "METADATA_CATALOG" []
    = (Return (), [ExecuteQuery (VStr (metadata_ddl "METADATA_CATALOG"));
                   ExecuteMany (metadata_insert "METADATA_CATALOG") data]) /\
    length data = 4.
Proof.
  split.
  - destruct (extracted_catalog_saved prod_warehouse accepting "2024-01-01T00:00:00"
                sample_repr sample_now constant_json constant_json_column
                ["PROD"; "GONE"] "METADATA_CATALOG" []) as (Hgone & _).
    destruct (Hgone "GONE") as (_ & _ & Hsave).
    + apply list_elem_of_further, list_elem_of_here.
    + vm_compute. reflexivity.
    + apply (Hsave []).
      * vm_compute. reflexivity.
      * intros v. by eexists.
  - destruct (extracted_catalog_saved prod_warehouse accepting "2024-01-01T00:00:00"
                sample_repr sample_now constant_json constant_json_column
                ["PROD"] "METADATA_CATALOG" []) as (_ & Hsave).
    destruct (Hsave []) as (data & Hrun & Hlen).
    + vm_compute. reflexivity.
    + intros db Hin. apply list_elem_of_singleton in Hin as ->. intros Hempty.
      pose proof prod_answered as Hrows. rewrite Hempty in Hrows. exact Hrows.
    + intros v. by eexists.
    + intros column. by eexists.
    + exists data. split; [exact Hrun|]. rewrite Hlen. apply prod_catalog_sizes.
Defined.

End SaveMetadataProofs.

(* ===================================================================== *)
(** * The data-quality step of the pipeline *)
(* ===================================================================== *)

Module PipelineProofs.

Import PyState Driver Quality QualitySpec Validation ValidationSpec Pipeline PipelineSpec.
Import PyFacts StateFacts.

Section Step.

Variable execute_query : pyval -> outcome (list dict).
Variable execute_many : string -> list (list pyval) -> outcome ().
Variable utcnow_isoformat : string.
Variable repr : pyval -> string.
Variable config : dict.
Variable utcnow : pyval.
Variable utcnow_timestamp : string.
Variable json_dumps : pyval -> outcome string.
Variable utcnow_strftime : string.
Variable write_json : string -> pyval -> outcome ().

Local Abbreviation run :=
  (run_data_quality_validation execute_query execute_many utcnow_isoformat repr config
     utcnow utcnow_timestamp json_dumps utcnow_strftime write_json).
Local Abbreviation validate :=
  (validate_table execute_query utcnow_isoformat repr config).
Local Abbreviation save :=
  (save_validation_results execute_query execute_many repr utcnow utcnow_timestamp json_dumps).
Local Abbreviation row_of := (validation_row repr utcnow utcnow_timestamp json_dumps).

Lemma save_validation_run results output_table log :
  save results output_table log
  = match execute_query (VStr (validation_ddl output_table)) with
    | Raise e => (Raise e, log ++ [ExecuteQuery (VStr (validation_ddl output_table))])
    | Return _ =>
        match for_each row_of results [] with
        | Raise e => (Raise e, log ++ [ExecuteQuery (VStr (validation_ddl output_table))])
        | Return data =>
            (execute_many (validation_insert output_table) data,
             log ++ [ExecuteQuery (VStr (validation_ddl output_table));
                     ExecuteMany (validation_insert output_table) data])
        end
    end.
Proof.
  unfold save_validation_results, create_table_if_not_exists, run_query.
  rewrite !bind_run. destruct (execute_query _) as [created|e]; [|done]. simpl.
  rewrite bind_lift. destruct (for_each row_of results []) as [data|e]; [|done].
  unfold run_many. by rewrite <- app_assoc.
Qed.

Lemma encoded_rows results :
  (forall v, exists text, json_dumps v = Return text) ->
  forall insert_data, exists rows,
    for_each row_of results insert_data = Return (insert_data ++ rows) /\
    length rows = length results.
Proof.
  intros Hjson. induction results as [|result results IH]; intros insert_data.
  - exists []. by rewrite app_nil_r.
  - destruct (Hjson (VDict result)) as (text & Htext).
    cbn [for_each]. rewrite (ValidationProofs.validation_row_step _ _ _ _ _ _ _ Htext).
    rewrite bind_Return.
    match goal with |- context [for_each _ _ (insert_data ++ [?row])] =>
      destruct (IH (insert_data ++ [row])) as (rows & Hrun & Hlen); exists (row :: rows) end.
    rewrite Hrun, <- app_assoc. split; [done|]. simpl. by rewrite Hlen.
Qed.

Lemma check_uniqueness_returns database schema table columns :
  exists check,
    check_uniqueness execute_query utcnow_isoformat repr database schema table columns
    = Return check.
Proof. unfold check_uniqueness. apply try_except_returns. Qed.

Lemma check_timeliness_returns database schema table timestamp_column max_age_hours :
  exists check,
    check_timeliness execute_query utcnow_isoformat repr database schema table
      timestamp_column max_age_hours = Return check.
Proof. unfold check_timeliness. apply try_except_returns. Qed.

Lemma validate_step (dq rules u t : dict) all_results table_info :
  get dq "rules" (VDict ∅) = VDict rules ->
  get rules "uniqueness" (VDict ∅) = VDict u ->
  get rules "timeliness" (VDict ∅) = VDict t ->
  exists added,
    validate (VDict dq) all_results table_info = Return (all_results ++ added) /\
    length added = per_table u t /\
    head added
    = Some (run_comprehensive_validation execute_query utcnow_isoformat repr config
              (field table_info "database") (field table_info "schema")
              (field table_info "table") None).
Proof.
  intros Hrules Hu Ht. unfold validate_table, rule_setting, per_table, switched_on.
  cbn [pyget]. rewrite !bind_Return, Hrules. cbn [pyget]. rewrite !bind_Return, Hu, Ht.
  cbn [pyget]. rewrite !bind_Return.
  destruct (check_uniqueness_returns (field table_info "database") (field table_info "schema")
              (field table_info "table") [VStr (field_or table_info "primary_key" "id")])
    as (unique & Hunique).
  destruct (check_timeliness_returns (field table_info "database") (field table_info "schema")
              (field table_info "table") (field_or table_info "timestamp_column" "created_at")
              (get t "max_age_hours" (VInt 24)))
    as (timely & Htimely).
  destruct (truthy (get u "enabled" py_false));
    rewrite ?Hunique, ?bind_Return;
    destruct (truthy (get t "enabled" py_false));
    rewrite ?bind_Return, ?Htimely, ?bind_Return.
  - eexists [_; _; _]. by rewrite <- !app_assoc.
  - eexists [_; _]. by rewrite <- !app_assoc.
  - eexists [_; _]. by rewrite <- !app_assoc.
  - by eexists [_].
Qed.

Lemma validate_loop (dq rules u t : dict) tables :
  get dq "rules" (VDict ∅) = VDict rules ->
  get rules "uniqueness" (VDict ∅) = VDict u ->
  get rules "timeliness" (VDict ∅) = VDict t ->
  forall all_results, exists added,
    for_each (validate (VDict dq)) tables all_results = Return (all_results ++ added) /\
    length added = length tables * per_table u t.
Proof.
  intros Hrules Hu Ht. induction tables as [|table_info tables IH]; intros all_results.
  - exists []. by rewrite app_nil_r.
  - destruct (validate_step dq rules u t all_results table_info Hrules Hu Ht)
      as (added & Hstep & Hlen & _).
    destruct (IH (all_results ++ added)) as (added' & Hrun & Hlen').
    exists (added ++ added'). cbn [for_each]. rewrite Hstep, bind_Return, Hrun, <- app_assoc.
    split; [done|]. rewrite length_app, Hlen, Hlen'. simpl. lia.
Qed.

(** The steps after the loop, over the results of the loop. *)
Lemma run_after tables log :
  run tables log
  = match (match tables with
           | Some (t :: ts) => Return (t :: ts)
           | _ => _get_tables_from_metadata config
           end) with
    | Raise e => (Raise e, log)
    | Return tables =>
        match for_each (validate (get config "data_quality" (VDict ∅))) tables [] with
        | Raise e => (Raise e, log)
        | Return all_results =>
            match pyget (get config "output" (VDict ∅)) "dq_results_table"
                    (VStr "DQ_VALIDATION_RESULTS") with
            | Raise e => (Raise e, log)
            | Return output_table =>
                match save all_results (str repr output_table) log with
                | (Raise e, log') => (Raise e, log')
                | (Return _, log') =>
                    match generate_dq_report utcnow_isoformat all_results with
                    | Raise e => (Raise e, log')
                    | Return report =>
                        match pyget (get config "output" (VDict ∅)) "export_json" py_false with
                        | Raise e => (Raise e, log')
                        | Return export_json =>
                            if truthy export_json
                            then (_ ← write_json (report_path utcnow_strftime) (VDict report);
                                  Return report,
                                  log' ++ [WriteJson (report_path utcnow_strftime)
                                             (VDict report)])
                            else (Return report, log')
                        end
                    end
                end
            end
        end
    end.
Proof.
  unfold run_data_quality_validation. rewrite bind_lift.
  destruct (match tables with Some (t :: ts) => Return (t :: ts) | _ => _ end)
    as [tables'|e]; [|done].
  rewrite bind_lift. destruct (for_each _ tables' []) as [all_results|e]; [|done].
  rewrite bind_lift. destruct (pyget _ "dq_results_table" _) as [output_table|e]; [|done].
  rewrite bind_run. destruct (save all_results _ log) as [[[]|e] log']; [|done].
  rewrite bind_lift. destruct (generate_dq_report _ all_results) as [report|e]; [|done].
  rewrite bind_lift. destruct (pyget _ "export_json" _) as [export_json|e]; [|done].
  rewrite bind_run. destruct (truthy export_json); [|done].
  unfold export, report_path. by destruct (write_json _ _) as [[]|e].
Qed.

Lemma report_of_nothing : generate_dq_report utcnow_isoformat [] = Return (empty_report utcnow_isoformat).
Proof. reflexivity. Qed.

(** X24. Called without tables, or with an empty list,
    [run_data_quality_validation] asks [_get_tables_from_metadata], which
    reads the tracked databases and returns no table: nothing is validated.
    The step still creates the results table and hands an empty batch to
    [execute_many], and its report counts zero checks with success rate 0;
    the report is written to a file when [export_json] is set.  A
    [metadata] section that is no mapping makes the step raise before
    anything is executed. *)
Theorem validation_without_tables tables log :
  let report := empty_report utcnow_isoformat in
  let path := report_path utcnow_strftime in
  tables = None \/ tables = Some [] ->
  (_get_tables_from_metadata config = Return [] \/
   _get_tables_from_metadata config = Raise (no_get (get config "metadata" (VDict ∅)))) /\
  (forall v, get config "metadata" (VDict ∅) = v -> (forall d, v <> VDict d) ->
     run tables log = (Raise (no_get v), log)) /\
  (forall (m o : dict),
     let output_table := str repr (get o "dq_results_table" (VStr "DQ_VALIDATION_RESULTS")) in
     let ddl := VStr (validation_ddl output_table) in
     let insert := validation_insert output_table in
     get config "metadata" (VDict ∅) = VDict m ->
     get config "output" (VDict ∅) = VDict o ->
     (forall e, execute_query ddl = Raise e ->
        run tables log = (Raise e, log ++ [ExecuteQuery ddl])) /\
     (forall created, execute_query ddl = Return created ->
        execute_many insert [] = Return () ->
        run tables log
        = if truthy (get o "export_json" py_false)
          then (_ ← write_json path (VDict report); Return report,
                log ++ [ExecuteQuery ddl; ExecuteMany insert []; WriteJson path (VDict report)])
          else (Return report, log ++ [ExecuteQuery ddl; ExecuteMany insert []]))) /\
  report !! "total_checks" = Some (VInt 0) /\
  report !! "success_rate" = Some (VInt 0) /\
  report !! "check_summary" = Some (VList []).
Proof.
  intros report path Htables.
  assert (Hnone : (match tables with
                   | Some (t :: ts) => Return (t :: ts)
                   | _ => _get_tables_from_metadata config
                   end) = _get_tables_from_metadata config).
  { by destruct Htables as [-> | ->]. }
  split; [|split; [|split]].
  - unfold _get_tables_from_metadata.
    destruct (get config "metadata" (VDict ∅)); (by left) || (by right).
  - intros v Hv Hdict. rewrite run_after, Hnone. unfold _get_tables_from_metadata.
    rewrite Hv. destruct v; try done. by destruct (Hdict d).
  - intros m o output_table ddl insert Hm Ho.
    assert (Hrun : run tables log
              = match save [] output_table log with
                | (Raise e, log') => (Raise e, log')
                | (Return _, log') =>
                    if truthy (get o "export_json" py_false)
                    then (_ ← write_json path (VDict report); Return report,
                          log' ++ [WriteJson path (VDict report)])
                    else (Return report, log')
                end).
    { rewrite run_after, Hnone. unfold _get_tables_from_metadata. rewrite Hm, Ho.
      reflexivity. }
    rewrite Hrun, save_validation_run. fold ddl insert. cbn [for_each]. split.
    + by intros e ->.
    + intros created -> ->. destruct (truthy (get o "export_json" py_false)); [|done].
      by rewrite <- app_assoc.
  - unfold report, empty_report. by simplify_map_eq.
Qed.

(** X25. With tables, every table adds the result of
    [run_comprehensive_validation], then a uniqueness result when the
    uniqueness rule is switched on, then a timeliness result when the
    timeliness rule is: no check stops the loop, so the results number the
    tables times the results per table.  All of them go into one batch, and
    the report counts them all. *)
Theorem checks_per_table tables log (dq rules u t o : dict) :
  let output_table := str repr (get o "dq_results_table" (VStr "DQ_VALIDATION_RESULTS")) in
  let ddl := VStr (validation_ddl output_table) in
  let insert := validation_insert output_table in
  let path := report_path utcnow_strftime in
  tables <> [] ->
  get config "data_quality" (VDict ∅) = VDict dq ->
  get dq "rules" (VDict ∅) = VDict rules ->
  get rules "uniqueness" (VDict ∅) = VDict u ->
  get rules "timeliness" (VDict ∅) = VDict t ->
  get config "output" (VDict ∅) = VDict o ->
  exists results,
    for_each (validate (VDict dq)) tables [] = Return results /\
    length results = length tables * per_table u t /\
    (forall table_info, head tables = Some table_info ->
       head results
       = Some (run_comprehensive_validation execute_query utcnow_isoformat repr config
                 (field table_info "database") (field table_info "schema")
                 (field table_info "table") None)) /\
    (forall e, execute_query ddl = Raise e ->
       run (Some tables) log = (Raise e, log ++ [ExecuteQuery ddl])) /\
    (forall created,
       execute_query ddl = Return created ->
       (forall v, exists text, json_dumps v = Return text) ->
       exists data report,
         length data = length results /\
         generate_dq_report utcnow_isoformat results = Return report /\
         report !! "total_checks"
         = Some (VInt (Z.of_nat (length tables * per_table u t))) /\
         run (Some tables) log
         = match execute_many insert data with
           | Raise e => (Raise e, log ++ [ExecuteQuery ddl; ExecuteMany insert data])
           | Return _ =>
               if truthy (get o "export_json" py_false)
               then (_ ← write_json path (VDict report); Return report,
                     log ++ [ExecuteQuery ddl; ExecuteMany insert data;
                             WriteJson path (VDict report)])
               else (Return report, log ++ [ExecuteQuery ddl; ExecuteMany insert data])
           end).
Proof.
  intros output_table ddl insert path Htables Hdq Hrules Hu Ht Ho.
  destruct (validate_loop dq rules u t tables Hrules Hu Ht []) as (results & Hloop & Hlen).
  simpl in Hloop. exists results. split; [done|]. split; [done|].
  assert (Hrun : run (Some tables) log
            = match save results output_table log with
              | (Raise e, log') => (Raise e, log')
              | (Return _, log') =>
                  match generate_dq_report utcnow_isoformat results with
                  | Raise e => (Raise e, log')
                  | Return report =>
                      if truthy (get o "export_json" py_false)
                      then (_ ← write_json path (VDict report); Return report,
                            log' ++ [WriteJson path (VDict report)])
                      else (Return report, log')
                  end
              end).
  { rewrite run_after. destruct tables as [|table_info tables']; [done|].
    rewrite Hdq, Hloop, Ho. reflexivity. }
  split; [|split].
  - intros table_info Hhead. destruct tables as [|table_info' tables']; [done|].
    injection Hhead as ->. cbn [for_each] in Hloop.
    destruct (validate_step dq rules u t [] table_info Hrules Hu Ht)
      as (added & Hstep & Hadded & Hfirst).
    rewrite Hstep, bind_Return in Hloop. simpl in Hloop.
    destruct (validate_loop dq rules u t tables' Hrules Hu Ht added) as (rest & Hrest & _).
    rewrite Hrest in Hloop. injection Hloop as <-.
    destruct added as [|first added]; [done|]. exact Hfirst.
  - intros e He. rewrite Hrun, save_validation_run. fold ddl. by rewrite He.
  - intros created Hddl Hjson.
    destruct (encoded_rows results Hjson []) as (data & Hdata & Hrows). simpl in Hdata.
    destruct (ChecksProofs.generate_dq_report_loop utcnow_isoformat results)
      as (report0 & report1 & rate & _ & _ & _ & _ & _ & Hreport & _ & Htotal & _).
    exists data, (<["success_rate" := rate]> report1).
    split; [done|]. split; [done|]. split.
    { rewrite lookup_insert_ne by done. by rewrite Htotal, Hlen. }
    rewrite Hrun, save_validation_run. fold ddl insert. rewrite Hddl, Hdata, Hreport.
    destruct (execute_many insert data) as [[]|e]; [|done].
    destruct (truthy (get o "export_json" py_false)); [|done]. by rewrite <- app_assoc.
Qed.

(** X26. The pipeline reads the rule switches itself, outside any [try] of
    the validator.  When the [data_quality] section, or its [rules], is no
    mapping (a null entry of the YAML file, say), the step raises the
    AttributeError at the first table: nothing is saved and no report is
    made.  Over null [rules], the comprehensive validation of that table
    itself only reports ERROR. *)
Theorem unreadable_rules_abort table_info tables log :
  (forall v, get config "data_quality" (VDict ∅) = v -> (forall d, v <> VDict d) ->
     run (Some (table_info :: tables)) log = (Raise (no_get v), log)) /\
  (forall (dq : dict) v,
     get config "data_quality" (VDict ∅) = VDict dq ->
     get dq "rules" (VDict ∅) = v -> (forall d, v <> VDict d) ->
     run (Some (table_info :: tables)) log = (Raise (no_get v), log) /\
     run_comprehensive_validation execute_query utcnow_isoformat repr config
       (field table_info "database") (field table_info "schema") (field table_info "table")
       None !! "overall_status" = Some (VStr "ERROR")).
Proof.
  split.
  - intros v Hv Hdict. rewrite run_after, Hv. cbn [for_each].
    unfold validate_table, rule_setting.
    destruct v; try reflexivity. by destruct (Hdict d).
  - intros dq v Hdq Hv Hdict. split.
    + rewrite run_after, Hdq. cbn [for_each]. unfold validate_table, rule_setting.
      cbn [pyget]. rewrite bind_Return, Hv.
      destruct v; try reflexivity. by destruct (Hdict d).
    + unfold run_comprehensive_validation, st_try, comprehensive_checks, completeness_rules.
      rewrite Hdq. cbn [pyget]. rewrite bind_Return, Hv.
      destruct v; try (unfold update; simpl; by simplify_map_eq). by destruct (Hdict d).
Qed.

End Step.

Lemma validation_without_tables_witness :
  run_data_quality_validation empty_warehouse accepting "2024-01-01T00:00:00" sample_repr
    exporting_config sample_now sample_timestamp constant_json "20240101_000000" writing
    None []
  = (Return (empty_report "2024-01-01T00:00:00"),
     [ExecuteQuery (VStr (validation_ddl "DQ"));
      ExecuteMany (validation_insert "DQ") [];
      WriteJson (report_path "20240101_000000") (VDict (empty_report "2024-01-01T00:00:00"))]).
Proof.
  destruct (validation_without_tables empty_warehouse accepting "2024-01-01T00:00:00"
              sample_repr exporting_config sample_now sample_timestamp constant_json
              "20240101_000000" writing None []) as (_ & _ & Hrun & _).
  - by left.
  - destruct (Hrun ∅ {[ "export_json" := py_true; "dq_results_table" := VStr "DQ" ]})
      as (_ & Hsaved).
    + reflexivity.
    + reflexivity.
    + apply (Hsaved []); reflexivity.
Defined.

Lemma checks_per_table_witness :
  exists data report,
    run_data_quality_validation empty_warehouse accepting "2024-01-01T00:00:00" sample_repr
      uniqueness_config sample_now sample_timestamp constant_json "20240101_000000" writing
      (Some [sample_table]) []
    = (Return report,
       [ExecuteQuery (VStr (validation_ddl "DQ_VALIDATION_RESULTS"));
        ExecuteMany (validation_insert "DQ_VALIDATION_RESULTS") data]) /\
    length data = 2 /\
    report !! "total_checks" = Some (VInt 2).
Proof.
  destruct (checks_per_table empty_warehouse accepting "2024-01-01T00:00:00" sample_repr
              uniqueness_config sample_now sample_timestamp constant_json "20240101_000000"
              writing [sample_table] []
              {[ "rules" := VDict {[ "uniqueness" := VDict {[ "enabled" := py_true ]} ]} ]}
              {[ "uniqueness" := VDict {[ "enabled" := py_true ]} ]}
              {[ "enabled" := py_true ]} ∅ ∅)
    as (results & _ & Hlen & _ & _ & Hsave); try reflexivity.
  - intros Hnil. discriminate Hnil.
  - destruct (Hsave []) as (data & report & Hdata & _ & Htotal & Hrun).
    + reflexivity.
    + intros v. by eexists.
    + exists data, report. split; [exact Hrun|]. split.
      * rewrite Hdata. exact Hlen.
      * exact Htotal.
Defined.

Lemma unreadable_rules_abort_witness :
  run_data_quality_validation empty_warehouse accepting "2024-01-01T00:00:00" sample_repr
    null_rules_config sample_now sample_timestamp constant_json "20240101_000000" writing
    (Some [sample_table]) []
  = (Raise (AttributeError "'NoneType' object has no attribute 'get'"), []).
Proof.
  destruct (unreadable_rules_abort empty_warehouse accepting "2024-01-01T00:00:00"
              sample_repr null_rules_config sample_now sample_timestamp constant_json
              "20240101_000000" writing sample_table [] []) as (_ & Hrules).
  destruct (Hrules {[ "rules" := VNone ]} VNone) as (Hrun & _).
  - reflexivity.
  - reflexivity.
  - intros d Hd. discriminate Hd.
  - exact Hrun.
Defined.

End PipelineProofs.
